(** * Medassist: the agent loop and its appointment tools

    A shallow embedding of [backend/app/agent.py] (the class
    [DoctorAssistantAgent]) and [backend/app/mcp_server.py] (the class
    [MCPTools]) together with the tables of [backend/app/models.py] they
    read and write.

    Conventions of the embedding.
    - A Python call either returns, raises an [Exception], or does not
      come back; [Outcome] has one constructor for each, the last one
      being reached when a loop exhausts the fuel it was given.
    - The database is an explicit [World]; a handler returns the world as
      it is after its last [commit]. A session of [async_session_maker]
      (from [app/database.py]) reads the world and writes it on [commit];
      the objects it has loaded stay usable after a commit, as the code
      that follows each commit presupposes.
    - An exception is an instance of [Exception], what [except Exception]
      catches; the cancellation of a task is not modelled.
    - The language model, the calendar, e-mail and notification services,
      the SQL operator [ILIKE], the JSON codec, [uuid] and the calendar
      part of [strftime]/[strptime] are collaborators of the program: they
      are the fields of an environment [Env], over which every statement
      is universally quantified.
    - A naive [datetime] is the number of microseconds since the start of
      the day of ordinal 0, a [date] is its proleptic ordinal
      ([date.toordinal()]); the range check of [datetime] (years 1..9999)
      and time zones are not modelled.
    - Strings are byte strings; [str.lower] and [str.strip] act on ASCII. *)

From Stdlib Require Import ZArith Ascii String List Bool Lia Sorted.
From stdpp Require Import base option list gmap strings.

Set Warnings "-register-all".
Local Open Scope string_scope.
Local Open Scope Z_scope.

(** ** JSON values and Python dictionaries *)

Inductive JValue : Type :=
| JNull
| JBool (b : bool)
| JInt (z : Z)
| JStr (s : string)
| JList (l : list JValue)
| JDict (m : gmap string JValue).

(** A [dict] with string keys: tool arguments, tool results, the context. *)
Abbreviation Dict := (gmap string JValue).

(** Python truthiness of a JSON value ([if v:], [a and b]). *)
Definition truthy (v : JValue) : bool :=
  match v with
  | JNull => false
  | JBool b => b
  | JInt z => negb (z =? 0)
  | JStr s => negb (String.eqb s "")
  | JList l => match l with [] => false | _ => true end
  | JDict m => negb (bool_decide (m = ∅))
  end.

(** [d.get(k)] followed by a truth test: a missing key gives [None]. *)
Definition get_truthy (d : Dict) (k : string) : bool :=
  match d !! k with Some v => truthy v | None => false end.

(** [d.get(k)]: a missing key gives [None]. *)
Definition dict_get (d : Dict) (k : string) : JValue :=
  default JNull (d !! k).

(** [d.get(k, dflt)]. *)
Definition dict_get_default (d : Dict) (k : string) (dflt : JValue) : JValue :=
  default dflt (d !! k).

(** ** Outcomes of a call *)

Inductive Outcome (A : Type) : Type :=
| Returns (a : A)
| Raises (msg : string)   (* an [Exception]; [msg] is [str(e)] *)
| OutOfFuel.              (* the call has not come back within the fuel *)
Arguments Returns {A} a.
Arguments Raises {A} msg.
Arguments OutOfFuel {A}.

Definition bindO {A B} (x : Outcome A) (k : A → Outcome B) : Outcome B :=
  match x with
  | Returns a => k a
  | Raises e => Raises e
  | OutOfFuel => OutOfFuel
  end.

Declare Scope outcome_scope.
Delimit Scope outcome_scope with outcome.
Notation "'let*' x ':=' c 'in' k" := (bindO c (λ x, k))
  (at level 10, x pattern, c at level 100, k at level 200) : outcome_scope.

Definition completes {A} (x : Outcome A) : Prop :=
  x ≠ OutOfFuel.

(** ** Strings *)

Definition dq : string := String (ascii_of_nat 34) EmptyString.

Definition is_upper (c : ascii) : bool :=
  let n := nat_of_ascii c in (65 <=? n)%nat && (n <=? 90)%nat.

Definition lower_ascii (c : ascii) : ascii :=
  if is_upper c then ascii_of_nat (nat_of_ascii c + 32) else c.

(** [s.lower()] *)
Fixpoint lower (s : string) : string :=
  match s with
  | EmptyString => EmptyString
  | String c r => String (lower_ascii c) (lower r)
  end.

Definition is_space (c : ascii) : bool :=
  let n := nat_of_ascii c in
  (n =? 32)%nat || ((9 <=? n)%nat && (n <=? 13)%nat) || ((28 <=? n)%nat && (n <=? 31)%nat).

Fixpoint lstrip (s : string) : string :=
  match s with
  | EmptyString => EmptyString
  | String c r => if is_space c then lstrip r else s
  end.

Fixpoint rstrip (s : string) : string :=
  match s with
  | EmptyString => EmptyString
  | String c r =>
      match rstrip r with
      | EmptyString => if is_space c then EmptyString else String c EmptyString
      | r' => String c r'
      end
  end.

(** [s.strip()] *)
Definition strip (s : string) : string := rstrip (lstrip s).

Fixpoint is_prefix (p s : string) : bool :=
  match p, s with
  | EmptyString, _ => true
  | String a p', String b s' => if Ascii.eqb a b then is_prefix p' s' else false
  | String _ _, EmptyString => false
  end.

(** [p in s] for strings *)
Fixpoint contains (p s : string) : bool :=
  is_prefix p s ||
  match s with
  | EmptyString => false
  | String _ s' => contains p s'
  end.

(** [s.replace("Z", "+00:00")] *)
Fixpoint replace_Z (s : string) : string :=
  match s with
  | EmptyString => EmptyString
  | String c r =>
      if Ascii.eqb c "Z"%char then "+00:00" +:+ replace_Z r
      else String c (replace_Z r)
  end.

Definition digit_val (c : ascii) : option Z :=
  let n := nat_of_ascii c in
  if (48 <=? n)%nat && (n <=? 57)%nat then Some (Z.of_nat n - 48) else None.

Definition digit_char (d : Z) : ascii := ascii_of_nat (Z.to_nat (48 + d mod 10)).

(** Two decimal digits, zero padded ([%02d] for a value in 0..99). *)
Definition two_digits (n : Z) : string :=
  String (digit_char (n / 10)) (String (digit_char n) EmptyString).

(** ** Dates and times *)

Definition date := Z.
Definition datetime := Z.

Definition us_per_minute : Z := 60000000.
Definition us_per_hour : Z := 3600000000.
Definition us_per_day : Z := 86400000000.

(** [timedelta(minutes=m)] and [timedelta(days=d)] *)
Definition timedelta_minutes (m : Z) : Z := m * us_per_minute.

(** A [datetime.time] with hour and minute only, as microseconds. *)
Definition time_of_hm (h m : Z) : Z := h * us_per_hour + m * us_per_minute.

(** [datetime.combine(d, t)] *)
Definition combine (d : date) (t : Z) : datetime := d * us_per_day + t.

(** [datetime.min.time()] and [datetime.max.time()] *)
Definition time_min : Z := 0.
Definition time_max : Z := us_per_day - 1.

Definition dt_date (t : datetime) : date := t / us_per_day.
Definition dt_hour (t : datetime) : Z := (t mod us_per_day) / us_per_hour.
Definition dt_minute (t : datetime) : Z := ((t mod us_per_day) / us_per_minute) mod 60.

(** [d.weekday()]: Monday is 0; ordinal 1 was a Monday. *)
Definition weekday (d : date) : Z := (d + 6) mod 7.

Definition days : list string :=
  ["monday"; "tuesday"; "wednesday"; "thursday"; "friday"; "saturday"; "sunday"].

(** [d.strftime("%A").lower()] *)
Definition day_name (d : date) : string :=
  nth (Z.to_nat (weekday d)) days "".

(** [t.strftime("%I:%M %p")]: the 12-hour clock, zero padded. *)
Definition strftime_I_M_p (t : datetime) : string :=
  let h := dt_hour t in
  let h12 := if h mod 12 =? 0 then 12 else h mod 12 in
  two_digits h12 +:+ ":" +:+ two_digits (dt_minute t) +:+ " " +:+
  (if h <? 12 then "AM" else "PM").

(** The digits matched by [%H] or [%M]: one or two decimal digits. *)
Definition parse_1_2_digits (s : string) : option (Z * string) :=
  match s with
  | String a r =>
      match digit_val a with
      | None => None
      | Some x =>
          match r with
          | String b r' =>
              match digit_val b with
              | Some y => Some (10 * x + y, r')
              | None => Some (x, r)
              end
          | EmptyString => Some (x, r)
          end
      end
  | EmptyString => None
  end.

(** [datetime.strptime(s, "%H:%M").time()]; [None] is [ValueError]. Each
    field is one or two digits, the hour at most 23 and the minute at most
    59, and nothing may follow the minute. *)
Definition strptime_H_M (s : string) : option Z :=
  match parse_1_2_digits s with
  | Some (h, String c r) =>
      if Ascii.eqb c ":"%char then
        match parse_1_2_digits r with
        | Some (m, EmptyString) =>
            if (h <=? 23) && (m <=? 59) then Some (time_of_hm h m) else None
        | _ => None
        end
      else None
  | _ => None
  end.

(** ** The tables of [models.py]

    The records keep the columns that the agent and the tools read or
    write. *)

Definition UUID := N.

Inductive UserRole := PATIENT | DOCTOR | ADMIN.

Inductive AppointmentStatus := SCHEDULED | COMPLETED | CANCELLED | NO_SHOW | RESCHEDULED.

Definition status_eqb (a b : AppointmentStatus) : bool :=
  match a, b with
  | SCHEDULED, SCHEDULED | COMPLETED, COMPLETED | CANCELLED, CANCELLED
  | NO_SHOW, NO_SHOW | RESCHEDULED, RESCHEDULED => true
  | _, _ => false
  end.

Definition role_eqb (a b : UserRole) : bool :=
  match a, b with
  | PATIENT, PATIENT | DOCTOR, DOCTOR | ADMIN, ADMIN => true
  | _, _ => false
  end.

Record User := {
  user_id : UUID;
  user_email : string;
  user_role : UserRole
}.

(** One entry of a doctor's weekly pattern: [{"start": "09:00", "end": "12:00"}] *)
Record TimeSlot := {
  slot_start : string;
  slot_end : string
}.

Record Doctor := {
  doctor_id : UUID;
  doctor_user_id : UUID;
  doctor_name : string;
  doctor_specialty : string;
  doctor_available_slots : gmap string (list TimeSlot);
  doctor_consultation_duration : Z
}.

Record Patient := {
  patient_id : UUID;
  patient_user_id : UUID;
  patient_name : string
}.

Record Appointment := {
  appt_id : UUID;
  appt_doctor_id : UUID;
  appt_patient_id : UUID;
  appt_scheduled_time : datetime;
  appt_duration_minutes : Z;
  appt_status : AppointmentStatus;
  appt_symptoms : option string;
  appt_notes : option string;
  appt_google_calendar_event_id : option string;
  appt_confirmation_sent : bool
}.

(** A stored turn: [{"role", "content", "timestamp"}], and ["tools_used"]
    on the assistant's turns. *)
Record Turn := {
  turn_role : string;
  turn_content : string;
  turn_timestamp : string;
  turn_tools_used : option (list string)
}.

Record ConversationHistory := {
  conv_id : UUID;
  conv_user_id : UUID;
  conv_session_id : string;
  conv_messages : list Turn;
  conv_context : Dict;
  conv_is_active : bool
}.

Record PromptHistory := {
  ph_user_id : UUID;
  ph_session_id : string;
  ph_prompt : string;
  ph_response : string;
  ph_tools_used : list string;
  ph_processing_time_ms : Z;
  ph_tokens_used : option Z;
  ph_success : bool
}.

(** The database, the source of fresh primary keys and the clock. *)
Record World := {
  w_users : list User;
  w_doctors : list Doctor;
  w_patients : list Patient;
  w_appointments : list Appointment;
  w_conversations : list ConversationHistory;
  w_prompts : list PromptHistory;
  w_next_uuid : UUID;
  w_now : datetime
}.

Definition set_appointments (f : list Appointment → list Appointment) (w : World) : World :=
  {| w_users := w_users w; w_doctors := w_doctors w; w_patients := w_patients w;
     w_appointments := f (w_appointments w);
     w_conversations := w_conversations w; w_prompts := w_prompts w;
     w_next_uuid := w_next_uuid w; w_now := w_now w |}.

Definition set_conversations (f : list ConversationHistory → list ConversationHistory)
    (w : World) : World :=
  {| w_users := w_users w; w_doctors := w_doctors w; w_patients := w_patients w;
     w_appointments := w_appointments w;
     w_conversations := f (w_conversations w); w_prompts := w_prompts w;
     w_next_uuid := w_next_uuid w; w_now := w_now w |}.

Definition add_prompt (p : PromptHistory) (w : World) : World :=
  {| w_users := w_users w; w_doctors := w_doctors w; w_patients := w_patients w;
     w_appointments := w_appointments w;
     w_conversations := w_conversations w; w_prompts := (w_prompts w ++ [p])%list;
     w_next_uuid := w_next_uuid w; w_now := w_now w |}.

(** [uuid.uuid4()] as the default of a primary key. *)
Definition fresh_uuid (w : World) : UUID * World :=
  (w_next_uuid w,
   {| w_users := w_users w; w_doctors := w_doctors w; w_patients := w_patients w;
      w_appointments := w_appointments w;
      w_conversations := w_conversations w; w_prompts := w_prompts w;
      w_next_uuid := N.succ (w_next_uuid w); w_now := w_now w |}).

(** ** Messages exchanged with the language model *)

Record ToolCall := {
  tc_id : string;
  tc_name : string;
  tc_arguments : string   (* the raw argument payload *)
}.

(** [response.choices[0].message] and [response.usage.total_tokens] *)
Record ChatResponse := {
  resp_content : option string;
  resp_tool_calls : option (list ToolCall);
  resp_total_tokens : option Z
}.

(** The dictionaries of the in-flight message list. *)
Inductive Message :=
| Msg (role content : string)
    (* [{"role", "content"}] *)
| AssistantToolCalls (content : string) (calls : list ToolCall)
    (* [{"role": "assistant", "content", "tool_calls"}] *)
| ToolResult (name content tool_call_id : string).
    (* [{"role": "tool", "name", "content", "tool_call_id"}] *)

(** ** The collaborators *)

Record Env := {
  (* the database's [value ILIKE pattern] *)
  ilike : string → string → bool;
  (* [uuid.UUID(s)], [None] for [ValueError]; [str(u)] *)
  uuid_parse : string → option UUID;
  uuid_str : UUID → string;
  (* [t.strftime(fmt)] for the formats with a year, month or day *)
  strftime : string → datetime → string;
  (* [datetime.strptime(s, fmt).date()], [None] for [ValueError] *)
  strptime_date : string → string → option date;
  (* [t.isoformat()] and [datetime.fromisoformat(s)], [None] for [ValueError] *)
  isoformat : datetime → string;
  fromisoformat : string → option datetime;
  (* the groups of [re.search(r'(\d{1,2}):?(\d{2})?\s*(am|pm)?', s, re.I)],
     the first two converted by [int] *)
  re_search_time : string → option (Z * option Z * option string);
  (* [json.loads] of a tool call's payload, [None] for [JSONDecodeError]; a
     payload that parses is a JSON object, as the function-calling
     convention has it; [json.dumps(d)] and [json.dumps(d, indent=2)] *)
  json_loads : string → option Dict;
  json_dumps : Dict → string;
  json_dumps_indent2 : Dict → string;
  (* [str(n)] of an integer *)
  format_int : Z → string;
  (* the message of the [TypeError] of a call [handler( **arguments )] whose
     keywords do not fit the handler's parameters *)
  type_error_message : string → Dict → string;
  (* [client.chat.complete(model, messages, tools, tool_choice="auto")] *)
  chat_complete : list Message → ChatResponse;
  (* [GoogleCalendarService] and [EmailService] *)
  calendar_create_event :
    string → datetime → Z → string → list string → Outcome (option string);
  calendar_update_event : string → datetime → Outcome bool;
  calendar_delete_event : string → Outcome bool;
  email_send_appointment_confirmation :
    string → string → string → datetime → string → Outcome bool;
  email_send_reschedule_notification :
    string → string → datetime → datetime → Outcome bool;
  (* the three tools that no statement below looks into *)
  get_patient_stats_tool : Dict → World → Outcome Dict * World;
  send_report_tool : Dict → World → Outcome Dict * World;
  get_appointment_details_tool : Dict → World → Outcome Dict * World;
  (* the message of the [ValueError] of [datetime.strptime(s, fmt)] *)
  strptime_error : string → string → string;
  (* a handler called with a value that is not of the JSON type its tool
     schema declares: whatever Python does with it *)
  ill_typed_call : string → Dict → World → Outcome Dict * World;
  (* [int((time.time() - start_time) * 1000)] *)
  elapsed_ms : Z
}.

(** ** Database sessions *)

(** A computation inside [async with async_session_maker() as session]. *)
Definition Tx (A : Type) : Type := World → Outcome A * World.

Definition ret {A} (a : A) : Tx A := λ w, (Returns a, w).
Definition raise {A} (msg : string) : Tx A := λ w, (Raises msg, w).
Definition lift {A} (o : Outcome A) : Tx A := λ w, (o, w).
Definition get_world : Tx World := λ w, (Returns w, w).

(** A change of the rows followed by [await session.commit()]. *)
Definition commit (f : World → World) : Tx unit := λ w, (Returns tt, f w).

Definition bindT {A B} (m : Tx A) (k : A → Tx B) : Tx B :=
  λ w, match m w with
       | (Returns a, w') => k a w'
       | (Raises e, w') => (Raises e, w')
       | (OutOfFuel, w') => (OutOfFuel, w')
       end.

(** [try: m  except Exception as e: h e] *)
Definition try_exceptT {A} (m : Tx A) (h : string → Tx A) : Tx A :=
  λ w, match m w with
       | (Raises e, w') => h e w'
       | r => r
       end.

Declare Scope tx_scope.
Delimit Scope tx_scope with tx.
Notation "'do*' x ':=' c 'in' k" := (bindT c (λ x, k))
  (at level 10, x pattern, c at level 100, k at level 200) : tx_scope.

(** [result.scalar_one_or_none()] *)
Definition scalar_one_or_none {A} (rows : list A) : Outcome (option A) :=
  match rows with
  | [] => Returns None
  | [x] => Returns (Some x)
  | _ => Raises "Multiple rows were found when one or none was required"
  end.

(** [await session.get(Model, key)] *)
Definition session_get {A} (key_of : A → UUID) (rows : list A) (k : UUID) : option A :=
  List.find (λ r, N.eqb (key_of r) k) rows.

Local Open Scope tx_scope.

(** * [mcp_server.py]: the tools *)

Section MCPTools.

Context (E : Env).

(** ** [_parse_date] and [_parse_datetime] *)

(** The loop over [enumerate(days)] of the branch ["next" in date_str]. *)
Fixpoint next_weekday (today : date) (date_str : string) (i : Z) (ds : list string)
    : option date :=
  match ds with
  | [] => None
  | day :: rest =>
      if contains day date_str then
        let days_ahead := i - weekday today in
        let days_ahead := if days_ahead <=? 0 then days_ahead + 7 else days_ahead in
        Some (today + days_ahead)
      else next_weekday today date_str (i + 1) rest
  end.

Fixpoint try_formats (date_str : string) (formats : list string) : option date :=
  match formats with
  | [] => None
  | fmt :: rest =>
      match strptime_date E date_str fmt with
      | Some d => Some d
      | None => try_formats date_str rest
      end
  end.

Definition parse_date_formats (today : date) (date_str : string) : date :=
  match strptime_date E date_str "%Y-%m-%d" with
  | Some d => d
  | None =>
      match try_formats date_str ["%m/%d/%Y"; "%d/%m/%Y"; "%B %d, %Y"; "%B %d"] with
      | Some d => d
      | None => today
      end
  end.

Definition _parse_date (today : date) (date_str : string) : date :=
  let date_str := strip (lower date_str) in
  if String.eqb date_str "today" || String.eqb date_str "now" then today
  else if String.eqb date_str "tomorrow" then today + 1
  else if String.eqb date_str "yesterday" then today - 1
  else if contains "next" date_str then
    match next_weekday today date_str 0 days with
    | Some d => d
    | None => parse_date_formats today date_str
    end
  else parse_date_formats today date_str.

Definition _parse_datetime (today : date) (dt_str : string) : Outcome datetime :=
  let date_part := _parse_date today dt_str in
  match re_search_time E dt_str with
  | Some (hour, minute, period) =>
      let minute := default 0 minute in
      let is_period p :=
        match period with
        | Some s => negb (String.eqb s "") && String.eqb (lower s) p
        | None => false
        end in
      let hour :=
        if is_period "pm" && (hour <? 12) then hour + 12
        else if is_period "am" && (hour =? 12) then 0
        else hour in
      (* [datetime.min.time().replace(hour=hour, minute=minute)] *)
      if negb ((0 <=? hour) && (hour <=? 23)) then Raises "hour must be in 0..23"
      else if negb ((0 <=? minute) && (minute <=? 59)) then Raises "minute must be in 0..59"
      else Returns (combine date_part (time_of_hm hour minute))
  | None => Returns (combine date_part (time_of_hm 9 0))
  end.

(** [datetime.fromisoformat(s.replace("Z", "+00:00"))], and on [ValueError]
    [self._parse_datetime(s)]. *)
Definition parse_iso_or_natural (today : date) (s : string) : Outcome datetime :=
  match fromisoformat E (replace_Z s) with
  | Some t => Returns t
  | None => _parse_datetime today s
  end.

(** ** Queries *)

(** [select(Doctor).where(Doctor.name.ilike(f"%{doctor_name}%"))] *)
Definition doctors_matching (name : string) (w : World) : list Doctor :=
  List.filter (λ d, ilike E (doctor_name d) ("%" +:+ name +:+ "%")) (w_doctors w).

Definition is_booked_status (s : AppointmentStatus) : bool :=
  status_eqb s SCHEDULED || status_eqb s RESCHEDULED.

(** The appointments that [_check_availability] subtracts. *)
Definition booked_on (doctor : Doctor) (target_date : date) (w : World) : list Appointment :=
  let day_start := combine target_date time_min in
  let day_end := combine target_date time_max in
  List.filter (λ a,
      N.eqb (appt_doctor_id a) (doctor_id doctor)
      && (day_start <=? appt_scheduled_time a)
      && (appt_scheduled_time a <=? day_end)
      && is_booked_status (appt_status a))
    (w_appointments w).

(** The conflict query of [_schedule_appointment]. *)
Definition existing_at (doctor : Doctor) (appt_time : datetime) (w : World)
    : list Appointment :=
  List.filter (λ a,
      N.eqb (appt_doctor_id a) (doctor_id doctor)
      && (appt_scheduled_time a =? appt_time)
      && status_eqb (appt_status a) SCHEDULED)
    (w_appointments w).

Definition patient_users (patient_email : string) (w : World) : list User :=
  List.filter (λ u, String.eqb (user_email u) patient_email && role_eqb (user_role u) PATIENT)
    (w_users w).

Definition patients_of_user (u : UUID) (w : World) : list Patient :=
  List.filter (λ p, N.eqb (patient_user_id p) u) (w_patients w).

Definition update_appointment (id : UUID) (f : Appointment → Appointment) : World → World :=
  set_appointments (List.map (λ a, if N.eqb (appt_id a) id then f a else a)).

(** ** [_check_availability] *)

(** [while current_time + timedelta(minutes=duration) <= slot_end: ...].
    With a duration of 0 the loop of the source never ends. With a
    negative duration its times run backwards until [datetime] leaves its
    range and the addition raises [OverflowError]; the range of [datetime]
    is not modelled, so that such a run exhausts every fuel here. The
    statements on the slots assume a positive duration. *)
Fixpoint scan_window (fuel : nat) (duration : Z) (booked_times : list datetime)
    (slot_end_dt current_time : datetime) (available_slots : list string)
    : Outcome (list string) :=
  match fuel with
  | O => OutOfFuel
  | S fuel' =>
      if current_time + timedelta_minutes duration <=? slot_end_dt then
        let available_slots :=
          if negb (existsb (Z.eqb current_time) booked_times)
          then (available_slots ++ [strftime_I_M_p current_time])%list
          else available_slots in
        scan_window fuel' duration booked_times slot_end_dt
          (current_time + timedelta_minutes duration) available_slots
      else Returns available_slots
  end.

Definition strptime_time (s : string) : Outcome Z :=
  match strptime_H_M s with
  | Some t => Returns t
  | None => Raises (strptime_error E s "%H:%M")
  end.

(** [for slot in day_slots: ...] *)
Fixpoint scan_day (fuel : nat) (duration : Z) (booked_times : list datetime)
    (target_date : date) (day_slots : list TimeSlot) (available_slots : list string)
    : Outcome (list string) :=
  match day_slots with
  | [] => Returns available_slots
  | slot :: rest =>
      (let* start_time := strptime_time (slot_start slot) in
       let* end_time := strptime_time (slot_end slot) in
       let current_time := combine target_date start_time in
       let slot_end_dt := combine target_date end_time in
       let* available_slots :=
         scan_window fuel duration booked_times slot_end_dt current_time available_slots in
       scan_day fuel duration booked_times target_date rest available_slots)%outcome
  end.

(** [s.capitalize()] on ASCII *)
Definition capitalize (s : string) : string :=
  match s with
  | EmptyString => EmptyString
  | String c r =>
      String (if is_upper c then c
              else let n := nat_of_ascii c in
                   if (97 <=? n)%nat && (n <=? 122)%nat then ascii_of_nat (n - 32) else c)
             (lower r)
  end.

Definition date_strftime (fmt : string) (d : date) : string :=
  strftime E fmt (combine d time_min).

Definition _check_availability (fuel : nat) (doctor_name_arg date_arg : string) : Tx Dict :=
  do* w := get_world in
  let target_date := _parse_date (dt_date (w_now w)) date_arg in
  do* doctor := lift (scalar_one_or_none (doctors_matching doctor_name_arg w)) in
  match doctor with
  | None =>
      ret (<["success" := JBool false]>
           (<["message" := JStr ("No doctor found matching '" +:+ doctor_name_arg +:+ "'")]>
           (<["available_slots" := JList []]> ∅)))
  | Some doctor =>
      let day := day_name target_date in
      let day_slots := default [] (doctor_available_slots doctor !! day) in
      match day_slots with
      | [] =>
          ret (<["success" := JBool true]>
               (<["doctor_name" := JStr (doctor_name doctor)]>
               (<["date" := JStr (date_strftime "%Y-%m-%d" target_date)]>
               (<["message" := JStr ("Dr. " +:+ doctor_name doctor +:+
                                     " is not available on " +:+ day +:+ "s")]>
               (<["available_slots" := JList []]> ∅)))))
      | _ =>
          let booked_times := List.map appt_scheduled_time (booked_on doctor target_date w) in
          do* available_slots :=
            lift (scan_day fuel (doctor_consultation_duration doctor) booked_times
                    target_date day_slots []) in
          ret (<["success" := JBool true]>
               (<["doctor_name" := JStr (doctor_name doctor)]>
               (<["doctor_id" := JStr (uuid_str E (doctor_id doctor))]>
               (<["specialty" := JStr (doctor_specialty doctor)]>
               (<["date" := JStr (date_strftime "%Y-%m-%d" target_date)]>
               (<["day" := JStr (capitalize day)]>
               (<["available_slots" := JList (List.map JStr available_slots)]>
               (<["consultation_duration" := JInt (doctor_consultation_duration doctor)]>
               (<["message" := JStr ("Dr. " +:+ doctor_name doctor +:+ " has " +:+
                    format_int E (Z.of_nat (length available_slots)) +:+
                    " available slots on " +:+ date_strftime "%B %d, %Y" target_date)]>
                ∅)))))))))
      end
  end.

(** ** [_schedule_appointment] *)

Definition fresh_id : Tx UUID := λ w, let '(u, w') := fresh_uuid w in (Returns u, w').

Definition set_calendar_event (ev : option string) (a : Appointment) : Appointment :=
  {| appt_id := appt_id a; appt_doctor_id := appt_doctor_id a;
     appt_patient_id := appt_patient_id a;
     appt_scheduled_time := appt_scheduled_time a;
     appt_duration_minutes := appt_duration_minutes a;
     appt_status := appt_status a; appt_symptoms := appt_symptoms a;
     appt_notes := appt_notes a;
     appt_google_calendar_event_id := ev;
     appt_confirmation_sent := appt_confirmation_sent a |}.

Definition set_confirmation_sent (b : bool) (a : Appointment) : Appointment :=
  {| appt_id := appt_id a; appt_doctor_id := appt_doctor_id a;
     appt_patient_id := appt_patient_id a;
     appt_scheduled_time := appt_scheduled_time a;
     appt_duration_minutes := appt_duration_minutes a;
     appt_status := appt_status a; appt_symptoms := appt_symptoms a;
     appt_notes := appt_notes a;
     appt_google_calendar_event_id := appt_google_calendar_event_id a;
     appt_confirmation_sent := b |}.

Definition set_time_status (t : datetime) (st : AppointmentStatus) (a : Appointment)
    : Appointment :=
  {| appt_id := appt_id a; appt_doctor_id := appt_doctor_id a;
     appt_patient_id := appt_patient_id a;
     appt_scheduled_time := t;
     appt_duration_minutes := appt_duration_minutes a;
     appt_status := st; appt_symptoms := appt_symptoms a;
     appt_notes := appt_notes a;
     appt_google_calendar_event_id := appt_google_calendar_event_id a;
     appt_confirmation_sent := appt_confirmation_sent a |}.

Definition set_status_notes (st : AppointmentStatus) (notes : string) (a : Appointment)
    : Appointment :=
  {| appt_id := appt_id a; appt_doctor_id := appt_doctor_id a;
     appt_patient_id := appt_patient_id a;
     appt_scheduled_time := appt_scheduled_time a;
     appt_duration_minutes := appt_duration_minutes a;
     appt_status := st; appt_symptoms := appt_symptoms a;
     appt_notes := Some notes;
     appt_google_calendar_event_id := appt_google_calendar_event_id a;
     appt_confirmation_sent := appt_confirmation_sent a |}.

Definition soft_failure (message : string) : Dict :=
  <["success" := JBool false]> (<["message" := JStr message]> ∅).

Definition is_nonempty (s : string) : bool := negb (String.eqb s "").

Definition _schedule_appointment
    (doctor_name_arg patient_email appointment_datetime symptoms : string) : Tx Dict :=
  do* w := get_world in
  (* Find doctor *)
  do* doctor := lift (scalar_one_or_none (doctors_matching doctor_name_arg w)) in
  match doctor with
  | None => ret (soft_failure ("No doctor found matching '" +:+ doctor_name_arg +:+ "'"))
  | Some doctor =>
  (* Find patient by email *)
  do* user := lift (scalar_one_or_none (patient_users patient_email w)) in
  match user with
  | None =>
      ret (soft_failure ("No patient found with email '" +:+ patient_email +:+
                         "'. Please register first."))
  | Some user =>
  do* patient := lift (scalar_one_or_none (patients_of_user (user_id user) w)) in
  match patient with
  | None => ret (soft_failure "Patient profile not found. Please complete your profile.")
  | Some patient =>
  (* Parse appointment time *)
  do* appt_time := lift (parse_iso_or_natural (dt_date (w_now w)) appointment_datetime) in
  (* Check if slot is still available *)
  do* existing := lift (scalar_one_or_none (existing_at doctor appt_time w)) in
  match existing with
  | Some _ =>
      ret (soft_failure ("Sorry, the " +:+ strftime_I_M_p appt_time +:+
                         " slot is no longer available. Please choose another time."))
  | None =>
  (* Create appointment *)
  do* id := fresh_id in
  let appointment :=
    {| appt_id := id; appt_doctor_id := doctor_id doctor;
       appt_patient_id := patient_id patient;
       appt_scheduled_time := appt_time;
       appt_duration_minutes := doctor_consultation_duration doctor;
       appt_status := SCHEDULED; appt_symptoms := Some symptoms;
       appt_notes := None; appt_google_calendar_event_id := None;
       appt_confirmation_sent := false |} in
  do* _ := commit (set_appointments (λ l, (l ++ [appointment])%list)) in
  (* Create Google Calendar event *)
  do* calendar_event_id :=
    try_exceptT
      (do* ev := lift (calendar_create_event E
                   ("Appointment: " +:+ patient_name patient +:+ " with Dr. " +:+
                    doctor_name doctor)
                   appt_time (doctor_consultation_duration doctor)
                   (if is_nonempty symptoms then "Symptoms: " +:+ symptoms
                    else "Regular checkup")
                   [patient_email]) in
       do* _ := commit (update_appointment id (set_calendar_event ev)) in
       ret ev)
      (λ _, ret None) in
  (* Send confirmation email *)
  do* confirmation_sent :=
    try_exceptT
      (do* _ := lift (email_send_appointment_confirmation E patient_email
                   (patient_name patient) (doctor_name doctor) appt_time symptoms) in
       do* _ := commit (update_appointment id (set_confirmation_sent true)) in
       ret true)
      (λ _, ret false) in
  ret (<["success" := JBool true]>
       (<["appointment_id" := JStr (uuid_str E id)]>
       (<["message" := JStr ("✅ Appointment successfully booked with Dr. " +:+
            doctor_name doctor +:+ " on " +:+
            strftime E "%B %d, %Y at %I:%M %p" appt_time)]>
       (<["details" := JDict
            (<["doctor" := JStr (doctor_name doctor)]>
            (<["specialty" := JStr (doctor_specialty doctor)]>
            (<["patient" := JStr (patient_name patient)]>
            (<["time" := JStr (isoformat E appt_time)]>
            (<["duration" := JStr (format_int E (doctor_consultation_duration doctor)
                                   +:+ " minutes")]>
            (<["calendar_event" := JBool (bool_decide (calendar_event_id ≠ None))]>
            (<["email_sent" := JBool confirmation_sent]> ∅)))))))]>
        ∅))))
  end end end end.

(** ** [_reschedule_appointment] and [_cancel_appointment] *)

(** The names bound at the top level of [mcp_server.py]: its imports, the
    class and the instance. *)
Definition mcp_server_globals : list string :=
  ["uuid"; "datetime"; "timedelta"; "Optional"; "List"; "Any"; "json";
   "select"; "func"; "and_"; "AsyncSession";
   "Doctor"; "Patient"; "Appointment"; "AppointmentStatus";
   "async_session_maker"; "GoogleCalendarService"; "EmailService";
   "NotificationService"; "MCPTools"; "mcp_tools"].

(** Evaluating a name that is not local to the function. *)
Definition load_global (name : string) : Tx unit :=
  if existsb (String.eqb name) mcp_server_globals then ret tt
  else raise ("name '" +:+ name +:+ "' is not defined").

Definition parse_uuid (s : string) : Tx UUID :=
  match uuid_parse E s with
  | Some u => ret u
  | None => raise "badly formed hexadecimal UUID string"
  end.

Definition appointments_by_id (id : UUID) (w : World) : list Appointment :=
  List.filter (λ a, N.eqb (appt_id a) id) (w_appointments w).

Definition has_calendar_event (a : Appointment) : option string :=
  match appt_google_calendar_event_id a with
  | Some ev => if is_nonempty ev then Some ev else None
  | None => None
  end.

Definition _reschedule_appointment
    (appointment_id new_datetime : string) (notify_patient : bool) : Tx Dict :=
  do* appt_uuid := parse_uuid appointment_id in
  do* w := get_world in
  do* appointment := lift (scalar_one_or_none (appointments_by_id appt_uuid w)) in
  match appointment with
  | None => ret (soft_failure "Appointment not found")
  | Some appointment =>
  let old_time := appt_scheduled_time appointment in
  do* new_time := lift (parse_iso_or_natural (dt_date (w_now w)) new_datetime) in
  do* _ := commit (update_appointment (appt_id appointment)
                     (set_time_status new_time RESCHEDULED)) in
  (* Update Google Calendar if exists *)
  do* _ :=
    match has_calendar_event appointment with
    | Some ev =>
        try_exceptT
          (do* _ := lift (calendar_update_event E ev new_time) in ret tt)
          (λ _, ret tt)
    | None => ret tt
    end in
  (* Notify patient *)
  do* _ :=
    if notify_patient then
      do* _ := load_global "Patient" in
      match session_get patient_id (w_patients w) (appt_patient_id appointment) with
      | Some patient =>
          do* _ := load_global "User" in
          match session_get user_id (w_users w) (patient_user_id patient) with
          | Some user =>
              do* _ := lift (email_send_reschedule_notification E (user_email user)
                               (patient_name patient) old_time new_time) in
              ret tt
          | None => ret tt
          end
      | None => ret tt
      end
    else ret tt in
  ret (<["success" := JBool true]>
       (<["message" := JStr ("Appointment rescheduled from " +:+
            strftime E "%B %d at %I:%M %p" old_time +:+ " to " +:+
            strftime E "%B %d at %I:%M %p" new_time)]>
       (<["new_time" := JStr (isoformat E new_time)]> ∅)))
  end.

Definition _cancel_appointment
    (appointment_id reason : string) (notify_patient : bool) : Tx Dict :=
  do* w := get_world in
  do* appt_uuid := parse_uuid appointment_id in
  do* appointment := lift (scalar_one_or_none (appointments_by_id appt_uuid w)) in
  match appointment with
  | None => ret (soft_failure "Appointment not found")
  | Some appointment =>
  do* _ := commit (update_appointment (appt_id appointment)
                     (set_status_notes CANCELLED
                        (if is_nonempty reason then "Cancelled: " +:+ reason
                         else "Cancelled"))) in
  (* Cancel Google Calendar event *)
  do* _ :=
    match has_calendar_event appointment with
    | Some ev =>
        try_exceptT
          (do* _ := lift (calendar_delete_event E ev) in ret tt)
          (λ _, ret tt)
    | None => ret tt
    end in
  ret (<["success" := JBool true]>
       (<["message" := JStr "Appointment cancelled successfully"]> ∅))
  end.

(** ** [_get_all_doctors] *)

Definition _get_all_doctors : Tx Dict :=
  do* w := get_world in
  let doctors_list :=
    List.map (λ d, JDict
        (<["id" := JStr (uuid_str E (doctor_id d))]>
        (<["name" := JStr (doctor_name d)]>
        (<["specialty" := JStr (doctor_specialty d)]>
        (<["consultation_duration" := JInt (doctor_consultation_duration d)]> ∅)))))
      (w_doctors w) in
  ret (<["success" := JBool true]>
       (<["doctors" := JList doctors_list]>
       (<["count" := JInt (Z.of_nat (length doctors_list))]>
       (<["message" := JStr ("Found " +:+ format_int E (Z.of_nat (length doctors_list))
                             +:+ " doctors available.")]> ∅)))).

(** ** [execute_tool] *)

(** A bound method of [MCPTools] applied as [handler( **arguments )]. The
    fuel bounds the iterations of each loop the handler runs. *)
Definition Handler : Type := nat → Dict → Tx Dict.

Definition keys_subset (arguments : Dict) (params : list string) : bool :=
  forallb (λ k, existsb (String.eqb k) params) (List.map fst (map_to_list arguments)).

Definition keys_present (arguments : Dict) (required : list string) : bool :=
  forallb (λ k, bool_decide (is_Some (arguments !! k))) required.

(** The binding of the keywords to the parameters of a handler: a keyword
    that is no parameter and a missing parameter without default are a
    [TypeError]. *)
Definition bind_kwargs (tool : string) (required optional : list string)
    (arguments : Dict) : Tx unit :=
  if keys_subset arguments (required ++ optional)%list && keys_present arguments required
  then ret tt
  else raise (type_error_message E tool arguments).

Definition call_check_availability : Handler := λ fuel arguments,
  do* _ := bind_kwargs "_check_availability" ["doctor_name"; "date"] [] arguments in
  match arguments !! "doctor_name", arguments !! "date" with
  | Some (JStr doctor_name), Some (JStr date) =>
      _check_availability fuel doctor_name date
  | _, _ => ill_typed_call E "_check_availability" arguments
  end.

Definition call_schedule_appointment : Handler := λ fuel arguments,
  do* _ := bind_kwargs "_schedule_appointment"
             ["doctor_name"; "patient_email"; "appointment_datetime"] ["symptoms"]
             arguments in
  match arguments !! "doctor_name", arguments !! "patient_email",
        arguments !! "appointment_datetime",
        default (JStr "") (arguments !! "symptoms") with
  | Some (JStr doctor_name), Some (JStr patient_email),
    Some (JStr appointment_datetime), JStr symptoms =>
      _schedule_appointment doctor_name patient_email appointment_datetime symptoms
  | _, _, _, _ => ill_typed_call E "_schedule_appointment" arguments
  end.

Definition call_reschedule_appointment : Handler := λ fuel arguments,
  do* _ := bind_kwargs "_reschedule_appointment"
             ["appointment_id"; "new_datetime"] ["notify_patient"] arguments in
  match arguments !! "appointment_id", arguments !! "new_datetime",
        default (JBool true) (arguments !! "notify_patient") with
  | Some (JStr appointment_id), Some (JStr new_datetime), JBool notify_patient =>
      _reschedule_appointment appointment_id new_datetime notify_patient
  | _, _, _ => ill_typed_call E "_reschedule_appointment" arguments
  end.

Definition call_cancel_appointment : Handler := λ fuel arguments,
  do* _ := bind_kwargs "_cancel_appointment"
             ["appointment_id"] ["reason"; "notify_patient"] arguments in
  match arguments !! "appointment_id",
        default (JStr "") (arguments !! "reason"),
        default (JBool true) (arguments !! "notify_patient") with
  | Some (JStr appointment_id), JStr reason, JBool notify_patient =>
      _cancel_appointment appointment_id reason notify_patient
  | _, _, _ => ill_typed_call E "_cancel_appointment" arguments
  end.

Definition call_get_all_doctors : Handler := λ fuel arguments,
  do* _ := bind_kwargs "_get_all_doctors" [] [] arguments in
  _get_all_doctors.

(** The dictionary [tool_map] of [execute_tool], in its order. *)
Definition tool_map : list (string * Handler) :=
  [ ("check_doctor_availability", call_check_availability);
    ("schedule_appointment", call_schedule_appointment);
    ("get_patient_statistics", λ _, get_patient_stats_tool E);
    ("send_doctor_report", λ _, send_report_tool E);
    ("reschedule_appointment", call_reschedule_appointment);
    ("get_all_doctors", call_get_all_doctors);
    ("get_appointment_details", λ _, get_appointment_details_tool E);
    ("cancel_appointment", call_cancel_appointment) ].

Fixpoint lookup_tool (tools : list (string * Handler)) (tool_name : string)
    : option Handler :=
  match tools with
  | [] => None
  | (n, h) :: rest => if String.eqb n tool_name then Some h else lookup_tool rest tool_name
  end.

Definition error_payload (message : string) : Dict :=
  <["error" := JStr message]> ∅.

(** [execute_tool] over any table of handlers. *)
Definition execute_tool_in (tools : list (string * Handler))
    (fuel : nat) (tool_name : string) (arguments : Dict) : Tx Dict :=
  match lookup_tool tools tool_name with
  | None => ret (error_payload ("Unknown tool: " +:+ tool_name))
  | Some handler =>
      try_exceptT (handler fuel arguments) (λ e, ret (error_payload e))
  end.

Definition execute_tool : nat → string → Dict → Tx Dict :=
  execute_tool_in tool_map.

End MCPTools.

(** * [agent.py]: the agent loop *)

Section Agent.

Context (E : Env).

(** ** [_get_system_prompt] *)

Definition base_prompt (now_text : string) : string :=
"You are a helpful medical appointment assistant for a healthcare clinic. 
You help patients book appointments with doctors and help doctors manage their schedules and view reports.

IMPORTANT GUIDELINES:
1. Be professional, friendly, and empathetic
2. Always confirm important details before taking actions
3. Use the provided tools to check availability, book appointments, and retrieve information
4. Maintain context from previous messages in the conversation
5. If you're unsure about something, ask for clarification
6. Format responses in a clear, easy-to-read manner
7. Include relevant details like appointment times, doctor names, and confirmation numbers

CURRENT DATE AND TIME: " +:+ now_text.

Definition patient_prompt : string :=
"

PATIENT CONTEXT:
You are helping a patient. They can:
- Ask about doctor availability
- Book, reschedule, or cancel appointments
- Check their upcoming appointments
- Ask questions about their scheduled visits

When booking appointments:
1. First check doctor availability using check_doctor_availability
2. Present available slots clearly
3. Confirm the chosen slot before booking
4. Use schedule_appointment to complete the booking
5. Confirm success and provide appointment details

For multi-turn conversations, remember:
- If patient has already asked about a specific doctor, don't ask again
- If they say " +:+ dq +:+ "book the 3 PM slot" +:+ dq +:+ ", use context to know which doctor
- Maintain context about dates and doctors discussed".

Definition doctor_prompt : string :=
"

DOCTOR CONTEXT:
You are helping a doctor manage their practice. They can:
- View patient statistics (yesterday's visits, today's appointments, etc.)
- Get summary reports about specific symptoms or conditions
- Send reports via Slack or other channels
- View their schedule

When generating reports:
1. Use get_patient_statistics to gather data
2. Format the report in a professional, scannable format
3. Offer to send the report via their preferred channel
4. Use send_doctor_report when they want to receive it

For queries like " +:+ dq +:+ "How many patients with fever?" +:+ dq +:+ ", use the by_symptom query type.".

Definition _get_system_prompt (now : datetime) (user_role : string) (user_context : Dict)
    : string :=
  let role_prompt :=
    if String.eqb user_role "patient" then patient_prompt
    else if String.eqb user_role "doctor" then doctor_prompt
    else "" in
  let context_prompt :=
    if truthy (JDict user_context) then
"

CONVERSATION CONTEXT:
" +:+ json_dumps_indent2 E user_context +:+ "

Use this context to understand references to previous messages."
    else "" in
  base_prompt (strftime E "%B %d, %Y at %I:%M %p" now) +:+ role_prompt +:+ context_prompt.

(** ** [_build_messages] *)

(** [l[-n:]] for a positive [n] *)
Definition last_n {A} (n : nat) (l : list A) : list A :=
  skipn (length l - n) l.

Definition _build_messages (now : datetime) (conversation : ConversationHistory)
    (user_message user_role : string) (user_context : Dict) : list Message :=
  let messages := [Msg "system" (_get_system_prompt now user_role user_context)] in
  (* last 10 messages for context window management *)
  let history := last_n 10 (conv_messages conversation) in
  let messages :=
    (messages ++ List.map (λ msg, Msg (turn_role msg) (turn_content msg)) history)%list in
  (messages ++ [Msg "user" user_message])%list.

(** ** [_get_user_context], [_get_doctor_profile], [_get_or_create_conversation] *)

Definition doctors_of_user (u : UUID) (w : World) : list Doctor :=
  List.filter (λ d, N.eqb (doctor_user_id d) u) (w_doctors w).

(** The body is inside [try: ... except Exception], which returns the
    context built so far. *)
Definition _get_user_context (w : World) (user_id_arg user_role : string) : Dict :=
  match uuid_parse E user_id_arg with
  | None => ∅
  | Some uid =>
      match session_get user_id (w_users w) uid with
      | None => ∅
      | Some user =>
          let context : Dict := <["user_email" := JStr (user_email user)]> ∅ in
          if String.eqb user_role "patient" then
            match scalar_one_or_none (patients_of_user (user_id user) w) with
            | Returns (Some patient) =>
                <["patient_id" := JStr (uuid_str E (patient_id patient))]>
                  (<["patient_name" := JStr (patient_name patient)]> context)
            | _ => context
            end
          else if String.eqb user_role "doctor" then
            match scalar_one_or_none (doctors_of_user (user_id user) w) with
            | Returns (Some doctor) =>
                <["specialty" := JStr (doctor_specialty doctor)]>
                  (<["doctor_id" := JStr (uuid_str E (doctor_id doctor))]>
                  (<["doctor_name" := JStr (doctor_name doctor)]> context))
            | _ => context
            end
          else context
      end
  end.

Definition _get_doctor_profile (w : World) (uid : UUID) : Outcome (option Doctor) :=
  scalar_one_or_none (doctors_of_user uid w).

Definition parse_user_id (s : string) : Tx UUID :=
  match uuid_parse E s with
  | Some u => ret u
  | None => raise "badly formed hexadecimal UUID string"
  end.

Definition active_conversations (uid : UUID) (session_id : string) (w : World)
    : list ConversationHistory :=
  List.filter (λ c, N.eqb (conv_user_id c) uid
                    && String.eqb (conv_session_id c) session_id
                    && Bool.eqb (conv_is_active c) true)
    (w_conversations w).

(** The row and whether it was just added to the session (it reaches the
    table with the commit that ends [process_message]). *)
Definition _get_or_create_conversation (user_id_arg session_id : string)
    : Tx (ConversationHistory * bool) :=
  do* uid := parse_user_id user_id_arg in
  do* w := get_world in
  do* conversation := lift (scalar_one_or_none (active_conversations uid session_id w)) in
  match conversation with
  | Some c => ret (c, false)
  | None =>
      do* id := fresh_id in
      ret ({| conv_id := id; conv_user_id := uid; conv_session_id := session_id;
              conv_messages := []; conv_context := ∅; conv_is_active := true |}, true)
  end.

(** ** [process_message] *)

(** [k in d] *)
Definition has_key (d : Dict) (k : string) : bool := bool_decide (is_Some (d !! k)).

(** [try: json.loads(raw)  except json.JSONDecodeError: {}] *)
Definition parse_arguments (raw : string) : Dict :=
  match json_loads E raw with
  | Some arguments => arguments
  | None => ∅
  end.

Definition doctor_tools : list string :=
  ["get_patient_statistics"; "send_doctor_report"; "get_appointment_details"].

(** Inject doctor_id for doctor tools if needed *)
Definition inject_doctor_id (user_role tool_name : string) (context arguments : Dict) : Dict :=
  if String.eqb user_role "doctor" && negb (has_key arguments "doctor_id") then
    if existsb (String.eqb tool_name) doctor_tools then
      match context !! "doctor_id" with
      | Some v => <["doctor_id" := v]> arguments
      | None => arguments
      end
    else arguments
  else arguments.

(** Inject patient email for patient tools *)
Definition inject_patient_email (w : World) (uid : UUID) (user_role tool_name : string)
    (arguments : Dict) : Dict :=
  if String.eqb user_role "patient" && negb (has_key arguments "patient_email") then
    if String.eqb tool_name "schedule_appointment" then
      match session_get user_id (w_users w) uid with
      | Some user => <["patient_email" := JStr (user_email user)]> arguments
      | None => arguments
      end
    else arguments
  else arguments.

(** Use context for partial references *)
Definition inject_doctor_name (tool_name : string) (context arguments : Dict) : Dict :=
  if String.eqb tool_name "schedule_appointment" then
    match context !! "last_doctor_name" with
    | Some v => if negb (has_key arguments "doctor_name")
                then <["doctor_name" := v]> arguments else arguments
    | None => arguments
    end
  else arguments.

(** Update context with doctor info if checking availability *)
Definition capture_availability (result context : Dict) : Dict :=
  if get_truthy result "success" && get_truthy result "doctor_id" then
    <["available_slots" := dict_get_default result "available_slots" (JList [])]>
      (<["last_date" := dict_get result "date"]>
      (<["last_doctor_name" := dict_get result "doctor_name"]>
      (<["last_doctor_id" := dict_get result "doctor_id"]> context)))
  else context.

(** The arguments with which the tool of a call is executed. *)
Definition executed_arguments (w : World) (uid : UUID) (user_role : string)
    (context : Dict) (tool_name : string) (arguments : Dict) : Dict :=
  let arguments := inject_doctor_id user_role tool_name context arguments in
  let arguments := inject_patient_email w uid user_role tool_name arguments in
  if String.eqb tool_name "check_doctor_availability" then arguments
  else inject_doctor_name tool_name context arguments.

(** One pass of [for tool_call in assistant_message.tool_calls], after
    [tools_used.append(tool_name)]: the new context and the tool message. *)
Definition handle_tool_call (fuel : nat) (uid : UUID) (user_role : string)
    (context : Dict) (tool_call : ToolCall) : Tx (Dict * Message) :=
  let tool_name := tc_name tool_call in
  let arguments := parse_arguments (tc_arguments tool_call) in
  do* w := get_world in
  let arguments := executed_arguments w uid user_role context tool_name arguments in
  do* result := execute_tool E fuel tool_name arguments in
  let context :=
    if String.eqb tool_name "check_doctor_availability"
    then capture_availability result context
    else context in
  ret (context, ToolResult tool_name (json_dumps E result) (tc_id tool_call)).

(** The locals of [process_message] that the loop changes; [ls_rounds]
    counts the calls of the model. *)
Record LoopState := {
  ls_messages : list Message;
  ls_context : Dict;
  ls_stored_context : Dict;       (* [conversation.context] *)
  ls_tools_used : list string;
  ls_response : ChatResponse;
  ls_rounds : nat
}.

(** The [for] loop of one round. *)
Fixpoint handle_tool_calls (fuel : nat) (uid : UUID) (user_role : string)
    (tool_calls : list ToolCall) (context : Dict) (tools_used : list string)
    (tool_results : list Message) : Tx (Dict * list string * list Message) :=
  match tool_calls with
  | [] => ret (context, tools_used, tool_results)
  | tool_call :: rest =>
      let tools_used := (tools_used ++ [tc_name tool_call])%list in
      do* (context, tool_result) := handle_tool_call fuel uid user_role context tool_call in
      handle_tool_calls fuel uid user_role rest context tools_used
        (tool_results ++ [tool_result])%list
  end.

(** The tool calls on which [while assistant_message.tool_calls] goes on:
    [None] and the empty list are false. *)
Definition pending_tool_calls (r : ChatResponse) : list ToolCall :=
  default [] (resp_tool_calls r).

(** The body of the [while] loop. *)
Definition loop_round (fuel : nat) (uid : UUID) (user_role : string) (st : LoopState)
    : Tx LoopState :=
  let tool_calls := pending_tool_calls (ls_response st) in
  do* (context, tools_used, tool_results) :=
    handle_tool_calls fuel uid user_role tool_calls (ls_context st) (ls_tools_used st) [] in
  let messages :=
    (ls_messages st
       ++ [AssistantToolCalls (default "" (resp_content (ls_response st))) tool_calls]
       ++ tool_results)%list in
  ret {| ls_messages := messages;
         ls_context := context;
         ls_stored_context := context;
         ls_tools_used := tools_used;
         ls_response := chat_complete E messages;
         ls_rounds := S (ls_rounds st) |}.

(** [while assistant_message.tool_calls: ...]; [n] bounds the rounds. *)
Fixpoint agent_loop (n : nat) (fuel : nat) (uid : UUID) (user_role : string)
    (st : LoopState) : Tx LoopState :=
  match pending_tool_calls (ls_response st) with
  | [] => ret st
  | _ :: _ =>
      match n with
      | O => lift OutOfFuel
      | S n' =>
          do* st' := loop_round fuel uid user_role st in
          agent_loop n' fuel uid user_role st'
      end
  end.

Record Reply := {
  reply_message : string;
  reply_session_id : string;
  reply_tools_used : list string;
  reply_context : Dict;
  reply_processing_time_ms : Z;
  reply_rounds : nat               (* not in the source: the calls of the model *)
}.

Definition set_messages_context (messages : list Turn) (context : Dict)
    (c : ConversationHistory) : ConversationHistory :=
  {| conv_id := conv_id c; conv_user_id := conv_user_id c;
     conv_session_id := conv_session_id c;
     conv_messages := messages; conv_context := context;
     conv_is_active := conv_is_active c |}.

(** The rows of the session written by the final [commit]. *)
Definition save_conversation (c : ConversationHistory) (is_new : bool) (w : World) : World :=
  if is_new then set_conversations (λ l, (l ++ [c])%list) w
  else set_conversations
         (List.map (λ r, if N.eqb (conv_id r) (conv_id c) then c else r)) w.

Definition apology : string :=
  "I apologize, but I couldn't generate a response. Please try again.".

Definition process_message (fuel : nat) (user_message user_id_arg : string)
    (session_id : option string) (user_role : string) : Tx Reply :=
  (* Generate session ID if not provided *)
  do* session_id :=
    match session_id with
    | Some sid => if is_nonempty sid then ret sid
                  else (do* u := fresh_id in ret (uuid_str E u))
    | None => do* u := fresh_id in ret (uuid_str E u)
    end in
  (* Get or create conversation history *)
  do* (conversation, is_new) := _get_or_create_conversation user_id_arg session_id in
  do* uid := parse_user_id user_id_arg in
  do* w := get_world in
  (* Build messages with context *)
  let messages :=
    _build_messages (w_now w) conversation user_message user_role
      (_get_user_context w user_id_arg user_role) in
  (* Add user message to history *)
  let new_messages :=
    (conv_messages conversation
       ++ [{| turn_role := "user"; turn_content := user_message;
              turn_timestamp := isoformat E (w_now w);
              turn_tools_used := None |}])%list in
  (* Get context for agent *)
  let context := conv_context conversation in
  (* If user is a doctor, add their doctor_id to context *)
  do* context :=
    if String.eqb user_role "doctor" then
      do* doctor := lift (_get_doctor_profile w uid) in
      match doctor with
      | Some doctor =>
          ret (<["doctor_name" := JStr (doctor_name doctor)]>
               (<["doctor_id" := JStr (uuid_str E (doctor_id doctor))]> context))
      | None => ret context
      end
    else ret context in
  (* Call the model with tools *)
  let st := {| ls_messages := messages; ls_context := context;
               ls_stored_context := conv_context conversation;
               ls_tools_used := [];
               ls_response := chat_complete E messages;
               ls_rounds := 1 |} in
  (* Handle tool calls *)
  do* st := agent_loop fuel fuel uid user_role st in
  (* Final response *)
  let final_response :=
    match resp_content (ls_response st) with
    | Some c => if is_nonempty c then c else apology
    | None => apology
    end in
  (* Update conversation history *)
  let final_messages :=
    (new_messages
       ++ [{| turn_role := "assistant"; turn_content := final_response;
              turn_timestamp := isoformat E (w_now w);
              turn_tools_used := Some (ls_tools_used st) |}])%list in
  let prompt_history :=
    {| ph_user_id := uid; ph_session_id := session_id; ph_prompt := user_message;
       ph_response := final_response; ph_tools_used := ls_tools_used st;
       ph_processing_time_ms := elapsed_ms E;
       ph_tokens_used := resp_total_tokens (ls_response st);
       ph_success := true |} in
  (* Commit all changes *)
  do* _ := commit (λ w,
             add_prompt prompt_history
               (save_conversation
                  (set_messages_context final_messages (ls_stored_context st) conversation)
                  is_new w)) in
  ret {| reply_message := final_response; reply_session_id := session_id;
         reply_tools_used := ls_tools_used st; reply_context := ls_context st;
         reply_processing_time_ms := elapsed_ms E;
         reply_rounds := ls_rounds st |}.

(** ** [clear_conversation] *)

Definition conversations_of (uid : UUID) (session_id : string) (w : World)
    : list ConversationHistory :=
  List.filter (λ c, N.eqb (conv_user_id c) uid
                    && String.eqb (conv_session_id c) session_id)
    (w_conversations w).

Definition deactivate (c : ConversationHistory) : ConversationHistory :=
  {| conv_id := conv_id c; conv_user_id := conv_user_id c;
     conv_session_id := conv_session_id c;
     conv_messages := conv_messages c; conv_context := conv_context c;
     conv_is_active := false |}.

Definition clear_conversation (user_id_arg session_id : string) : Tx bool :=
  do* uid := parse_user_id user_id_arg in
  do* w := get_world in
  do* conversation := lift (scalar_one_or_none (conversations_of uid session_id w)) in
  match conversation with
  | Some c =>
      do* _ := commit (set_conversations
                 (List.map (λ r, if N.eqb (conv_id r) (conv_id c) then deactivate r else r))) in
      ret true
  | None => ret false
  end.

End Agent.

(** * The vocabulary of the statements *)



Definition captured_keys : list string :=
  ["last_doctor_id"; "last_doctor_name"; "last_date"; "available_slots"].

(** The starts of the buckets of a window: [n] strides of [d] from [t]. *)
Fixpoint strides (n : nat) (d : Z) (t : datetime) : list datetime :=
  match n with
  | O => []
  | S n' => t :: strides n' d (t + d)
  end.

(** How many buckets of [duration] minutes fit between two instants. *)
Definition window_count (duration : Z) (window_start window_end : datetime) : nat :=
  Z.to_nat ((window_end - window_start) / timedelta_minutes duration).

Definition window_starts (duration : Z) (window_start window_end : datetime)
    : list datetime :=
  strides (window_count duration window_start window_end)
    (timedelta_minutes duration) window_start.

Definition is_free (booked_times : list datetime) (t : datetime) : bool :=
  negb (existsb (Z.eqb t) booked_times).

(** The slots that a window contributes. *)
Definition open_slots (duration : Z) (booked_times : list datetime)
    (window_start window_end : datetime) : list string :=
  List.map strftime_I_M_p
    (List.filter (is_free booked_times) (window_starts duration window_start window_end)).

(** The windows of a day once their bounds are parsed. *)
Fixpoint day_windows (target_date : date) (day_slots : list TimeSlot)
    : option (list (datetime * datetime)) :=
  match day_slots with
  | [] => Some []
  | slot :: rest =>
      match strptime_H_M (slot_start slot), strptime_H_M (slot_end slot),
            day_windows target_date rest with
      | Some s, Some e, Some ws => Some ((combine target_date s, combine target_date e) :: ws)
      | _, _, _ => None
      end
  end.

Definition morning_slots : list string :=
  ["09:00 AM"; "09:30 AM"; "10:00 AM"; "10:30 AM"; "11:00 AM"; "11:30 AM"].

Definition strip_turn (t : Turn) : Message := Msg (turn_role t) (turn_content t).

(** A result with a true ["success"]. *)
Definition succeeded (o : Outcome Dict) : bool :=
  match o with
  | Returns d => get_truthy d "success"
  | _ => false
  end.

(** What identifies a booking: doctor, instant and status. *)
Definition booking (a : Appointment) : UUID * datetime * AppointmentStatus :=
  (appt_doctor_id a, appt_scheduled_time a, appt_status a).

Definition bookings (w : World) : list (UUID * datetime * AppointmentStatus) :=
  List.map booking (w_appointments w).

Section Turns.

Context (E : Env).

Definition user_turn (now : datetime) (user_message : string) : Turn :=
  {| turn_role := "user"; turn_content := user_message;
     turn_timestamp := isoformat E now; turn_tools_used := None |}.

Definition assistant_turn (now : datetime) (text : string) (tools_used : list string) : Turn :=
  {| turn_role := "assistant"; turn_content := text;
     turn_timestamp := isoformat E now; turn_tools_used := Some tools_used |}.


End Turns.



(** * A concrete environment

    A clinic with one doctor and one patient, and collaborators that work:
    the calendar accepts every event, mail is sent, and the model answers
    in plain text. The statements below are instantiated here. *)

Module Demo.

(** Days since 0001-01-01 (ordinal 1) from a civil date, and back. *)
Definition ordinal_of_ymd (y m d : Z) : date :=
  let y := if m <=? 2 then y - 1 else y in
  let era := y / 400 in
  let yoe := y - era * 400 in
  let doy := (153 * (if 2 <? m then m - 3 else m + 9) + 2) / 5 + d - 1 in
  let doe := yoe * 365 + yoe / 4 - yoe / 100 + doy in
  era * 146097 + doe - 719468 + 719163.

Definition ymd_of_ordinal (o : date) : Z * Z * Z :=
  let z := o - 719163 + 719468 in
  let era := z / 146097 in
  let doe := z - era * 146097 in
  let yoe := (doe - doe / 1460 + doe / 36524 - doe / 146096) / 365 in
  let y := yoe + era * 400 in
  let doy := doe - (365 * yoe + yoe / 4 - yoe / 100) in
  let mp := (5 * doy + 2) / 153 in
  let d := doy - (153 * mp + 2) / 5 + 1 in
  let m := if mp <? 10 then mp + 3 else mp - 9 in
  (if m <=? 2 then y + 1 else y, m, d).

Definition four_digits (n : Z) : string := two_digits (n / 100) +:+ two_digits (n mod 100).

Definition month_names : list string :=
  ["January"; "February"; "March"; "April"; "May"; "June"; "July"; "August";
   "September"; "October"; "November"; "December"].

Definition fmt_Y_m_d (o : date) : string :=
  let '(y, m, d) := ymd_of_ordinal o in
  four_digits y +:+ "-" +:+ two_digits m +:+ "-" +:+ two_digits d.

Definition fmt_B_d (o : date) : string :=
  let '(y, m, d) := ymd_of_ordinal o in
  nth (Z.to_nat (m - 1)) month_names "" +:+ " " +:+ two_digits d.

Definition fmt_B_d_Y (o : date) : string :=
  let '(y, m, d) := ymd_of_ordinal o in
  fmt_B_d o +:+ ", " +:+ four_digits y.

Definition demo_strftime (fmt : string) (t : datetime) : string :=
  if String.eqb fmt "%Y-%m-%d" then fmt_Y_m_d (dt_date t)
  else if String.eqb fmt "%B %d, %Y" then fmt_B_d_Y (dt_date t)
  else if String.eqb fmt "%B %d at %I:%M %p"
       then fmt_B_d (dt_date t) +:+ " at " +:+ strftime_I_M_p t
  else if String.eqb fmt "%B %d, %Y at %I:%M %p"
       then fmt_B_d_Y (dt_date t) +:+ " at " +:+ strftime_I_M_p t
  else fmt.

Definition demo_isoformat (t : datetime) : string :=
  fmt_Y_m_d (dt_date t) +:+ "T" +:+ two_digits (dt_hour t) +:+ ":" +:+
  two_digits (dt_minute t) +:+ ":00".

Fixpoint digits_value (acc : Z) (s : string) : option Z :=
  match s with
  | EmptyString => Some acc
  | String c r =>
      match digit_val c with
      | Some d => digits_value (10 * acc + d) r
      | None => None
      end
  end.

Definition number (s : string) : option Z :=
  match s with
  | EmptyString => None
  | _ => digits_value 0 s
  end.

(** [YYYY-MM-DDTHH:MM:SS] *)
Definition demo_fromisoformat (s : string) : option datetime :=
  if negb (Nat.eqb (String.length s) 19) then None
  else
    match number (substring 0 4 s), number (substring 5 2 s), number (substring 8 2 s),
          number (substring 11 2 s), number (substring 14 2 s), number (substring 17 2 s) with
    | Some y, Some m, Some d, Some hh, Some mm, Some ss =>
        if String.eqb (substring 4 1 s) "-" && String.eqb (substring 7 1 s) "-"
           && String.eqb (substring 10 1 s) "T" && String.eqb (substring 13 1 s) ":"
           && String.eqb (substring 16 1 s) ":"
           && (1 <=? m) && (m <=? 12) && (1 <=? d) && (d <=? 28)
           && (hh <=? 23) && (mm <=? 59) && (ss <=? 59)
        then Some (combine (ordinal_of_ymd y m d) (time_of_hm hh mm) + ss * 1000000)
        else None
    | _, _, _, _, _, _ => None
    end.

(** Primary keys are written in decimal. *)
Definition demo_uuid_parse (s : string) : option UUID :=
  match number s with
  | Some z => Some (Z.to_N z)
  | None => None
  end.

Fixpoint decimal (fuel : nat) (n : Z) (acc : string) : string :=
  match fuel with
  | O => acc
  | S f =>
      let acc := String (digit_char n) acc in
      if n <? 10 then acc else decimal f (n / 10) acc
  end.

Definition demo_format_int (n : Z) : string := decimal 40 n "".
Definition demo_uuid_str (u : UUID) : string := demo_format_int (Z.of_N u).

(** [value ILIKE '%name%'] for a name without wildcard characters. *)
Definition demo_ilike (value pattern : string) : bool :=
  let inner := substring 1 (String.length pattern - 2) pattern in
  contains (lower inner) (lower value).

(** The payloads of the tool calls used below. *)
Definition payload_empty : string := "{}".
Definition payload_malformed : string := "{doctor_name: ".
Definition payload_statistics : string :=
  "{" +:+ dq +:+ "query_type" +:+ dq +:+ ": " +:+ dq +:+ "today" +:+ dq +:+ "}".
Definition payload_statistics_for_7 : string :=
  "{" +:+ dq +:+ "query_type" +:+ dq +:+ ": " +:+ dq +:+ "today" +:+ dq +:+ ", "
      +:+ dq +:+ "doctor_id" +:+ dq +:+ ": " +:+ dq +:+ "7" +:+ dq +:+ "}".
Definition payload_check_smith_today : string :=
  "{" +:+ dq +:+ "doctor_name" +:+ dq +:+ ": " +:+ dq +:+ "Smith" +:+ dq +:+ ", "
      +:+ dq +:+ "date" +:+ dq +:+ ": " +:+ dq +:+ "today" +:+ dq +:+ "}".
Definition payload_check_smith_tomorrow : string :=
  "{" +:+ dq +:+ "doctor_name" +:+ dq +:+ ": " +:+ dq +:+ "Smith" +:+ dq +:+ ", "
      +:+ dq +:+ "date" +:+ dq +:+ ": " +:+ dq +:+ "tomorrow" +:+ dq +:+ "}".
Definition payload_schedule_10am : string :=
  "{" +:+ dq +:+ "appointment_datetime" +:+ dq +:+ ": " +:+ dq
      +:+ "2024-01-01T10:00:00" +:+ dq +:+ "}".

Definition demo_json_loads (raw : string) : option Dict :=
  if String.eqb raw payload_empty then Some ∅
  else if String.eqb raw payload_statistics then
    Some (<["query_type" := JStr "today"]> ∅)
  else if String.eqb raw payload_statistics_for_7 then
    Some (<["query_type" := JStr "today"]> (<["doctor_id" := JStr "7"]> ∅))
  else if String.eqb raw payload_check_smith_today then
    Some (<["doctor_name" := JStr "Smith"]> (<["date" := JStr "today"]> ∅))
  else if String.eqb raw payload_check_smith_tomorrow then
    Some (<["doctor_name" := JStr "Smith"]> (<["date" := JStr "tomorrow"]> ∅))
  else if String.eqb raw payload_schedule_10am then
    Some (<["appointment_datetime" := JStr "2024-01-01T10:00:00"]> ∅)
  else None.

(** A rendering of a result that shows its outcome. *)
Definition demo_json_dumps (d : Dict) : string :=
  match d !! "error", d !! "message" with
  | Some (JStr e), _ => "{error: " +:+ e +:+ "}"
  | _, Some (JStr m) => "{message: " +:+ m +:+ "}"
  | _, _ => "{...}"
  end.

(** The three tools taken from the environment answer with their
    arguments. *)
Definition echo_tool (arguments : Dict) (w : World) : Outcome Dict * World :=
  (Returns (<["success" := JBool true]> (<["arguments" := JDict arguments]> ∅)), w).

(** The model answers in plain text. *)
Definition plain_answer (text : string) : ChatResponse :=
  {| resp_content := Some text; resp_tool_calls := None; resp_total_tokens := Some 42 |}.

Definition env : Env :=
  {| ilike := demo_ilike;
     uuid_parse := demo_uuid_parse;
     uuid_str := demo_uuid_str;
     strftime := demo_strftime;
     strptime_date := λ _ _, None;
     isoformat := demo_isoformat;
     fromisoformat := demo_fromisoformat;
     re_search_time := λ _, None;
     json_loads := demo_json_loads;
     json_dumps := demo_json_dumps;
     json_dumps_indent2 := demo_json_dumps;
     format_int := demo_format_int;
     type_error_message := λ tool _, tool +:+ "() got unexpected or missing arguments";
     chat_complete := λ _, plain_answer "How can I help you today?";
     calendar_create_event := λ _ t _ _ _, Returns (Some ("demo_event_" +:+ demo_isoformat t));
     calendar_update_event := λ _ _, Returns true;
     calendar_delete_event := λ _, Returns true;
     email_send_appointment_confirmation := λ _ _ _ _ _, Returns true;
     email_send_reschedule_notification := λ _ _ _ _, Returns true;
     get_patient_stats_tool := echo_tool;
     send_report_tool := echo_tool;
     get_appointment_details_tool := echo_tool;
     strptime_error := λ s fmt, "time data '" +:+ s +:+ "' does not match format '" +:+ fmt +:+ "'";
     ill_typed_call := λ tool _ w, (Raises (tool +:+ "() got an argument of the wrong type"), w);
     elapsed_ms := 12 |}.

(** The same environment with another model. *)
Definition with_model (model : list Message → ChatResponse) : Env :=
  {| ilike := ilike env; uuid_parse := uuid_parse env; uuid_str := uuid_str env;
     strftime := strftime env; strptime_date := strptime_date env;
     isoformat := isoformat env; fromisoformat := fromisoformat env;
     re_search_time := re_search_time env;
     json_loads := json_loads env; json_dumps := json_dumps env;
     json_dumps_indent2 := json_dumps_indent2 env;
     format_int := format_int env;
     type_error_message := type_error_message env;
     chat_complete := model;
     calendar_create_event := calendar_create_event env;
     calendar_update_event := calendar_update_event env;
     calendar_delete_event := calendar_delete_event env;
     email_send_appointment_confirmation := email_send_appointment_confirmation env;
     email_send_reschedule_notification := email_send_reschedule_notification env;
     get_patient_stats_tool := get_patient_stats_tool env;
     send_report_tool := send_report_tool env;
     get_appointment_details_tool := get_appointment_details_tool env;
     strptime_error := strptime_error env;
     ill_typed_call := ill_typed_call env;
     elapsed_ms := elapsed_ms env |}.

(** Monday 1 January 2024, 08:15. *)
Definition monday : date := ordinal_of_ymd 2024 1 1.
Definition now : datetime := combine monday (time_of_hm 8 15).

Definition morning : TimeSlot := {| slot_start := "09:00"; slot_end := "12:00" |}.

Definition dr_smith : Doctor :=
  {| doctor_id := 7%N; doctor_user_id := 1%N; doctor_name := "Sarah Smith";
     doctor_specialty := "Cardiology";
     doctor_available_slots :=
       <["monday" := [morning] ]> ∅;
     doctor_consultation_duration := 30 |}.

Definition dr_smith_user : User :=
  {| user_id := 1%N; user_email := "smith@clinic.example"; user_role := DOCTOR |}.

Definition pat_user : User :=
  {| user_id := 2%N; user_email := "pat@example.com"; user_role := PATIENT |}.

Definition pat : Patient :=
  {| patient_id := 20%N; patient_user_id := 2%N; patient_name := "Pat Jones" |}.

Definition clinic : World :=
  {| w_users := [dr_smith_user; pat_user];
     w_doctors := [dr_smith];
     w_patients := [pat];
     w_appointments := [];
     w_conversations := [];
     w_prompts := [];
     w_next_uuid := 100%N;
     w_now := now |}.

Definition with_appointments (l : list Appointment) : World :=
  set_appointments (λ _, l) clinic.

End Demo.

(** ** Scenarios on the clinic *)

Module Scenario.

Import Demo.

Definition nine : datetime := combine monday (time_of_hm 9 0).
Definition ten : datetime := combine monday (time_of_hm 10 0).

Definition appointment_50 (t : datetime) (status : AppointmentStatus) : Appointment :=
  {| appt_id := 50%N; appt_doctor_id := 7%N; appt_patient_id := 20%N;
     appt_scheduled_time := t; appt_duration_minutes := 30;
     appt_status := status; appt_symptoms := Some "checkup";
     appt_notes := None; appt_google_calendar_event_id := None;
     appt_confirmation_sent := false |}.

Definition asks_for (calls : list ToolCall) : ChatResponse :=
  {| resp_content := None; resp_tool_calls := Some calls; resp_total_tokens := Some 17 |}.

Definition call (name arguments : string) : ToolCall :=
  {| tc_id := "call_1"; tc_name := name; tc_arguments := arguments |}.

(** A model that asks for the list of doctors until it has seen a tool
    result, and one that asks for it in every response. *)
Definition model_once (messages : list Message) : ChatResponse :=
  match List.last messages (Msg "" "") with
  | ToolResult _ _ _ => plain_answer "We have one cardiologist."
  | _ => asks_for [call "get_all_doctors" payload_empty]
  end.

Definition model_always (messages : list Message) : ChatResponse :=
  asks_for [call "get_all_doctors" payload_empty].



Definition value {A} (dflt : A) (r : Outcome A * World) : A :=
  match fst r with
  | Returns a => a
  | _ => dflt
  end.

Definition numbered_turn (i : nat) : Turn :=
  {| turn_role := if Nat.even i then "assistant" else "user";
     turn_content := "turn " +:+ demo_format_int (Z.of_nat i);
     turn_timestamp := "2024-01-01T08:00:00";
     turn_tools_used := if Nat.even i then Some [] else None |}.

Definition long_conversation : ConversationHistory :=
  {| conv_id := 60%N; conv_user_id := 2%N; conv_session_id := "s1";
     conv_messages := List.map numbered_turn (seq 1 15);
     conv_context := ∅; conv_is_active := true |}.


End Scenario.

(** * The other tools of [mcp_server.py] *)

Section MoreTools.

Context (E : Env).

(** [status.value] *)
Definition status_value (s : AppointmentStatus) : string :=
  match s with
  | SCHEDULED => "scheduled"
  | COMPLETED => "completed"
  | CANCELLED => "cancelled"
  | NO_SHOW => "no_show"
  | RESCHEDULED => "rescheduled"
  end.

(** [timedelta(days=d)] *)
Definition timedelta_days (d : Z) : Z := d * us_per_day.

(** [select(Doctor).where(Doctor.id == doctor_uuid)] *)
Definition doctors_by_id (id : UUID) (w : World) : list Doctor :=
  List.filter (λ d, N.eqb (doctor_id d) id) (w_doctors w).

(** [select(func.count(Appointment.id)).where(...)] followed by [scalar()] *)
Definition count_appointments (p : Appointment → bool) (w : World) : Z :=
  Z.of_nat (length (List.filter p (w_appointments w))).

Definition time_between (lo hi : datetime) (a : Appointment) : bool :=
  (lo <=? appt_scheduled_time a) && (appt_scheduled_time a <=? hi).

(** ['s' if count != 1 else ''] *)
Definition plural (count : Z) : string := if count =? 1 then "" else "s".

Definition stats_result (query : string) (count : Z) (message : string) : Dict :=
  <["success" := JBool true]>
    (<["query" := JStr query]>
    (<["count" := JInt count]>
    (<["message" := JStr message]> ∅))).

(** [Appointment.symptoms.ilike(f"%{symptom}%")]: a row without symptoms
    does not match. *)
Definition symptoms_like (symptom : string) (a : Appointment) : bool :=
  match appt_symptoms a with
  | Some s => ilike E s ("%" +:+ symptom +:+ "%")
  | None => false
  end.

(** The five count queries, by the filter that each puts on the
    appointments of the doctor. *)
Definition yesterday_filter (now : datetime) (doctor_uuid : UUID) (a : Appointment) : bool :=
  let yesterday := dt_date now - 1 in
  N.eqb (appt_doctor_id a) doctor_uuid
  && time_between (combine yesterday time_min) (combine yesterday time_max) a
  && status_eqb (appt_status a) COMPLETED.

Definition today_filter (now : datetime) (doctor_uuid : UUID) (a : Appointment) : bool :=
  N.eqb (appt_doctor_id a) doctor_uuid
  && time_between (combine (dt_date now) time_min) (combine (dt_date now) time_max) a
  && (status_eqb (appt_status a) SCHEDULED || status_eqb (appt_status a) COMPLETED).

Definition tomorrow_filter (now : datetime) (doctor_uuid : UUID) (a : Appointment) : bool :=
  let tomorrow := dt_date now + 1 in
  N.eqb (appt_doctor_id a) doctor_uuid
  && time_between (combine tomorrow time_min) (combine tomorrow time_max) a
  && status_eqb (appt_status a) SCHEDULED.

Definition this_week_filter (now : datetime) (doctor_uuid : UUID) (a : Appointment) : bool :=
  let week_start := now - timedelta_days (weekday (dt_date now)) in
  let week_end := week_start + timedelta_days 6 in
  N.eqb (appt_doctor_id a) doctor_uuid && time_between week_start week_end a.

Definition by_symptom_filter (symptom : string) (doctor_uuid : UUID) (a : Appointment)
    : bool :=
  N.eqb (appt_doctor_id a) doctor_uuid && symptoms_like symptom a.

Definition _get_patient_stats (doctor_id_arg query_type : string) (symptom : option string)
    : Tx Dict :=
  do* doctor_uuid := parse_uuid E doctor_id_arg in
  do* w := get_world in
  (* Get doctor info *)
  do* doctor := lift (scalar_one_or_none (doctors_by_id doctor_uuid w)) in
  match doctor with
  | None => ret (error_payload "Doctor not found")
  | Some _ =>
      let now := w_now w in
      if String.eqb query_type "yesterday" then
        let count := count_appointments (yesterday_filter now doctor_uuid) w in
        ret (stats_result "yesterday's visits" count
               ("You had " +:+ format_int E count +:+ " patient" +:+ plural count +:+
                " visit yesterday."))
      else if String.eqb query_type "today" then
        let count := count_appointments (today_filter now doctor_uuid) w in
        ret (stats_result "today's appointments" count
               ("You have " +:+ format_int E count +:+ " appointment" +:+ plural count +:+
                " scheduled for today."))
      else if String.eqb query_type "tomorrow" then
        let count := count_appointments (tomorrow_filter now doctor_uuid) w in
        ret (stats_result "tomorrow's appointments" count
               ("You have " +:+ format_int E count +:+ " appointment" +:+ plural count +:+
                " scheduled for tomorrow."))
      else if String.eqb query_type "this_week" then
        let count := count_appointments (this_week_filter now doctor_uuid) w in
        ret (stats_result "this week's appointments" count
               ("You have " +:+ format_int E count +:+ " appointment" +:+ plural count +:+
                " this week."))
      else
        match symptom with
        | Some symptom =>
            if String.eqb query_type "by_symptom" && is_nonempty symptom then
              let count := count_appointments (by_symptom_filter symptom doctor_uuid) w in
              ret (stats_result ("patients with " +:+ symptom) count
                     ("You have seen " +:+ format_int E count +:+ " patient" +:+
                      plural count +:+ " with " +:+ symptom +:+ "."))
            else ret (error_payload "Invalid query type")
        | None => ret (error_payload "Invalid query type")
        end
  end.

(** [if x:] for an optional string argument: [None] and [""] are false. *)
Definition given (x : option string) : option string :=
  match x with
  | Some s => if is_nonempty s then Some s else None
  | None => None
  end.

(** [query.where(Appointment.id == uuid.UUID(appointment_id))], and the
    same for the doctor: the filter, or the [ValueError] of [uuid.UUID]. *)
Definition id_filter (key : Appointment → UUID) (x : option string)
    : Tx (Appointment → bool) :=
  match given x with
  | Some s => do* u := parse_uuid E s in ret (λ a, N.eqb (key a) u)
  | None => ret (λ _, true)
  end.

(** The bounds of a date range; a range that is none of the four leaves
    [start] unbound, and reading it raises [UnboundLocalError]. *)
Definition date_range_bounds (now : datetime) (date_range : string)
    : Outcome (datetime * datetime) :=
  if String.eqb date_range "today" then
    Returns (combine (dt_date now) time_min, combine (dt_date now) time_max)
  else if String.eqb date_range "tomorrow" then
    Returns (combine (dt_date now + 1) time_min, combine (dt_date now + 1) time_max)
  else if String.eqb date_range "this_week" then
    let start := now - timedelta_days (weekday (dt_date now)) in
    Returns (start, start + timedelta_days 6)
  else if String.eqb date_range "next_week" then
    let start := now + timedelta_days (7 - weekday (dt_date now)) in
    Returns (start, start + timedelta_days 6)
  else Raises "cannot access local variable 'start' where it is not associated with a value".

Definition range_filter (now : datetime) (x : option string) : Tx (Appointment → bool) :=
  match given x with
  | Some date_range =>
      do* bounds := lift (date_range_bounds now date_range) in
      ret (time_between bounds.1 bounds.2)
  | None => ret (λ _, true)
  end.

(** One entry of the list that [_get_appointment_details] returns. *)
Definition appointment_entry (w : World) (appt : Appointment) : JValue :=
  let doctor := session_get doctor_id (w_doctors w) (appt_doctor_id appt) in
  let patient := session_get patient_id (w_patients w) (appt_patient_id appt) in
  JDict
    (<["id" := JStr (uuid_str E (appt_id appt))]>
    (<["doctor" := JStr (match doctor with Some d => doctor_name d | None => "Unknown" end)]>
    (<["patient" := JStr (match patient with Some p => patient_name p | None => "Unknown" end)]>
    (<["time" := JStr (isoformat E (appt_scheduled_time appt))]>
    (<["status" := JStr (status_value (appt_status appt))]>
    (<["symptoms" := match appt_symptoms appt with Some s => JStr s | None => JNull end]>
     ∅)))))).

(** [patient_email] is a parameter that the body never reads. *)
Definition _get_appointment_details
    (appointment_id patient_email doctor_id_arg date_range : option string) : Tx Dict :=
  do* w := get_world in
  do* by_id := id_filter appt_id appointment_id in
  do* by_doctor := id_filter appt_doctor_id doctor_id_arg in
  do* by_range := range_filter (w_now w) date_range in
  let appointments :=
    List.filter (λ a, by_id a && by_doctor a && by_range a) (w_appointments w) in
  let appt_list := List.map (appointment_entry w) appointments in
  ret (<["success" := JBool true]>
       (<["appointments" := JList appt_list]>
       (<["count" := JInt (Z.of_nat (length appt_list))]> ∅))).

(** The parameters of the handlers that [tool_map] binds in this file:
    the method, its parameters without default and those with one. *)
Definition tool_signature (tool_name : string)
    : option (string * list string * list string) :=
  if String.eqb tool_name "check_doctor_availability" then
    Some ("_check_availability", ["doctor_name"; "date"], [])
  else if String.eqb tool_name "schedule_appointment" then
    Some ("_schedule_appointment",
          ["doctor_name"; "patient_email"; "appointment_datetime"], ["symptoms"])
  else if String.eqb tool_name "reschedule_appointment" then
    Some ("_reschedule_appointment", ["appointment_id"; "new_datetime"], ["notify_patient"])
  else if String.eqb tool_name "get_all_doctors" then
    Some ("_get_all_doctors", [], [])
  else if String.eqb tool_name "cancel_appointment" then
    Some ("_cancel_appointment", ["appointment_id"], ["reason"; "notify_patient"])
  else None.

End MoreTools.

(** * The services *)

(** ** [services/notification.py] *)

(** An in-app notification: [{"id", "user_id", "content", "type", "read",
    "created_at"}], and ["read_at"] once it is read. *)
Record Notification := {
  ntf_id : string;
  ntf_user_id : string;
  ntf_content : string;
  ntf_type : string;
  ntf_read : bool;
  ntf_created_at : string;
  ntf_read_at : option string
}.

(** What [send_slack_message] reaches outside the process. An exception is
    known by its text: [slack_api_error] tells whether it is a
    [SlackApiError], and then gives its [e.response['error']]. *)
Record SlackIO := {
  slack_webhook_url : string;
  slack_has_client : bool;
  (* [client.post(url, json=payload)]: the status code and the text *)
  webhook_post : string → string → Outcome (Z * string);
  (* [slack_client.chat_postMessage(channel, text, blocks)] *)
  chat_postMessage : string → string → Outcome unit;
  slack_api_error : string → option string
}.

Definition delivery (success : bool) (message : string) : Dict :=
  <["success" := JBool success]> (<["message" := JStr message]> ∅).

(** [try: x  except Exception as e: h e] without a database session. *)
Definition try_outcome {A} (x : Outcome A) (h : string → Outcome A) : Outcome A :=
  match x with
  | Raises e => h e
  | _ => x
  end.

Definition send_slack_message (io : SlackIO) (message channel : string) : Outcome Dict :=
  try_outcome
    (if is_nonempty (slack_webhook_url io) then
       (let* response := webhook_post io (slack_webhook_url io) message in
        if response.1 =? 200 then Returns (delivery true "Sent to Slack")
        else Returns (delivery false ("Slack error: " +:+ response.2)))%outcome
     else if slack_has_client io then
       (let* _ := chat_postMessage io channel message in
        Returns (delivery true "Sent to Slack"))%outcome
     else Returns (delivery true "Sent to Slack (demo mode)"))
    (λ e, match slack_api_error io e with
          | Some api_error => Returns (delivery false ("Slack API error: " +:+ api_error))
          | None => Returns (delivery false ("Error: " +:+ e))
          end).

Definition send_whatsapp_message (doctor_id_arg message : string) : Outcome Dict :=
  Returns (<["success" := JBool true]>
           (<["message" := JStr "WhatsApp message sent (demo mode)"]>
           (<["doctor_id" := JStr doctor_id_arg]> ∅))).

(** [create_in_app_notification]; [notification_id] is the [uuid.uuid4()]
    and [created_at] the [datetime.now().isoformat()] of the call. *)
Definition create_in_app_notification (notification_id created_at : string)
    (user_id_arg content notification_type : string)
    (store : gmap string (list Notification))
    : Outcome Dict * gmap string (list Notification) :=
  let notification :=
    {| ntf_id := notification_id; ntf_user_id := user_id_arg; ntf_content := content;
       ntf_type := notification_type; ntf_read := false;
       ntf_created_at := created_at; ntf_read_at := None |} in
  (Returns (<["success" := JBool true]>
            (<["notification_id" := JStr notification_id]>
            (<["message" := JStr "In-app notification created"]> ∅))),
   <[user_id_arg := (default [] (store !! user_id_arg) ++ [notification])%list]> store).

(** [notifications.sort(key=lambda x: x["created_at"], reverse=True)]: a
    stable sort, later first; notifications of the same instant keep their
    order. *)
Fixpoint insert_by_created_at (n : Notification) (l : list Notification)
    : list Notification :=
  match l with
  | [] => [n]
  | m :: rest =>
      if String.ltb (ntf_created_at n) (ntf_created_at m)
      then m :: insert_by_created_at n rest
      else n :: l
  end.

Definition sort_by_created_at (l : list Notification) : list Notification :=
  List.fold_right insert_by_created_at [] l.

(** [get_user_notifications]: the unread ones are a new list, which is
    sorted; otherwise the stored list itself is sorted in place. *)
Definition get_user_notifications (user_id_arg : string) (unread_only : bool)
    (store : gmap string (list Notification))
    : list Notification * gmap string (list Notification) :=
  match store !! user_id_arg with
  | None => ([], store)
  | Some notifications =>
      if unread_only then
        (sort_by_created_at (List.filter (λ n, negb (ntf_read n)) notifications), store)
      else
        let sorted := sort_by_created_at notifications in
        (sorted, <[user_id_arg := sorted]> store)
  end.

(** The loop of [mark_notification_read]: the first notification with the
    id is marked. *)
Definition set_read (read_at : string) (n : Notification) : Notification :=
  {| ntf_id := ntf_id n; ntf_user_id := ntf_user_id n;
     ntf_content := ntf_content n; ntf_type := ntf_type n;
     ntf_read := true; ntf_created_at := ntf_created_at n;
     ntf_read_at := Some read_at |}.

Fixpoint mark_first (read_at notification_id : string) (l : list Notification)
    : option (list Notification) :=
  match l with
  | [] => None
  | n :: rest =>
      if String.eqb (ntf_id n) notification_id then Some (set_read read_at n :: rest)
      else
        match mark_first read_at notification_id rest with
        | Some rest' => Some (n :: rest')
        | None => None
        end
  end.

Definition mark_notification_read (read_at : string) (user_id_arg notification_id : string)
    (store : gmap string (list Notification))
    : bool * gmap string (list Notification) :=
  match store !! user_id_arg with
  | None => (false, store)
  | Some notifications =>
      match mark_first read_at notification_id notifications with
      | Some notifications' => (true, <[user_id_arg := notifications']> store)
      | None => (false, store)
      end
  end.

(** [MCPTools._send_report]; the result of the channel is not read. *)
Definition _send_report (io : SlackIO) (notification_id created_at : string)
    (doctor_id_arg report_content channel : string)
    (store : gmap string (list Notification))
    : Outcome Dict * gmap string (list Notification) :=
  let sent :=
    <["success" := JBool true]>
      (<["channel" := JStr channel]>
      (<["message" := JStr ("Report sent successfully via " +:+ channel +:+ "!")]> ∅)) in
  let failed e := Returns (delivery false ("Failed to send report: " +:+ e)) in
  if String.eqb channel "slack" then
    (try_outcome
       (let* _ := send_slack_message io report_content "#doctor-reports" in Returns sent)%outcome
       failed,
     store)
  else if String.eqb channel "whatsapp" then
    (try_outcome
       (let* _ := send_whatsapp_message doctor_id_arg report_content in Returns sent)%outcome
       failed,
     store)
  else if String.eqb channel "in_app" then
    let '(result, store') :=
      create_in_app_notification notification_id created_at doctor_id_arg report_content
        "report" store in
    (try_outcome (let* _ := result in Returns sent)%outcome failed, store')
  else (Returns (delivery false ("Unknown channel: " +:+ channel)), store).

(** ** [services/calendar.py] and [services/email.py] *)

(** The Google Calendar client: [_get_service()] gives a service or [None],
    [events().insert(...).execute()] the [id] of its result, if any. *)
Record GoogleAPI := {
  get_service : Outcome bool;
  events_insert : string → datetime → datetime → string → list string → Outcome (option string);
  events_get_update : string → datetime → datetime → Outcome unit;
  events_delete : string → Outcome unit
}.

(** The SendGrid client: whether there is one, and the status code of
    [client.send(message)]. *)
Record SendGrid := {
  sendgrid_has_client : bool;
  sendgrid_send : string → string → string → Outcome Z
}.

Section Services.

Context (E : Env).

Definition demo_event_id (start_time : datetime) : string :=
  "demo_event_" +:+ strftime E "%Y%m%d%H%M" start_time.

Definition create_event (api : GoogleAPI) (summary : string) (start_time : datetime)
    (duration_minutes : Z) (description : string) (attendees : list string)
    : Outcome (option string) :=
  try_outcome
    (let* service := get_service api in
     if negb service then Returns (Some (demo_event_id start_time))
     else
       let end_time := start_time + timedelta_minutes duration_minutes in
       events_insert api summary start_time end_time description attendees)%outcome
    (λ _, Returns (Some (demo_event_id start_time))).

Definition update_event (api : GoogleAPI) (event_id : string) (new_start_time : datetime)
    (duration_minutes : Z) : Outcome bool :=
  try_outcome
    (if is_prefix "demo_" event_id then Returns true
     else
       (let* service := get_service api in
        if negb service then Returns true
        else
          let end_time := new_start_time + timedelta_minutes duration_minutes in
          let* _ := events_get_update api event_id new_start_time end_time in
          Returns true)%outcome)
    (λ _, Returns false).

Definition delete_event (api : GoogleAPI) (event_id : string) : Outcome bool :=
  try_outcome
    (if is_prefix "demo_" event_id then Returns true
     else
       (let* service := get_service api in
        if negb service then Returns true
        else
          let* _ := events_delete api event_id in
          Returns true)%outcome)
    (λ _, Returns false).

Definition send_email (mail : SendGrid) (to_email subject html_content : string)
    : Outcome bool :=
  try_outcome
    (if negb (sendgrid_has_client mail) then Returns true
     else
       (let* status_code := sendgrid_send mail to_email subject html_content in
        Returns ((status_code =? 200) || (status_code =? 201) || (status_code =? 202)))%outcome)
    (λ _, Returns false).

(** [send_appointment_confirmation] and [send_reschedule_notification]; the
    page is the f-string of the source, of which [html] stands for the
    markup around the fields. *)
Definition send_appointment_confirmation (mail : SendGrid)
    (html : string → string → string → string → string)
    (to_email patient doctor : string) (appointment_time : datetime) (symptoms : string)
    : Outcome bool :=
  send_email mail to_email ("✅ Appointment Confirmed with Dr. " +:+ doctor)
    (html patient doctor (strftime E "%B %d, %Y at %I:%M %p" appointment_time) symptoms).

(** The environment in which the calendar and the mail of the tools are
    the two services of the repository. *)
Definition with_services (api : GoogleAPI) (mail : SendGrid)
    (html : string → string → string → string → string) : Env :=
  {| ilike := ilike E; uuid_parse := uuid_parse E; uuid_str := uuid_str E;
     strftime := strftime E; strptime_date := strptime_date E;
     isoformat := isoformat E; fromisoformat := fromisoformat E;
     re_search_time := re_search_time E;
     json_loads := json_loads E; json_dumps := json_dumps E;
     json_dumps_indent2 := json_dumps_indent2 E;
     format_int := format_int E;
     type_error_message := type_error_message E;
     chat_complete := chat_complete E;
     calendar_create_event := λ summary t duration description attendees,
       create_event api summary t duration description attendees;
     calendar_update_event := λ ev t, update_event api ev t 30;
     calendar_delete_event := delete_event api;
     email_send_appointment_confirmation := send_appointment_confirmation mail html;
     email_send_reschedule_notification := email_send_reschedule_notification E;
     get_patient_stats_tool := get_patient_stats_tool E;
     send_report_tool := send_report_tool E;
     get_appointment_details_tool := get_appointment_details_tool E;
     strptime_error := strptime_error E;
     ill_typed_call := ill_typed_call E;
     elapsed_ms := elapsed_ms E |}.

End Services.

(** * More vocabulary *)

(** [HH:MM], as the weekly patterns write a time of day. *)
Definition hm_text (h m : Z) : string := two_digits h +:+ ":" +:+ two_digits m.

(** The 12-hour text of [strftime("%I:%M %p")] for an hour and a minute. *)
Definition clock_text (h m : Z) : string :=
  two_digits (if h mod 12 =? 0 then 12 else h mod 12) +:+ ":" +:+ two_digits m +:+ " "
  +:+ (if h <? 12 then "AM" else "PM").

(** The days from a day to the next day of the week [i], never zero. *)
Definition days_until (today : date) (i : Z) : Z :=
  if i - weekday today <=? 0 then i - weekday today + 7 else i - weekday today.

(** The filter of the count query of a day. *)
Definition day_filter (query_type : string) : datetime → UUID → Appointment → bool :=
  if String.eqb query_type "yesterday" then yesterday_filter
  else if String.eqb query_type "today" then today_filter
  else tomorrow_filter.

(** The [count] of a result of [_get_patient_stats]. *)
Definition stats_count (o : Outcome Dict) : option Z :=
  match o with
  | Returns result =>
      match result !! "count" with
      | Some (JInt count) => Some count
      | _ => None
      end
  | _ => None
  end.

(** A notification as [create_in_app_notification] stores it. *)
Definition new_notification (notification_id created_at user_id_arg content
    notification_type : string) : Notification :=
  {| ntf_id := notification_id; ntf_user_id := user_id_arg; ntf_content := content;
     ntf_type := notification_type; ntf_read := false;
     ntf_created_at := created_at; ntf_read_at := None |}.

(** [a] is not before [b] in the order of [created_at]. *)
Definition not_earlier (a b : Notification) : Prop :=
  String.ltb (ntf_created_at a) (ntf_created_at b) = false.

(** One hour and minute of the check of all the times of a day. *)
Definition clock_round_trip_check (h m : nat) : bool :=
  let hz := Z.of_nat h in
  let mz := Z.of_nat m in
  match strptime_H_M (hm_text hz mz) with
  | Some t => t =? time_of_hm hz mz
  | None => false
  end
  && String.eqb (strftime_I_M_p (time_of_hm hz mz)) (clock_text hz mz)
  && Nat.eqb (String.length (clock_text hz mz)) 8.

(** A transaction that leaves the table of the conversations as it is. *)
Definition keepsT {A} (m : Tx A) : Prop :=
  ∀ w, w_conversations (snd (m w)) = w_conversations w.


(** The instants that a day offers: the starts of its windows at which
    nothing is booked. *)
Definition free_starts (duration : Z) (booked_times : list datetime)
    (windows : list (datetime * datetime)) : list datetime :=
  concat (List.map (λ win, List.filter (is_free booked_times)
                             (window_starts duration win.1 win.2)) windows).

(** The formats that [_parse_date] tries in turn. *)
Definition date_formats : list string :=
  ["%Y-%m-%d"; "%m/%d/%Y"; "%d/%m/%Y"; "%B %d, %Y"; "%B %d"].

(** ** More scenarios on the clinic *)

Module More.

Import Demo Scenario.

Definition dr_john : Doctor :=
  {| doctor_id := 8%N; doctor_user_id := 3%N; doctor_name := "John Smith";
     doctor_specialty := "Dermatology";
     doctor_available_slots := <["monday" := [morning] ]> ∅;
     doctor_consultation_duration := 20 |}.

(** The clinic with two doctors named Smith. *)
Definition two_smiths : World :=
  {| w_users := w_users clinic;
     w_doctors := [dr_smith; dr_john];
     w_patients := w_patients clinic;
     w_appointments := [];
     w_conversations := [];
     w_prompts := [];
     w_next_uuid := 100%N;
     w_now := now |}.

Definition appointment_51 (t : datetime) (status : AppointmentStatus) : Appointment :=
  {| appt_id := 51%N; appt_doctor_id := 7%N; appt_patient_id := 20%N;
     appt_scheduled_time := t; appt_duration_minutes := 30;
     appt_status := status; appt_symptoms := Some "fever";
     appt_notes := None; appt_google_calendar_event_id := None;
     appt_confirmation_sent := false |}.

(** The clinic with one stored conversation. *)
Definition with_conversation (c : ConversationHistory) : World :=
  set_conversations (λ _, [c]) clinic.

(** No credentials for the calendar, and a SendGrid that refuses. *)
Definition no_calendar : GoogleAPI :=
  {| get_service := Returns false;
     events_insert := λ _ _ _ _ _, Raises "no service";
     events_get_update := λ _ _ _, Raises "no service";
     events_delete := λ _, Raises "no service" |}.

Definition refusing_mail : SendGrid :=
  {| sendgrid_has_client := true;
     sendgrid_send := λ _ _ _, Returns 500 |}.

Definition plain_page (patient doctor time_text symptoms : string) : string :=
  "Hello " +:+ patient +:+ ", your appointment with Dr. " +:+ doctor +:+ " is on "
  +:+ time_text +:+ ".".

(** The clinic's environment with a search of the time of day that knows
    three texts. *)
Definition search_time (s : string) : option (Z * option Z * option string) :=
  if String.eqb s "tomorrow at 3pm" then Some (3, None, Some "pm")
  else if String.eqb s "12:30 AM" then Some (12, Some 30, Some "AM")
  else if String.eqb s "at 25" then Some (25, None, None)
  else None.

Definition with_times : Env :=
  {| ilike := ilike env; uuid_parse := uuid_parse env; uuid_str := uuid_str env;
     strftime := strftime env; strptime_date := strptime_date env;
     isoformat := isoformat env; fromisoformat := fromisoformat env;
     re_search_time := search_time;
     json_loads := json_loads env; json_dumps := json_dumps env;
     json_dumps_indent2 := json_dumps_indent2 env;
     format_int := format_int env;
     type_error_message := type_error_message env;
     chat_complete := chat_complete env;
     calendar_create_event := calendar_create_event env;
     calendar_update_event := calendar_update_event env;
     calendar_delete_event := calendar_delete_event env;
     email_send_appointment_confirmation := email_send_appointment_confirmation env;
     email_send_reschedule_notification := email_send_reschedule_notification env;
     get_patient_stats_tool := get_patient_stats_tool env;
     send_report_tool := send_report_tool env;
     get_appointment_details_tool := get_appointment_details_tool env;
     strptime_error := strptime_error env;
     ill_typed_call := ill_typed_call env;
     elapsed_ms := elapsed_ms env |}.

Definition morning_window : datetime * datetime :=
  (combine monday (time_of_hm 9 0), combine monday (time_of_hm 12 0)).

Definition no_reply : Reply :=
  {| reply_message := ""; reply_session_id := ""; reply_tools_used := [];
     reply_context := ∅; reply_processing_time_ms := 0; reply_rounds := 0 |}.

End More.

(** * The tool executor *)

Section ToolExecutor.

Context (E : Env).





(** What [execute_tool] makes of each outcome of the handler. *)
Lemma execute_tool_in_handler tools fuel tool_name arguments w handler :
  lookup_tool tools tool_name = Some handler →
  execute_tool_in tools fuel tool_name arguments w =
    match handler fuel arguments w with
    | (Raises e, w') => (Returns (error_payload e), w')
    | r => r
    end.
Proof.
  intros H. unfold execute_tool_in, try_exceptT. rewrite H.
  by destruct (handler fuel arguments w) as [[d|e|] w'].
Qed.

Lemma execute_tool_in_no_raise tools fuel tool_name arguments w e :
  fst (execute_tool_in tools fuel tool_name arguments w) ≠ Raises e.
Proof.
  destruct (lookup_tool tools tool_name) as [handler|] eqn:H.
  - rewrite (execute_tool_in_handler _ _ _ _ _ _ H).
    by destruct (handler fuel arguments w) as [[d|e'|] w'].
  - unfold execute_tool_in. by rewrite H.
Qed.

Lemma execute_tool_no_raise fuel tool_name arguments w e :
  fst (execute_tool E fuel tool_name arguments w) ≠ Raises e.
Proof. apply execute_tool_in_no_raise. Qed.

End ToolExecutor.

(** * The agent loop *)

Section AgentLoop.

Context (E : Env).

Lemma bindT_returns {A B} (m : Tx A) (k : A → Tx B) w b w' :
  bindT m k w = (Returns b, w') →
  ∃ a w1, m w = (Returns a, w1) ∧ k a w1 = (Returns b, w').
Proof.
  unfold bindT. destruct (m w) as [[a|e|] w1]; intros H; [eauto|done|done].
Qed.

Lemma bindT_no_raise {A B} (m : Tx A) (k : A → Tx B) w :
  (∀ e, fst (m w) ≠ Raises e) →
  (∀ a w1 e, fst (k a w1) ≠ Raises e) →
  ∀ e, fst (bindT m k w) ≠ Raises e.
Proof.
  intros Hm Hk e. unfold bindT.
  destruct (m w) as [[a|e'|] w1]; simpl in *.
  - apply Hk.
  - by destruct (Hm e').
  - done.
Qed.

(** One tool call, spelled out on the outcome of the executor. *)
Lemma handle_tool_call_unfold fuel uid user_role context tool_call w :
  handle_tool_call E fuel uid user_role context tool_call w =
    match execute_tool E fuel (tc_name tool_call)
            (executed_arguments w uid user_role context (tc_name tool_call)
               (parse_arguments E (tc_arguments tool_call))) w with
    | (Returns result, w') =>
        (Returns (if String.eqb (tc_name tool_call) "check_doctor_availability"
                  then capture_availability result context else context,
                  ToolResult (tc_name tool_call) (json_dumps E result) (tc_id tool_call)),
         w')
    | (Raises e, w') => (Raises e, w')
    | (OutOfFuel, w') => (OutOfFuel, w')
    end.
Proof. reflexivity. Qed.

Lemma handle_tool_call_no_raise fuel uid user_role context tool_call w e :
  fst (handle_tool_call E fuel uid user_role context tool_call w) ≠ Raises e.
Proof.
  rewrite handle_tool_call_unfold.
  match goal with |- context [execute_tool E ?f ?n ?a ?w] =>
    pose proof (execute_tool_no_raise E f n a w) as H;
    destruct (execute_tool E f n a w) as [[d|e'|] w'] end; simpl in *; [done| |done].
  by destruct (H e').
Qed.

Lemma handle_tool_calls_no_raise fuel uid user_role tool_calls :
  ∀ context tools_used tool_results w e,
    fst (handle_tool_calls E fuel uid user_role tool_calls context tools_used tool_results w)
    ≠ Raises e.
Proof.
  induction tool_calls as [|tc rest IH]; intros context tools_used tool_results w e;
    simpl; [done|].
  apply bindT_no_raise.
  - intros e'. apply handle_tool_call_no_raise.
  - intros [c m] w1 e'. apply IH.
Qed.

(** Every tool name of the round is recorded once, in call order. *)
Lemma handle_tool_calls_tools_used fuel uid user_role tool_calls :
  ∀ context tools_used tool_results w context' tools_used' tool_results' w',
    handle_tool_calls E fuel uid user_role tool_calls context tools_used tool_results w
    = (Returns (context', tools_used', tool_results'), w') →
    tools_used' = (tools_used ++ List.map tc_name tool_calls)%list
    ∧ length tool_results' = (length tool_results + length tool_calls)%nat.
Proof.
  induction tool_calls as [|tc rest IH];
    intros context tools_used tool_results w context' tools_used' tool_results' w' H;
    simpl in H.
  - inversion H; subst. simpl. rewrite app_nil_r. split; [done|lia].
  - apply bindT_returns in H as ([c m] & w1 & _ & H).
    apply IH in H as [-> ->]. simpl.
    rewrite <- app_assoc, length_app. simpl. split; [done|lia].
Qed.

Lemma loop_round_no_raise fuel uid user_role st w e :
  fst (loop_round E fuel uid user_role st w) ≠ Raises e.
Proof.
  unfold loop_round. apply bindT_no_raise.
  - intros e'. apply handle_tool_calls_no_raise.
  - by intros [[c t] r] w1 e'.
Qed.

Lemma loop_round_returns fuel uid user_role st w st' w' :
  loop_round E fuel uid user_role st w = (Returns st', w') →
  ls_rounds st' = S (ls_rounds st)
  ∧ ls_tools_used st'
    = (ls_tools_used st ++ List.map tc_name (pending_tool_calls (ls_response st)))%list
  ∧ ls_response st' = chat_complete E (ls_messages st').
Proof.
  unfold loop_round. intros H.
  apply bindT_returns in H as ([[c t] r] & w1 & Hcalls & H).
  apply handle_tool_calls_tools_used in Hcalls as [-> _].
  inversion H; subst. by simpl.
Qed.


(** With a model that asks for tools in every response the loop does not
    come back, whatever the bound on its rounds. *)
Lemma agent_loop_diverges n fuel uid user_role :
  (∀ messages, pending_tool_calls (chat_complete E messages) ≠ []) →
  ∀ st w,
    pending_tool_calls (ls_response st) ≠ [] →
    fst (agent_loop E n fuel uid user_role st w) = OutOfFuel.
Proof.
  intros Hmodel. induction n as [|n IH]; intros st w Hst; simpl;
    destruct (pending_tool_calls (ls_response st)) eqn:Hp; try done.
  unfold bindT.
  pose proof (loop_round_no_raise fuel uid user_role st w) as Hnr.
  destruct (loop_round E fuel uid user_role st w) as [[st1|e|] w1] eqn:Hround; simpl.
  - apply IH. apply loop_round_returns in Hround as (_ & _ & ->). apply Hmodel.
  - by destruct (Hnr e).
  - done.
Qed.


End AgentLoop.

(** * Tool calls: arguments and context *)

Section ToolCalls.

Context (E : Env).

Lemma has_key_true (d : Dict) k v : d !! k = Some v → has_key d k = true.
Proof. intros H. unfold has_key. apply bool_decide_eq_true. eauto. Qed.

Lemma has_key_false (d : Dict) k : d !! k = None → has_key d k = false.
Proof.
  intros H. unfold has_key. apply bool_decide_eq_false. rewrite H.
  by intros [? ?].
Qed.

(** The three injections only add keys that are missing. *)
Lemma inject_doctor_id_keeps user_role tool_name context (arguments : Dict) k v :
  arguments !! k = Some v →
  inject_doctor_id user_role tool_name context arguments !! k = Some v.
Proof.
  intros H. unfold inject_doctor_id.
  repeat case_match; try done.
  destruct (decide (k = "doctor_id")) as [->|Hne]; [|by rewrite lookup_insert_ne].
  apply has_key_true in H.
  match goal with Hc : _ && negb _ = true |- _ =>
    rewrite H, andb_false_r in Hc; discriminate Hc end.
Qed.

Lemma inject_patient_email_keeps w uid user_role tool_name (arguments : Dict) k v :
  arguments !! k = Some v →
  inject_patient_email w uid user_role tool_name arguments !! k = Some v.
Proof.
  intros H. unfold inject_patient_email.
  repeat case_match; try done.
  destruct (decide (k = "patient_email")) as [->|Hne]; [|by rewrite lookup_insert_ne].
  apply has_key_true in H.
  match goal with Hc : _ && negb _ = true |- _ =>
    rewrite H, andb_false_r in Hc; discriminate Hc end.
Qed.

Lemma inject_doctor_name_keeps tool_name context (arguments : Dict) k v :
  arguments !! k = Some v →
  inject_doctor_name tool_name context arguments !! k = Some v.
Proof.
  intros H. unfold inject_doctor_name.
  repeat case_match; try done.
  destruct (decide (k = "doctor_name")) as [->|Hne]; [|by rewrite lookup_insert_ne].
  apply has_key_true in H.
  match goal with Hc : negb _ = true |- _ => rewrite H in Hc; discriminate Hc end.
Qed.

Lemma executed_arguments_keeps w uid user_role context tool_name (arguments : Dict) k v :
  arguments !! k = Some v →
  executed_arguments w uid user_role context tool_name arguments !! k = Some v.
Proof.
  intros H. unfold executed_arguments.
  destruct (String.eqb tool_name "check_doctor_availability").
  - by apply inject_patient_email_keeps, inject_doctor_id_keeps.
  - by apply inject_doctor_name_keeps, inject_patient_email_keeps, inject_doctor_id_keeps.
Qed.



(** Arguments that do not fit the parameters of a handler: the call
    [handler( **arguments )] raises [TypeError] before the body runs, and
    the executor returns its message. *)
Lemma execute_tool_ill_fitting fuel tool_name (arguments : Dict) w method required
    optional :
  tool_signature tool_name = Some (method, required, optional) →
  keys_subset arguments (required ++ optional) && keys_present arguments required = false →
  execute_tool E fuel tool_name arguments w
  = (Returns (error_payload (type_error_message E method arguments)), w).
Proof.
  unfold tool_signature. intros Hsig Hfit.
  repeat match type of Hsig with
         | (if String.eqb ?a ?b then _ else _) = _ =>
             destruct (String.eqb_spec a b) as [->|_]
         end;
    try discriminate Hsig;
    injection Hsig as <- <- <-;
    unfold execute_tool, execute_tool_in;
    cbn [tool_map lookup_tool String.eqb Ascii.eqb Bool.eqb]; cbv iota beta;
    unfold try_exceptT, call_check_availability, call_schedule_appointment,
      call_reschedule_appointment, call_get_all_doctors, call_cancel_appointment,
      bindT, bind_kwargs;
    by rewrite Hfit.
Qed.

Lemma keys_present_missing (arguments : Dict) required k :
  In k required → arguments !! k = None → keys_present arguments required = false.
Proof.
  intros Hin Hnone. unfold keys_present.
  destruct (forallb _ required) eqn:Hall; [|done].
  rewrite forallb_forall in Hall. specialize (Hall k Hin).
  apply bool_decide_eq_true in Hall. rewrite Hnone in Hall. by destruct Hall.
Qed.

(** No default is injected under [appointment_datetime], [date],
    [appointment_id] or any key other than [doctor_id], [patient_email]
    and [doctor_name]. *)
Lemma executed_arguments_no_default w uid user_role context tool_name k :
  k ≠ "doctor_id" → k ≠ "patient_email" → k ≠ "doctor_name" →
  executed_arguments w uid user_role context tool_name ∅ !! k = None.
Proof.
  intros H1 H2 H3. unfold executed_arguments, inject_doctor_name, inject_patient_email,
    inject_doctor_id.
  repeat case_match; rewrite ?lookup_insert_ne by done; by rewrite ?lookup_empty.
Qed.

(** An error payload is no successful availability result. *)
Lemma capture_availability_error message context :
  capture_availability (error_payload message) context = context.
Proof. reflexivity. Qed.

(** C9, as the code has it. A payload that is not valid JSON is parsed to
    the empty map, and the tool is executed with the empty map and the
    injected defaults; the call does not raise. What comes back is the
    result of the tool for these arguments, and that is an error result
    whenever they do not fit the parameters of the handler: the call
    [handler( **arguments )] then raises [TypeError], which the executor
    returns as [{"error": ...}], with nothing written and the context
    unchanged. This is so for [check_doctor_availability],
    [schedule_appointment], [reschedule_appointment] and
    [cancel_appointment], each of which has a parameter without default
    that no injection supplies, whatever the role and the context; with
    [get_all_doctors], which has no parameter, the body runs. *)
Theorem malformed_arguments_degrade (fuel : nat) (uid : UUID) (user_role : string)
    (context : Dict) (tool_call : ToolCall) (w : World) :
  json_loads E (tc_arguments tool_call) = None →
  parse_arguments E (tc_arguments tool_call) = ∅
  ∧ handle_tool_call E fuel uid user_role context tool_call w
    = (do* result := execute_tool E fuel (tc_name tool_call)
                       (executed_arguments w uid user_role context
                          (tc_name tool_call) ∅) in
       ret (if String.eqb (tc_name tool_call) "check_doctor_availability"
            then capture_availability result context else context,
            ToolResult (tc_name tool_call) (json_dumps E result) (tc_id tool_call))) w
  ∧ (∀ e, fst (handle_tool_call E fuel uid user_role context tool_call w) ≠ Raises e)
  ∧ (∀ method required optional,
       let arguments :=
         executed_arguments w uid user_role context (tc_name tool_call) ∅ in
       tool_signature (tc_name tool_call) = Some (method, required, optional) →
       keys_subset arguments (required ++ optional) && keys_present arguments required
       = false →
       handle_tool_call E fuel uid user_role context tool_call w
       = (Returns (context,
                   ToolResult (tc_name tool_call)
                     (json_dumps E (error_payload (type_error_message E method arguments)))
                     (tc_id tool_call)),
          w))
  ∧ (In (tc_name tool_call)
        ["check_doctor_availability"; "schedule_appointment"; "reschedule_appointment";
         "cancel_appointment"] →
     ∃ method,
       handle_tool_call E fuel uid user_role context tool_call w
       = (Returns (context,
                   ToolResult (tc_name tool_call)
                     (json_dumps E
                        (error_payload
                           (type_error_message E method
                              (executed_arguments w uid user_role context
                                 (tc_name tool_call) ∅))))
                     (tc_id tool_call)),
          w))
  ∧ (tc_name tool_call = "get_all_doctors" →
     handle_tool_call E fuel uid user_role context tool_call w
     = (do* result := try_exceptT (_get_all_doctors E) (λ e, ret (error_payload e)) in
        ret (context, ToolResult "get_all_doctors" (json_dumps E result)
                        (tc_id tool_call))) w).
Proof.
  intros Hbad.
  assert (parse_arguments E (tc_arguments tool_call) = ∅) as Hempty.
  { unfold parse_arguments. by rewrite Hbad. }
  assert (∀ method required optional,
            tool_signature (tc_name tool_call) = Some (method, required, optional) →
            keys_subset (executed_arguments w uid user_role context (tc_name tool_call) ∅)
              (required ++ optional)
            && keys_present (executed_arguments w uid user_role context
                               (tc_name tool_call) ∅) required = false →
            handle_tool_call E fuel uid user_role context tool_call w
            = (Returns (context,
                        ToolResult (tc_name tool_call)
                          (json_dumps E
                             (error_payload
                                (type_error_message E method
                                   (executed_arguments w uid user_role context
                                      (tc_name tool_call) ∅))))
                          (tc_id tool_call)),
               w)) as Hfails.
  { intros method required optional Hsig Hfit.
    rewrite handle_tool_call_unfold, Hempty.
    rewrite (execute_tool_ill_fitting fuel _ _ w method required optional Hsig Hfit).
    rewrite capture_availability_error.
    by destruct (String.eqb (tc_name tool_call) "check_doctor_availability"). }
  split; [done|]. split; [|split; [|split; [|split]]].
  - rewrite handle_tool_call_unfold, Hempty. unfold bindT, ret.
    by destruct (execute_tool E fuel _ _ w) as [[d|e|] w'].
  - intros e. apply handle_tool_call_no_raise.
  - intros method required optional arguments. apply Hfails.
  - intros Hin.
    assert (∀ method required optional k,
              tool_signature (tc_name tool_call) = Some (method, required, optional) →
              In k required →
              k ≠ "doctor_id" → k ≠ "patient_email" → k ≠ "doctor_name" →
              ∃ method,
                handle_tool_call E fuel uid user_role context tool_call w
                = (Returns (context,
                            ToolResult (tc_name tool_call)
                              (json_dumps E
                                 (error_payload
                                    (type_error_message E method
                                       (executed_arguments w uid user_role context
                                          (tc_name tool_call) ∅))))
                              (tc_id tool_call)),
                   w)) as Hmissing.
    { intros method required optional k Hsig Hk H1 H2 H3. exists method.
      apply (Hfails method required optional Hsig).
      rewrite (keys_present_missing _ required k Hk); [by rewrite andb_false_r|].
      by apply executed_arguments_no_default. }
    simpl in Hin. destruct Hin as [Hn|[Hn|[Hn|[Hn|[]]]]].
    + eapply (Hmissing _ _ _ "date"); [by rewrite <- Hn|simpl; tauto|done..].
    + eapply (Hmissing _ _ _ "appointment_datetime"); [by rewrite <- Hn|simpl; tauto|done..].
    + eapply (Hmissing _ _ _ "new_datetime"); [by rewrite <- Hn|simpl; tauto|done..].
    + eapply (Hmissing _ _ _ "appointment_id"); [by rewrite <- Hn|simpl; tauto|done..].
  - intros Hname. rewrite handle_tool_call_unfold, Hempty, Hname.
    assert (executed_arguments w uid user_role context "get_all_doctors" ∅ = ∅) as ->.
    { unfold executed_arguments, inject_doctor_name, inject_patient_email,
        inject_doctor_id. by repeat case_match. }
    unfold execute_tool, execute_tool_in.
    cbn [tool_map lookup_tool String.eqb Ascii.eqb Bool.eqb]. cbv iota beta.
    unfold call_get_all_doctors, try_exceptT, bindT, bind_kwargs, ret.
    assert (keys_subset ∅ ([] ++ []) && keys_present ∅ [] = true) as ->
      by (vm_compute; reflexivity).
    by destruct (_get_all_doctors E w) as [[d|e|] w'].
Qed.

Lemma capture_availability_lookup (result context : Dict) :
  get_truthy result "success" && get_truthy result "doctor_id" = true →
  let context' := capture_availability result context in
  context' !! "last_doctor_id" = result !! "doctor_id"
  ∧ context' !! "last_doctor_name" = Some (dict_get result "doctor_name")
  ∧ context' !! "last_date" = Some (dict_get result "date")
  ∧ context' !! "available_slots"
    = Some (dict_get_default result "available_slots" (JList []))
  ∧ (∀ k, existsb (String.eqb k) captured_keys = false → context' !! k = context !! k).
Proof.
  intros Hok. unfold capture_availability. rewrite Hok. simpl.
  repeat split.
  - rewrite !lookup_insert_ne by done. rewrite lookup_insert_eq.
    apply andb_true_iff in Hok as [_ Hid]. unfold get_truthy, dict_get in *.
    by destruct (result !! "doctor_id").
  - rewrite !lookup_insert_ne by done. by rewrite lookup_insert_eq.
  - rewrite !lookup_insert_ne by done. by rewrite lookup_insert_eq.
  - by rewrite lookup_insert_eq.
  - intros k Hk. unfold captured_keys in Hk. simpl in Hk.
    repeat (apply orb_false_iff in Hk as [?%String.eqb_neq Hk]).
    by rewrite !lookup_insert_ne.
Qed.

(** C7, as the code has it. The only tool whose result is written into
    the context is [check_doctor_availability]: every other tool call
    returns the context it was given; when the availability result has a
    true [success] and a non-empty [doctor_id], the keys [last_doctor_id],
    [last_doctor_name], [last_date] and [available_slots] are set from it
    and no other key changes, and otherwise the context stays as it was. *)
Theorem context_capture (fuel : nat) (uid : UUID) (user_role : string)
    (context : Dict) (tool_call : ToolCall) (w : World)
    (context' : Dict) (tool_result : Message) (w' : World) :
  handle_tool_call E fuel uid user_role context tool_call w
  = (Returns (context', tool_result), w') →
  (tc_name tool_call ≠ "check_doctor_availability" → context' = context)
  ∧ (tc_name tool_call = "check_doctor_availability" →
     ∃ result,
       execute_tool E fuel (tc_name tool_call)
         (executed_arguments w uid user_role context (tc_name tool_call)
            (parse_arguments E (tc_arguments tool_call))) w
       = (Returns result, w')
       ∧ (get_truthy result "success" && get_truthy result "doctor_id" = true →
            context' !! "last_doctor_id" = result !! "doctor_id"
            ∧ context' !! "last_doctor_name" = Some (dict_get result "doctor_name")
            ∧ context' !! "last_date" = Some (dict_get result "date")
            ∧ context' !! "available_slots"
              = Some (dict_get_default result "available_slots" (JList []))
            ∧ (∀ k, existsb (String.eqb k) captured_keys = false →
                 context' !! k = context !! k))
       ∧ (get_truthy result "success" && get_truthy result "doctor_id" = false →
            context' = context)).
Proof.
  rewrite handle_tool_call_unfold.
  destruct (execute_tool E fuel _ _ w) as [[result|e|] w1] eqn:Hexec; [|done|done].
  intros H. inversion H; subst; clear H. split.
  - intros Hne. apply String.eqb_neq in Hne. by rewrite Hne.
  - intros Heq. exists result. split; [done|].
    rewrite Heq. simpl. split.
    + apply capture_availability_lookup.
    + intros Hno. unfold capture_availability. by rewrite Hno.
Qed.

(** A round without an availability check leaves the context alone. *)
Lemma handle_tool_calls_frame fuel uid user_role tool_calls :
  Forall (λ tc, tc_name tc ≠ "check_doctor_availability") tool_calls →
  ∀ context tools_used tool_results w context' tools_used' tool_results' w',
    handle_tool_calls E fuel uid user_role tool_calls context tools_used tool_results w
    = (Returns (context', tools_used', tool_results'), w') →
    context' = context.
Proof.
  induction 1 as [|tc rest Hne _ IH];
    intros context tools_used tool_results w context' tools_used' tool_results' w' H;
    simpl in H.
  - by inversion H.
  - apply bindT_returns in H as ([c m] & w1 & Hcall & H).
    apply IH in H as ->.
    rewrite handle_tool_call_unfold in Hcall.
    destruct (execute_tool E fuel _ _ w) as [[result|e|] w2]; [|done|done].
    apply String.eqb_neq in Hne. rewrite Hne in Hcall. by inversion Hcall.
Qed.

End ToolCalls.

(** * Availability *)

Section Availability.

Context (E : Env).

Lemma timedelta_minutes_pos duration : 0 < duration → 0 < timedelta_minutes duration.
Proof. unfold timedelta_minutes, us_per_minute. lia. Qed.

Lemma strides_length n d t : length (strides n d t) = n.
Proof. revert t. induction n as [|n IH]; intros t; simpl; [done|]. by rewrite IH. Qed.

Lemma strides_lookup n d : ∀ t k,
  (k < n)%nat → strides n d t !! k = Some (t + Z.of_nat k * d).
Proof.
  induction n as [|n IH]; intros t k Hk; [lia|].
  destruct k as [|k]; simpl.
  - f_equal. lia.
  - rewrite IH by lia. f_equal. lia.
Qed.

Lemma window_count_step duration window_start window_end :
  0 < duration →
  window_start + timedelta_minutes duration ≤ window_end →
  window_count duration window_start window_end
  = S (window_count duration (window_start + timedelta_minutes duration) window_end).
Proof.
  intros Hd Hfit. pose proof (timedelta_minutes_pos _ Hd) as Hpos.
  unfold window_count. set (d := timedelta_minutes duration) in *.
  replace (window_end - window_start) with ((window_end - (window_start + d)) + 1 * d) by lia.
  rewrite Z.div_add by lia.
  rewrite Z2Nat.inj_add; [|apply Z.div_pos; lia|lia].
  simpl. lia.
Qed.

Lemma window_count_stop duration window_start window_end :
  0 < duration →
  window_end < window_start + timedelta_minutes duration →
  window_count duration window_start window_end = O.
Proof.
  intros Hd Hfit. pose proof (timedelta_minutes_pos _ Hd) as Hpos.
  unfold window_count. set (d := timedelta_minutes duration) in *.
  destruct (Z_lt_le_dec (window_end - window_start) 0) as [Hneg|Hnn].
  - assert ((window_end - window_start) / d < 0) by (apply Z.div_lt_upper_bound; lia).
    lia.
  - rewrite Z.div_small by lia. done.
Qed.

(** The [while] loop, for a positive duration and enough fuel. *)
Lemma scan_window_spec duration booked_times window_end :
  0 < duration →
  ∀ fuel window_start available_slots,
    (window_count duration window_start window_end < fuel)%nat →
    scan_window fuel duration booked_times window_end window_start available_slots
    = Returns (available_slots
               ++ open_slots duration booked_times window_start window_end)%list.
Proof.
  intros Hd. induction fuel as [|fuel IH]; intros window_start available_slots Hfuel;
    [lia|].
  simpl. destruct (Z.leb_spec (window_start + timedelta_minutes duration) window_end)
    as [Hfit|Hstop].
  - rewrite (window_count_step _ _ _ Hd Hfit) in Hfuel.
    rewrite IH by lia.
    unfold open_slots, window_starts.
    rewrite (window_count_step _ _ _ Hd Hfit). simpl.
    unfold is_free at 2.
    destruct (existsb (Z.eqb window_start) booked_times); simpl.
    + done.
    + by rewrite <- app_assoc.
  - unfold open_slots, window_starts.
    rewrite (window_count_stop _ _ _ Hd Hstop). simpl. by rewrite app_nil_r.
Qed.

(** The instants of a window are the strides from its start that leave
    room for a consultation before its end. *)
Lemma window_starts_spec duration window_start window_end t :
  0 < duration →
  In t (window_starts duration window_start window_end)
  ↔ ∃ k, 0 ≤ k
         ∧ t = window_start + k * timedelta_minutes duration
         ∧ t + timedelta_minutes duration ≤ window_end.
Proof.
  intros Hd. pose proof (timedelta_minutes_pos _ Hd) as Hpos.
  unfold window_starts, window_count. set (d := timedelta_minutes duration) in *.
  set (n := Z.to_nat ((window_end - window_start) / d)).
  split.
  - intros Hin. apply list_elem_of_In, list_elem_of_lookup in Hin as [i Hi].
    assert (i < n)%nat as Hlt.
    { apply lookup_lt_Some in Hi. by rewrite strides_length in Hi. }
    rewrite strides_lookup in Hi by done. inversion Hi; subst t; clear Hi.
    exists (Z.of_nat i). repeat split; [lia|].
    assert (0 ≤ (window_end - window_start) / d) as Hq by (subst n; lia).
    assert (Z.of_nat i + 1 ≤ (window_end - window_start) / d) as Hi1 by (subst n; lia).
    pose proof (Z.mul_div_le (window_end - window_start) d Hpos).
    nia.
  - intros (k & Hk & -> & Hfit).
    apply list_elem_of_In, list_elem_of_lookup. exists (Z.to_nat k).
    assert (k + 1 ≤ (window_end - window_start) / d) as Hle.
    { apply Z.div_le_lower_bound; lia. }
    rewrite strides_lookup by (subst n; lia). f_equal. lia.
Qed.

Lemma scan_day_spec duration booked_times target_date fuel :
  0 < duration →
  ∀ day_slots windows available_slots,
    day_windows target_date day_slots = Some windows →
    Forall (λ win, (window_count duration win.1 win.2 < fuel)%nat) windows →
    scan_day E fuel duration booked_times target_date day_slots available_slots
    = Returns (available_slots
               ++ concat (List.map (λ win, open_slots duration booked_times win.1 win.2)
                            windows))%list.
Proof.
  intros Hd. induction day_slots as [|slot rest IH];
    intros windows available_slots Hw Hfuel; simpl in *.
  - inversion Hw; subst. simpl. by rewrite app_nil_r.
  - unfold strptime_time.
    destruct (strptime_H_M (slot_start slot)) as [s|]; [|done].
    destruct (strptime_H_M (slot_end slot)) as [e|]; [|done].
    destruct (day_windows target_date rest) as [ws|]; [|done].
    inversion Hw; subst; clear Hw. inversion Hfuel; subst. simpl in *.
    rewrite scan_window_spec by done. simpl.
    rewrite (IH ws) by done. by rewrite <- app_assoc.
Qed.

Lemma strftime_combine d t : strftime_I_M_p (combine d t) = strftime_I_M_p t.
Proof.
  unfold strftime_I_M_p, dt_hour, dt_minute, combine.
  assert ((d * us_per_day + t) mod us_per_day = t mod us_per_day) as ->; [|done].
  rewrite Z.add_comm. apply Z_mod_plus_full.
Qed.

Lemma strides_combine n d day : ∀ t,
  strides n d (combine day t) = List.map (combine day) (strides n d t).
Proof.
  induction n as [|n IH]; intros t; simpl; [done|].
  rewrite <- IH. do 2 f_equal. unfold combine. lia.
Qed.

Lemma window_count_combine duration day s e :
  window_count duration (combine day s) (combine day e) = window_count duration s e.
Proof. unfold window_count, combine. do 2 f_equal. lia. Qed.

Lemma open_slots_unbooked duration day s e :
  open_slots duration [] (combine day s) (combine day e)
  = List.map strftime_I_M_p (window_starts duration s e).
Proof.
  unfold open_slots, window_starts. rewrite window_count_combine, strides_combine.
  assert (∀ l, List.filter (is_free []) l = l) as ->.
  { induction l as [|x l IH]; simpl; [done|]. by rewrite IH. }
  rewrite List.map_map. apply List.map_ext. intros t. apply strftime_combine.
Qed.

(** A duration that is not positive never leaves a window that has room
    for it: no slot list is returned (in the source, for a negative
    duration, by an [OverflowError] once [datetime] leaves its range, which
    is not modelled). *)
Lemma scan_window_diverges duration booked_times window_end :
  duration ≤ 0 →
  ∀ fuel current_time available_slots,
    current_time + timedelta_minutes duration ≤ window_end →
    scan_window fuel duration booked_times window_end current_time available_slots
    = OutOfFuel.
Proof.
  intros Hd. induction fuel as [|fuel IH]; intros current_time available_slots Hfit;
    simpl; [done|].
  destruct (Z.leb_spec (current_time + timedelta_minutes duration) window_end); [|lia].
  apply IH. unfold timedelta_minutes, us_per_minute in *. lia.
Qed.

(** ** The instants that are offered *)

Lemma open_slots_free_starts duration booked_times windows :
  concat (List.map (λ win, open_slots duration booked_times win.1 win.2) windows)
  = List.map strftime_I_M_p (free_starts duration booked_times windows).
Proof.
  unfold free_starts, open_slots.
  induction windows as [|win rest IH]; [done|]. simpl.
  by rewrite List.map_app, IH.
Qed.

Lemma free_starts_spec duration booked_times windows t :
  In t (free_starts duration booked_times windows)
  ↔ (∃ win, In win windows ∧ In t (window_starts duration win.1 win.2))
    ∧ ¬ In t booked_times.
Proof.
  unfold free_starts. rewrite List.in_concat. split.
  - intros (l & Hl & Ht). apply List.in_map_iff in Hl as (win & <- & Hwin).
    apply List.filter_In in Ht as [Ht Hfree]. split; [by exists win|].
    unfold is_free in Hfree. apply negb_true_iff in Hfree.
    intros Hin. assert (existsb (Z.eqb t) booked_times = true) as Hex; [|congruence].
    apply List.existsb_exists. exists t. split; [done|]. apply Z.eqb_refl.
  - intros [(win & Hwin & Ht) Hfree].
    exists (List.filter (is_free booked_times) (window_starts duration win.1 win.2)).
    split; [apply List.in_map_iff; by exists win|].
    apply List.filter_In. split; [done|].
    unfold is_free. apply negb_true_iff.
    destruct (existsb (Z.eqb t) booked_times) eqn:Hex; [|done].
    apply List.existsb_exists in Hex as (x & Hx & Heq). apply Z.eqb_eq in Heq.
    subst x. done.
Qed.

Lemma free_starts_strides duration booked_times windows t :
  0 < duration →
  In t (free_starts duration booked_times windows)
  ↔ (∃ win k, In win windows
              ∧ 0 ≤ k
              ∧ t = win.1 + k * timedelta_minutes duration
              ∧ t + timedelta_minutes duration ≤ win.2)
    ∧ ¬ In t booked_times.
Proof.
  intros Hpos. rewrite free_starts_spec. split.
  - intros [(win & Hin & Ht) Hfree]. split; [|done].
    apply (window_starts_spec duration win.1 win.2 t Hpos) in Ht as (k & Hk & Heq & Hfit).
    by exists win, k.
  - intros [(win & k & Hin & Hk & Heq & Hfit) Hfree]. split; [|done].
    exists win. split; [done|].
    apply (window_starts_spec duration win.1 win.2 t Hpos). by exists k.
Qed.

Lemma booked_on_time doctor target_date w a :
  In a (w_appointments w) →
  appt_doctor_id a = doctor_id doctor →
  dt_date (appt_scheduled_time a) = target_date →
  is_booked_status (appt_status a) = true →
  In (appt_scheduled_time a) (List.map appt_scheduled_time (booked_on doctor target_date w)).
Proof.
  intros Hin Hdoc Hday Hst. apply List.in_map. unfold booked_on.
  apply List.filter_In. split; [done|].
  rewrite Hdoc, N.eqb_refl, Hst. cbn [andb]. rewrite andb_true_r.
  unfold dt_date in Hday.
  pose proof (Z.div_mod (appt_scheduled_time a) us_per_day ltac:(done)) as Hdm.
  pose proof (Z.mod_pos_bound (appt_scheduled_time a) us_per_day ltac:(done)) as Hb.
  rewrite Hday in Hdm.
  apply andb_true_iff. split; apply Z.leb_le; unfold combine, time_min, time_max; lia.
Qed.

(** What [_check_availability] offers, as instants. *)
Lemma check_availability_offered fuel doctor_name_arg date_arg w doctor windows :
  let target_date := _parse_date E (dt_date (w_now w)) date_arg in
  let duration := doctor_consultation_duration doctor in
  let booked_times := List.map appt_scheduled_time (booked_on doctor target_date w) in
  doctors_matching E doctor_name_arg w = [doctor] →
  0 < duration →
  day_windows target_date
    (default [] (doctor_available_slots doctor !! day_name target_date)) = Some windows →
  Forall (λ win, (window_count duration win.1 win.2 < fuel)%nat) windows →
  ∃ result,
    _check_availability E fuel doctor_name_arg date_arg w = (Returns result, w)
    ∧ result !! "available_slots"
      = Some (JList (List.map JStr
                       (List.map strftime_I_M_p
                          (free_starts duration booked_times windows)))).
Proof.
  intros target_date duration booked_times Hd Hpos Hwin Hfuel.
  unfold _check_availability, bindT, get_world, lift, ret.
  rewrite Hd. cbn [scalar_one_or_none]. fold target_date.
  destruct (default [] (doctor_available_slots doctor !! day_name target_date))
    as [|slot rest] eqn:Hslots.
  - simpl in Hwin. injection Hwin as <-. eexists. split; [reflexivity|].
    by simplify_map_eq.
  - fold duration. fold booked_times.
    rewrite (scan_day_spec duration booked_times target_date fuel Hpos
               (slot :: rest) windows [] Hwin Hfuel).
    cbn [app]. eexists. split; [reflexivity|].
    rewrite open_slots_free_starts. by simplify_map_eq.
Qed.

(** C4. A doctor whose pattern for the weekday of the target date is the
    single window 09:00-12:00, with consultations of 30 minutes and nothing
    booked that day, gets exactly the six slots 09:00, 09:30, 10:00, 10:30,
    11:00 and 11:30. In general, for a positive duration, the loop of a
    window returns the formatted starts of its buckets that are not booked,
    window after window, and the starts of a window are exactly the
    instants at a whole number of durations after its start at which a
    consultation still ends inside the window. And for [_check_availability]
    itself, with the times of the appointments of the doctor on that day
    that are [scheduled] or [rescheduled] as the booked times: the slots
    it returns are the texts of the starts of the windows of the day that
    are no booked time, so that no such appointment stands at an instant
    that is offered. *)
Theorem check_availability_slots :
  (∀ fuel doctor_name_arg date_arg w doctor,
     let target_date := _parse_date E (dt_date (w_now w)) date_arg in
     doctors_matching E doctor_name_arg w = [doctor] →
     doctor_available_slots doctor !! day_name target_date
       = Some [ {| slot_start := "09:00"; slot_end := "12:00" |} ] →
     doctor_consultation_duration doctor = 30 →
     booked_on doctor target_date w = [] →
     (7 ≤ fuel)%nat →
     ∃ result,
       _check_availability E fuel doctor_name_arg date_arg w = (Returns result, w)
       ∧ result !! "success" = Some (JBool true)
       ∧ result !! "available_slots" = Some (JList (List.map JStr morning_slots)))
  ∧ (∀ duration booked_times target_date fuel day_slots windows,
       0 < duration →
       day_windows target_date day_slots = Some windows →
       Forall (λ win, (window_count duration win.1 win.2 < fuel)%nat) windows →
       scan_day E fuel duration booked_times target_date day_slots []
       = Returns (concat (List.map (λ win, open_slots duration booked_times win.1 win.2)
                            windows)))
  ∧ (∀ duration window_start window_end t,
       0 < duration →
       In t (window_starts duration window_start window_end)
       ↔ ∃ k, 0 ≤ k
              ∧ t = window_start + k * timedelta_minutes duration
              ∧ t + timedelta_minutes duration ≤ window_end)
  ∧ (∀ fuel doctor_name_arg date_arg w doctor windows,
       let target_date := _parse_date E (dt_date (w_now w)) date_arg in
       let duration := doctor_consultation_duration doctor in
       let booked_times :=
         List.map appt_scheduled_time (booked_on doctor target_date w) in
       doctors_matching E doctor_name_arg w = [doctor] →
       0 < duration →
       day_windows target_date
         (default [] (doctor_available_slots doctor !! day_name target_date))
       = Some windows →
       Forall (λ win, (window_count duration win.1 win.2 < fuel)%nat) windows →
       ∃ result,
         _check_availability E fuel doctor_name_arg date_arg w = (Returns result, w)
         ∧ result !! "available_slots"
           = Some (JList (List.map JStr
                            (List.map strftime_I_M_p
                               (free_starts duration booked_times windows))))
         ∧ (∀ t, In t (free_starts duration booked_times windows)
                 ↔ (∃ win k, In win windows
                             ∧ 0 ≤ k
                             ∧ t = win.1 + k * timedelta_minutes duration
                             ∧ t + timedelta_minutes duration ≤ win.2)
                   ∧ ¬ In t booked_times)
         ∧ (∀ a, In a (w_appointments w) →
                 appt_doctor_id a = doctor_id doctor →
                 dt_date (appt_scheduled_time a) = target_date →
                 is_booked_status (appt_status a) = true →
                 In (appt_scheduled_time a) booked_times
                 ∧ ¬ In (appt_scheduled_time a)
                       (free_starts duration booked_times windows))).
Proof.
  split; [|split; [|split]].
  - intros fuel doctor_name_arg date_arg w doctor target_date Hdoc Hslots Hdur Hbooked Hfuel.
    unfold _check_availability, bindT, get_world, lift, ret.
    fold target_date. rewrite Hdoc. simpl scalar_one_or_none. cbv iota beta.
    rewrite Hslots, Hbooked, Hdur. cbn [default from_option id List.map]. cbv iota beta.
    rewrite (scan_day_spec 30 [] target_date fuel ltac:(lia)
               [ {| slot_start := "09:00"; slot_end := "12:00" |} ]
               [(combine target_date (time_of_hm 9 0), combine target_date (time_of_hm 12 0))]
               []).
    + simpl concat. rewrite app_nil_r, open_slots_unbooked.
      change (List.map strftime_I_M_p (window_starts 30 (time_of_hm 9 0) (time_of_hm 12 0)))
        with morning_slots.
      eexists. split; [reflexivity|]. split.
      * by rewrite lookup_insert_eq.
      * rewrite !lookup_insert_ne by done. by rewrite lookup_insert_eq.
    + reflexivity.
    + constructor; [|constructor]. simpl. rewrite window_count_combine.
      change (window_count 30 (time_of_hm 9 0) (time_of_hm 12 0)) with 6%nat. lia.
  - intros duration booked_times target_date fuel day_slots windows Hd Hw Hfuel.
    by rewrite (scan_day_spec duration booked_times target_date fuel Hd day_slots windows []).
  - intros. by apply window_starts_spec.
  - intros fuel doctor_name_arg date_arg w doctor windows target_date duration booked_times
      Hd Hpos Hwin Hfuel.
    destruct (check_availability_offered fuel doctor_name_arg date_arg w doctor windows
                Hd Hpos Hwin Hfuel) as (result & Hr & Hslots).
    exists result. split; [exact Hr|]. split; [exact Hslots|].
    split; [intros t; by apply free_starts_strides|].
    intros a Hin Hdoc Hday Hst.
    assert (In (appt_scheduled_time a) booked_times) as Hbooked
      by (by apply booked_on_time).
    split; [exact Hbooked|].
    intros Hoffered. by apply free_starts_spec in Hoffered as [_ Hfree].
Qed.

End Availability.

(** * Completion of the tools *)

Section Completion.

Context (E : Env).
























End Completion.

(** * The conversation assembler and the stored history *)

Section History.

Context (E : Env).

Lemma build_messages_shape now conversation user_message user_role user_context :
  _build_messages E now conversation user_message user_role user_context
  = (Msg "system" (_get_system_prompt E now user_role user_context)
     :: List.map strip_turn (last_n 10 (conv_messages conversation))
     ++ [Msg "user" user_message])%list.
Proof. reflexivity. Qed.

(** What a call of [process_message] that returns has sent and stored:
    the first request to the model is built from the conversation that was
    loaded, and the row written by the final commit holds every turn of
    that conversation, followed by the new user turn and the answer. *)
Lemma process_message_history fuel user_message user_id_arg session_id user_role
    w reply w' :
  process_message E fuel user_message user_id_arg session_id user_role w
  = (Returns reply, w') →
  ∃ sid conversation is_new uid w0 w1 st0 st w_pre final_response prompt,
    _get_or_create_conversation E user_id_arg sid w0 = (Returns (conversation, is_new), w1)
    ∧ ls_messages st0
      = _build_messages E (w_now w1) conversation user_message user_role
          (_get_user_context E w1 user_id_arg user_role)
    ∧ ls_rounds st0 = 1%nat
    ∧ ls_tools_used st0 = []
    ∧ ls_response st0 = chat_complete E (ls_messages st0)
    ∧ agent_loop E fuel fuel uid user_role st0 w1 = (Returns st, w_pre)
    ∧ reply_rounds reply = ls_rounds st
    ∧ reply_tools_used reply = ls_tools_used st
    ∧ reply_context reply = ls_context st
    ∧ w' = add_prompt prompt
             (save_conversation
                (set_messages_context
                   (conv_messages conversation
                    ++ [user_turn E (w_now w1) user_message;
                        assistant_turn E (w_now w1) final_response (ls_tools_used st)])%list
                   (ls_stored_context st) conversation)
                is_new w_pre).
Proof.
  unfold process_message. intros H.
  apply bindT_returns in H as (sid & w0 & _ & H).
  apply bindT_returns in H as ([conversation is_new] & w1 & Hconv & H).
  apply bindT_returns in H as (uid & w2 & Huid & H).
  assert (w2 = w1) as ->.
  { unfold parse_user_id in Huid. destruct (uuid_parse E user_id_arg); by inversion Huid. }
  apply bindT_returns in H as (w3 & w4 & Hw & H).
  inversion Hw; subst w3 w4; clear Hw.
  apply bindT_returns in H as (context & w2 & Hctx & H).
  assert (w2 = w1) as ->.
  { destruct (String.eqb user_role "doctor"); [|by inversion Hctx].
    apply bindT_returns in Hctx as (doctor & w3 & Hd & Hctx).
    unfold lift in Hd. inversion Hd; subst.
    destruct doctor; by inversion Hctx. }
  apply bindT_returns in H as (st & w_pre & Hloop & H).
  apply bindT_returns in H as ([] & w5 & Hcommit & H).
  unfold commit in Hcommit. inversion Hcommit; subst w5; clear Hcommit.
  unfold ret in H. inversion H; subst; clear H. simpl.
  do 11 eexists. split; [exact Hconv|].
  split; [|split; [|split; [|split; [|split; [exact Hloop|]]]]]; try reflexivity.
  repeat split. rewrite <- app_assoc. reflexivity.
Qed.

Lemma bindT_eq {A B} (m : Tx A) (k : A → Tx B) w a w1 :
  m w = (Returns a, w1) → bindT m k w = k a w1.
Proof. unfold bindT. by intros ->. Qed.

Lemma parse_user_id_some user_id_arg uid w :
  uuid_parse E user_id_arg = Some uid →
  parse_user_id E user_id_arg w = (Returns uid, w).
Proof. unfold parse_user_id. by intros ->. Qed.

(** ** The conversations during the tool calls *)


Lemma keepsT_raise {A} msg : keepsT (@raise A msg).
Proof. done. Qed.

















(** Without a cap on the rounds, [process_message] does not return to a
    model that asks for tools in every response. *)
Lemma process_message_no_cap fuel user_message user_id_arg session_id user_role w :
  (∀ messages, pending_tool_calls (chat_complete E messages) ≠ []) →
  ∀ reply w',
    process_message E fuel user_message user_id_arg session_id user_role w
    ≠ (Returns reply, w').
Proof.
  intros Hmodel reply w' H.
  apply process_message_history in H
    as (sid & loaded & is_new & uid & w0 & w1 & st0 & st & w_pre & final & prompt
        & _ & _ & _ & _ & Hresp & Hloop & _).
  pose proof (agent_loop_diverges E fuel fuel uid user_role Hmodel st0 w1) as Hdiv.
  rewrite Hloop in Hdiv. simpl in Hdiv.
  assert (Returns st = OutOfFuel) as Habs; [|discriminate Habs].
  apply Hdiv. rewrite Hresp. apply Hmodel.
Qed.

End History.

(** * Scheduling, rescheduling and sessions *)

Section Bookings.

Context (E : Env).

Lemma update_appointment_bookings id f w :
  (∀ a, booking (f a) = booking a) →
  bookings (update_appointment id f w) = bookings w.
Proof.
  intros Hf. unfold bookings, update_appointment, set_appointments. simpl.
  rewrite List.map_map. apply List.map_ext. intros a.
  destruct (N.eqb (appt_id a) id); [apply Hf|done].
Qed.

(** A slot held by a [scheduled] appointment: soft failure, nothing
    written. *)
Lemma schedule_conflict doctor_name_arg patient_email appointment_datetime symptoms
    w doctor user patient appt_time taken :
  doctors_matching E doctor_name_arg w = [doctor] →
  patient_users patient_email w = [user] →
  patients_of_user (user_id user) w = [patient] →
  parse_iso_or_natural E (dt_date (w_now w)) appointment_datetime = Returns appt_time →
  existing_at doctor appt_time w = [taken] →
  _schedule_appointment E doctor_name_arg patient_email appointment_datetime symptoms w
  = (Returns (soft_failure ("Sorry, the " +:+ strftime_I_M_p appt_time +:+
                            " slot is no longer available. Please choose another time.")),
     w).
Proof.
  intros Hd Hu Hp Ht Hx.
  unfold _schedule_appointment, bindT, get_world, lift, ret.
  rewrite Hd. cbn [scalar_one_or_none]. rewrite Hu. cbn [scalar_one_or_none].
  rewrite Hp. cbn [scalar_one_or_none]. rewrite Ht, Hx. done.
Qed.

(** A slot that the conflict query does not find taken: one appointment is
    added, with status [scheduled]; failures of the calendar and of the
    mail do not undo it and do not surface. *)
Lemma schedule_creates doctor_name_arg patient_email appointment_datetime symptoms
    w doctor user patient appt_time :
  doctors_matching E doctor_name_arg w = [doctor] →
  patient_users patient_email w = [user] →
  patients_of_user (user_id user) w = [patient] →
  parse_iso_or_natural E (dt_date (w_now w)) appointment_datetime = Returns appt_time →
  existing_at doctor appt_time w = [] →
  let r := _schedule_appointment E doctor_name_arg patient_email appointment_datetime
             symptoms w in
  bookings (snd r) = (bookings w ++ [(doctor_id doctor, appt_time, SCHEDULED)])%list
  ∧ (∀ e, fst r ≠ Raises e)
  ∧ (completes (fst r) → succeeded (fst r) = true).
Proof.
  intros Hd Hu Hp Ht Hx.
  unfold _schedule_appointment, bindT, get_world, lift, ret, try_exceptT, commit, fresh_id.
  rewrite Hd. cbn [scalar_one_or_none]. rewrite Hu. cbn [scalar_one_or_none].
  rewrite Hp. cbn [scalar_one_or_none]. rewrite Ht, Hx. simpl.
  destruct (calendar_create_event E _ _ _ _ _) as [ev|e1|]; simpl;
    try (destruct (email_send_appointment_confirmation E _ _ _ _ _) as [b|e2|]; simpl).
  all: split; [|split; [done|try done]].
  all: rewrite ?update_appointment_bookings by done.
  all: unfold bookings; simpl; by rewrite ?List.map_app.
Qed.

(** Rescheduling with the patient notified: the update is committed and
    then the name [User], which [mcp_server.py] binds only inside
    [_schedule_appointment], is evaluated. *)
Lemma reschedule_notification_raises appointment_id new_datetime w appt_uuid
    appointment patient new_time :
  uuid_parse E appointment_id = Some appt_uuid →
  appointments_by_id appt_uuid w = [appointment] →
  parse_iso_or_natural E (dt_date (w_now w)) new_datetime = Returns new_time →
  session_get patient_id (w_patients w) (appt_patient_id appointment) = Some patient →
  (∀ ev, completes (calendar_update_event E ev new_time)) →
  _reschedule_appointment E appointment_id new_datetime true w
  = (Raises "name 'User' is not defined",
     update_appointment (appt_id appointment) (set_time_status new_time RESCHEDULED) w).
Proof.
  intros Hid Ha Ht Hp Hcal.
  unfold _reschedule_appointment, parse_uuid, bindT, get_world, lift, ret, commit,
    try_exceptT.
  rewrite Hid. simpl. rewrite Ha. simpl. rewrite Ht. simpl.
  destruct (has_calendar_event appointment) as [ev|]; simpl.
  - specialize (Hcal ev). unfold completes in Hcal.
    destruct (calendar_update_event E ev new_time) as [b|e|]; simpl; by rewrite ?Hp.
  - by rewrite Hp.
Qed.

(** Without the notification, a failure of the calendar is swallowed. *)
Lemma reschedule_swallows_calendar appointment_id new_datetime w appt_uuid
    appointment new_time :
  uuid_parse E appointment_id = Some appt_uuid →
  appointments_by_id appt_uuid w = [appointment] →
  parse_iso_or_natural E (dt_date (w_now w)) new_datetime = Returns new_time →
  (∀ ev, completes (calendar_update_event E ev new_time)) →
  let r := _reschedule_appointment E appointment_id new_datetime false w in
  succeeded (fst r) = true
  ∧ snd r = update_appointment (appt_id appointment)
              (set_time_status new_time RESCHEDULED) w.
Proof.
  intros Hid Ha Ht Hcal.
  unfold _reschedule_appointment, parse_uuid, bindT, get_world, lift, ret, commit,
    try_exceptT.
  rewrite Hid. simpl. rewrite Ha. simpl. rewrite Ht. simpl.
  destruct (has_calendar_event appointment) as [ev|]; simpl; [|done].
  specialize (Hcal ev). unfold completes in Hcal.
  by destruct (calendar_update_event E ev new_time) as [b|e|].
Qed.

(** [clear_conversation] by the number of rows of the pair. *)
Lemma clear_conversation_rows user_id_arg session_id w uid :
  uuid_parse E user_id_arg = Some uid →
  match conversations_of uid session_id w with
  | [] => clear_conversation E user_id_arg session_id w = (Returns false, w)
  | [c] =>
      clear_conversation E user_id_arg session_id w
      = (Returns true,
         set_conversations
           (List.map (λ r, if N.eqb (conv_id r) (conv_id c) then deactivate r else r)) w)
  | _ :: _ :: _ =>
      clear_conversation E user_id_arg session_id w
      = (Raises "Multiple rows were found when one or none was required", w)
  end.
Proof.
  intros Hid.
  unfold clear_conversation, parse_user_id, bindT, get_world, lift, ret, commit.
  rewrite Hid. simpl.
  by destruct (conversations_of uid session_id w) as [|c [|c' rest]].
Qed.

Lemma conversations_of_deactivated uid session_id id w :
  conversations_of uid session_id
    (set_conversations
       (List.map (λ r, if N.eqb (conv_id r) id then deactivate r else r)) w)
  = List.map (λ r, if N.eqb (conv_id r) id then deactivate r else r)
      (conversations_of uid session_id w).
Proof.
  unfold conversations_of, set_conversations. simpl.
  induction (w_conversations w) as [|r l IH]; simpl; [done|].
  rewrite IH.
  assert (∀ x : ConversationHistory,
            N.eqb (conv_user_id (if N.eqb (conv_id r) id then deactivate r else r)) uid
            && String.eqb
                 (conv_session_id (if N.eqb (conv_id r) id then deactivate r else r))
                 session_id
            = N.eqb (conv_user_id r) uid && String.eqb (conv_session_id r) session_id)
    as -> by (intros _; by destruct (N.eqb (conv_id r) id)).
  - by destruct (N.eqb (conv_user_id r) uid && String.eqb (conv_session_id r) session_id).
  - exact r.
Qed.

(** With a single row for the pair the answer is [True] whatever the flag
    of the row, and a second call answers [True] again and changes
    nothing. *)
Lemma clear_conversation_idempotent user_id_arg session_id w uid c :
  uuid_parse E user_id_arg = Some uid →
  conversations_of uid session_id w = [c] →
  ∃ w1,
    clear_conversation E user_id_arg session_id w = (Returns true, w1)
    ∧ Forall (λ r, conv_is_active r = false) (conversations_of uid session_id w1)
    ∧ clear_conversation E user_id_arg session_id w1 = (Returns true, w1).
Proof.
  intros Hid Hc.
  pose proof (clear_conversation_rows user_id_arg session_id w uid Hid) as H1.
  rewrite Hc in H1. eexists. split; [exact H1|].
  set (w1 := set_conversations _ w).
  assert (conversations_of uid session_id w1 = [deactivate c]) as Hc1.
  { subst w1. rewrite conversations_of_deactivated, Hc. simpl. by rewrite N.eqb_refl. }
  split; [rewrite Hc1; by repeat constructor|].
  pose proof (clear_conversation_rows user_id_arg session_id w1 uid Hid) as H2.
  rewrite Hc1 in H2. rewrite H2. f_equal.
  subst w1. unfold set_conversations. simpl. f_equal.
  rewrite List.map_map. apply List.map_ext. intros r.
  destruct (N.eqb (conv_id r) (conv_id c)) eqn:Hr; simpl; by rewrite Hr.
Qed.

End Bookings.

(** * The statements on the clinic of [Demo] *)
Import Demo Scenario.

(** C1. [_schedule_appointment] looks only for a [scheduled] appointment at
    the requested instant. With the 09:00 slot of the doctor held by a
    [rescheduled] appointment, scheduling 09:00 succeeds and adds a second
    appointment at that instant, while [_check_availability] on the same
    day leaves 09:00 out as booked. *)
Theorem schedule_double_books_rescheduled_slot :
  let w := with_appointments [appointment_50 nine RESCHEDULED] in
  let r := _schedule_appointment env "Smith" "pat@example.com" "2024-01-01T09:00:00" "" w in
  succeeded (fst r) = true
  ∧ bookings (snd r) = [(7%N, nine, RESCHEDULED); (7%N, nine, SCHEDULED)]
  ∧ value ∅ (_check_availability env 10 "Smith" "today" w) !! "available_slots"
    = Some (JList (List.map JStr
              ["09:30 AM"; "10:00 AM"; "10:30 AM"; "11:00 AM"; "11:30 AM"])).
Proof. vm_compute. repeat split. Qed.

(** The same request against a [scheduled] appointment is refused and
    writes nothing. *)
Example schedule_refuses_scheduled_slot :
  let w := with_appointments [appointment_50 nine SCHEDULED] in
  let r := _schedule_appointment env "Smith" "pat@example.com" "2024-01-01T09:00:00" "" w in
  succeeded (fst r) = false ∧ completes (fst r) ∧ snd r = w.
Proof. vm_compute. repeat split. discriminate. Qed.

(** C8. Rescheduling an existing appointment with the patient notified
    (the default) commits the new time and the status [rescheduled] and
    then raises [NameError]: the call does not return [success: true], and
    through [execute_tool] the model receives an error payload. The commit
    stays. *)
Theorem reschedule_with_notification_raises :
  let w := with_appointments [appointment_50 nine SCHEDULED] in
  let r := _reschedule_appointment env "50" "2024-01-01T10:00:00" true w in
  fst r = Raises "name 'User' is not defined"
  ∧ bookings (snd r) = [(7%N, ten, RESCHEDULED)]
  ∧ fst (execute_tool env 10 "reschedule_appointment"
           (<["appointment_id" := JStr "50"]>
              (<["new_datetime" := JStr "2024-01-01T10:00:00"]> ∅)) w)
    = Returns (error_payload "name 'User' is not defined").
Proof. vm_compute. repeat split. Qed.

(** Without the notification the same call succeeds. *)
Example reschedule_without_notification :
  let w := with_appointments [appointment_50 nine SCHEDULED] in
  let r := _reschedule_appointment env "50" "2024-01-01T10:00:00" false w in
  succeeded (fst r) = true ∧ bookings (snd r) = [(7%N, ten, RESCHEDULED)].
Proof. vm_compute. repeat split. Qed.

(** C10. A session that is cleared, used again and cleared again: the
    second message finds no active row and adds a second row for the same
    pair, and the second [clear_conversation] raises instead of returning
    [True], leaving the active row active. *)
Theorem clear_conversation_twice_raises :
  let w1 := snd (process_message env 5 "hello" "2" (Some "s1") "patient" clinic) in
  let c1 := clear_conversation env "2" "s1" w1 in
  let w3 := snd (process_message env 5 "hello again" "2" (Some "s1") "patient" (snd c1)) in
  let c2 := clear_conversation env "2" "s1" w3 in
  fst c1 = Returns true
  ∧ List.map conv_is_active (conversations_of 2%N "s1" w3) = [false; true]
  ∧ fst c2 = Raises "Multiple rows were found when one or none was required"
  ∧ snd c2 = w3.
Proof. vm_compute. repeat split. Qed.

(** C7, as stated. A successful availability check writes its slots under
    the key [available_slots]; no key [last_available_slots] appears. *)
Lemma capture_writes_available_slots :
  let r := handle_tool_call env 10 2%N "patient" ∅
             (call "check_doctor_availability" payload_check_smith_today) clinic in
  let context' := (value (∅, Msg "" "") r).1 in
  context' !! "last_doctor_id" = Some (JStr "7")
  ∧ context' !! "last_available_slots" = None
  ∧ context' !! "available_slots" = Some (JList (List.map JStr morning_slots)).
Proof. vm_compute. repeat split. Qed.

(** An availability check that succeeds for a day on which the doctor does
    not work carries no [doctor_id], and nothing is captured. *)
Example capture_needs_doctor_id :
  let r := handle_tool_call env 10 2%N "patient" ∅
             (call "check_doctor_availability" payload_check_smith_tomorrow) clinic in
  succeeded (fst (execute_tool env 10 "check_doctor_availability"
                    (<["doctor_name" := JStr "Smith"]> (<["date" := JStr "tomorrow"]> ∅))
                    clinic)) = true
  ∧ (value (<["unset" := JNull]> ∅, Msg "" "") r).1 = ∅.
Proof. vm_compute. repeat split. Qed.

(** ** Instances of the general statements *)



(** The availability of the clinic's doctor on a Monday. *)
Lemma check_availability_slots_witness :
  (∃ result,
     _check_availability env 7 "Smith" "today" clinic = (Returns result, clinic)
     ∧ result !! "success" = Some (JBool true)
     ∧ result !! "available_slots" = Some (JList (List.map JStr morning_slots)))
  ∧ (let w := with_appointments [appointment_50 ten SCHEDULED] in
     ∃ result,
       _check_availability env 7 "Smith" "today" w = (Returns result, w)
       ∧ result !! "available_slots"
         = Some (JList (List.map JStr
                          ["09:00 AM"; "09:30 AM"; "10:30 AM"; "11:00 AM"; "11:30 AM"]))).
Proof.
  split.
  - apply (proj1 (check_availability_slots env) 7%nat "Smith" "today" clinic dr_smith).
    + reflexivity.
    + vm_compute. reflexivity.
    + reflexivity.
    + reflexivity.
    + lia.
  - intros w.
    assert (doctors_matching env "Smith" w = [dr_smith]) as Hd by (vm_compute; reflexivity).
    assert (0 < doctor_consultation_duration dr_smith) as Hpos by (vm_compute; reflexivity).
    assert (day_windows (_parse_date env (dt_date (w_now w)) "today")
              (default [] (doctor_available_slots dr_smith
                             !! day_name (_parse_date env (dt_date (w_now w)) "today")))
            = Some [More.morning_window]) as Hwin by (vm_compute; reflexivity).
    assert (Forall (λ win, (window_count (doctor_consultation_duration dr_smith)
                              win.1 win.2 < 7)%nat) [More.morning_window]) as Hfuel.
    { constructor; [|constructor]. vm_compute. lia. }
    destruct (proj2 (proj2 (proj2 (check_availability_slots env))) 7%nat "Smith" "today" w
                dr_smith [More.morning_window] Hd Hpos Hwin Hfuel)
      as (result & Hr & Hslots & _).
    exists result. split; [exact Hr|]. rewrite Hslots. vm_compute. reflexivity.
Defined.



(** A payload that is not JSON. *)
Lemma malformed_arguments_degrade_witness :
  json_loads env payload_malformed = None
  ∧ handle_tool_call env 10 2%N "patient" ∅ (call "get_all_doctors" payload_malformed) clinic
    = (do* result := execute_tool env 10 "get_all_doctors" ∅ in
       ret (∅, ToolResult "get_all_doctors" (json_dumps env result) "call_1")) clinic
  ∧ handle_tool_call env 10 2%N "patient" ∅ (call "cancel_appointment" payload_malformed)
      clinic
    = (Returns (∅, ToolResult "cancel_appointment"
                     "{error: _cancel_appointment() got unexpected or missing arguments}"
                     "call_1"),
       clinic).
Proof.
  split; [reflexivity|]. split.
  - refine (proj1 (proj2 (malformed_arguments_degrade env 10 2%N "patient" ∅
              (call "get_all_doctors" payload_malformed) clinic _)));
      reflexivity.
  - destruct (malformed_arguments_degrade env 10 2%N "patient" ∅
                (call "cancel_appointment" payload_malformed) clinic eq_refl)
      as (_ & _ & _ & Hfails & _).
    apply (Hfails "_cancel_appointment" ["appointment_id"] ["reason"; "notify_patient"]);
      vm_compute; reflexivity.
Defined.

(** C9, as stated. A malformed payload for a tool with a required
    parameter does produce an error result: the availability check is
    not run, and the model is sent the [TypeError] of the call. *)
Lemma malformed_payload_gives_error_result :
  json_loads env payload_malformed = None
  ∧ handle_tool_call env 10 2%N "patient" ∅
      (call "check_doctor_availability" payload_malformed) clinic
    = (Returns (∅, ToolResult "check_doctor_availability"
                     "{error: _check_availability() got unexpected or missing arguments}"
                     "call_1"),
       clinic)
  ∧ execute_tool env 10 "check_doctor_availability" ∅ clinic
    = (Returns (error_payload "_check_availability() got unexpected or missing arguments"),
       clinic).
Proof. repeat split; vm_compute; reflexivity. Qed.

(** The context after an availability check and after a booking. *)
Lemma context_capture_witness :
  (let r := handle_tool_call env 10 2%N "patient" ∅
              (call "check_doctor_availability" payload_check_smith_today) clinic in
   (value (∅, Msg "" "") r).1 !! "available_slots"
   = Some (JList (List.map JStr morning_slots)))
  ∧ (let context : Dict := <["last_doctor_name" := JStr "Smith"]> ∅ in
     let r := handle_tool_call env 10 2%N "patient" context
                (call "schedule_appointment" payload_schedule_10am) clinic in
     succeeded (fst (execute_tool env 10 "schedule_appointment"
                       (executed_arguments clinic 2%N "patient" context
                          "schedule_appointment"
                          (parse_arguments env payload_schedule_10am)) clinic)) = true
     ∧ (value (∅, Msg "" "") r).1 = context).
Proof.
  split.
  - intros r.
    destruct (context_capture env 10 2%N "patient" ∅
                (call "check_doctor_availability" payload_check_smith_today) clinic
                (value (∅, Msg "" "") r).1 (value (∅, Msg "" "") r).2 (snd r))
      as [_ Hcheck].
    + vm_compute. reflexivity.
    + destruct (Hcheck eq_refl) as (result & Hexec & Hcaptured & _).
      apply (f_equal (value ∅)) in Hexec. unfold value at 2 in Hexec.
      cbn [fst] in Hexec. subst result.
      destruct Hcaptured as (_ & _ & _ & Hslots & _); [vm_compute; reflexivity|].
      rewrite Hslots. vm_compute. reflexivity.
  - intros context r. split; [vm_compute; reflexivity|].
    destruct (context_capture env 10 2%N "patient" context
                (call "schedule_appointment" payload_schedule_10am) clinic
                (value (∅, Msg "" "") r).1 (value (∅, Msg "" "") r).2 (snd r))
      as [Hother _].
    + vm_compute. reflexivity.
    + apply Hother. vm_compute. discriminate.
Defined.

(** ** The loop through [process_message] *)

Example process_message_one_round :
  let r := value {| reply_message := ""; reply_session_id := ""; reply_tools_used := [];
                    reply_context := ∅; reply_processing_time_ms := 0; reply_rounds := 0 |}
             (process_message env 10 "hello" "2" (Some "s1") "patient" clinic) in
  reply_rounds r = 1%nat ∧ reply_tools_used r = []
  ∧ reply_message r = "How can I help you today?".
Proof. vm_compute. repeat split. Qed.

Example process_message_two_rounds :
  let r := value {| reply_message := ""; reply_session_id := ""; reply_tools_used := [];
                    reply_context := ∅; reply_processing_time_ms := 0; reply_rounds := 0 |}
             (process_message (with_model model_once) 10 "Which doctors are there?" "2"
                (Some "s1") "patient" clinic) in
  reply_rounds r = 2%nat ∧ reply_tools_used r = ["get_all_doctors"]
  ∧ reply_message r = "We have one cardiologist.".
Proof. vm_compute. repeat split. Qed.

Example process_message_never_done :
  fst (process_message (with_model model_always) 40 "Which doctors are there?" "2"
         (Some "s1") "patient" clinic) = OutOfFuel.
Proof. vm_compute. reflexivity. Qed.

(** A doctor with consultations of zero minutes: the availability check
    does not come back, through the executor either. *)
Example zero_duration_never_done :
  let slow : Doctor :=
    {| doctor_id := 8%N; doctor_user_id := 3%N; doctor_name := "Max Quick";
       doctor_specialty := "Triage";
       doctor_available_slots := <["monday" := [morning] ]> ∅;
       doctor_consultation_duration := 0 |} in
  let w :=
    {| w_users := w_users clinic; w_doctors := [dr_smith; slow];
       w_patients := w_patients clinic; w_appointments := [];
       w_conversations := []; w_prompts := [];
       w_next_uuid := 100%N; w_now := now |} in
  fst (execute_tool env 200 "check_doctor_availability"
         (<["doctor_name" := JStr "Quick"]> (<["date" := JStr "today"]> ∅)) w)
  = OutOfFuel.
Proof. vm_compute. reflexivity. Qed.

(** * Further properties of the tools and of the agent *)

(** ** Dates and times of day *)

Section Dates.

Context (E : Env).

Lemma weekday_days_until today i :
  0 ≤ i < 7 →
  weekday (today + days_until today i) = i ∧ 0 < days_until today i ≤ 7.
Proof.
  intros Hi. unfold days_until, weekday.
  pose proof (Z.mod_pos_bound (today + 6) 7 ltac:(lia)) as Hwd.
  pose proof (Z.div_mod (today + 6) 7 ltac:(lia)) as Hdm.
  set (wd := (today + 6) mod 7) in *. set (q := (today + 6) / 7) in *.
  destruct (Z.leb_spec (i - wd) 0).
  - split; [|lia]. symmetry. apply (Z.mod_unique _ _ (q + 1)); lia.
  - split; [|lia]. symmetry. apply (Z.mod_unique _ _ q); lia.
Qed.

Lemma next_weekday_first today text : ∀ ds k (i : nat),
  (i < length ds)%nat →
  contains (nth i ds "") text = true →
  (∀ j, (j < i)%nat → contains (nth j ds "") text = false) →
  next_weekday today text k ds = Some (today + days_until today (k + Z.of_nat i)).
Proof.
  induction ds as [|day ds IH]; intros k i Hi Hc Hfirst; simpl in Hi; [lia|].
  destruct i as [|i]; cbn [nth next_weekday] in *.
  - rewrite Hc. replace (k + Z.of_nat 0) with k by lia. reflexivity.
  - pose proof (Hfirst 0%nat ltac:(lia)) as H0. cbn [nth] in H0. rewrite H0.
    replace (k + Z.of_nat (S i)) with (k + 1 + Z.of_nat i) by lia.
    apply IH; [lia|done|]. intros j Hj. apply (Hfirst (S j)). lia.
Qed.

(** X1. A date text with [next] and the name of a weekday is the next day
    of that name after today, never today itself: a date from one to seven
    days ahead whose weekday is the first of Monday to Sunday that the text
    names. *)
Theorem parse_date_next_weekday (today : date) (date_str : string) (i : nat) :
  let text := strip (lower date_str) in
  contains "next" text = true →
  (i < 7)%nat →
  contains (nth i days "") text = true →
  (∀ j, (j < i)%nat → contains (nth j days "") text = false) →
  let d := _parse_date E today date_str in
  weekday d = Z.of_nat i ∧ today < d ≤ today + 7.
Proof.
  intros text Hnext Hi Hc Hfirst d.
  assert (d = today + days_until today (Z.of_nat i)) as ->.
  { subst d. unfold _parse_date. change (strip (lower date_str)) with text.
    clearbody text.
    destruct (String.eqb_spec text "today") as [->|_]; [discriminate Hnext|].
    destruct (String.eqb_spec text "now") as [->|_]; [discriminate Hnext|].
    destruct (String.eqb_spec text "tomorrow") as [->|_]; [discriminate Hnext|].
    destruct (String.eqb_spec text "yesterday") as [->|_]; [discriminate Hnext|].
    cbn [orb]. rewrite Hnext. by rewrite (next_weekday_first today text days 0 i). }
  pose proof (weekday_days_until today (Z.of_nat i) ltac:(lia)). lia.
Qed.

Lemma time_of_hm_parts d h m :
  0 ≤ h ≤ 23 → 0 ≤ m ≤ 59 →
  dt_date (combine d (time_of_hm h m)) = d
  ∧ dt_hour (combine d (time_of_hm h m)) = h
  ∧ dt_minute (combine d (time_of_hm h m)) = m.
Proof.
  intros Hh Hm. unfold dt_date, dt_hour, dt_minute, combine, time_of_hm,
    us_per_day, us_per_hour, us_per_minute.
  set (x := h * 3600000000 + m * 60000000).
  assert (0 ≤ x < 86400000000) as Hx by (subst x; lia).
  assert ((d * 86400000000 + x) mod 86400000000 = x) as ->.
  { symmetry. apply (Z.mod_unique _ _ d); lia. }
  repeat split.
  - symmetry. apply (Z.div_unique _ _ _ x); lia.
  - symmetry. apply (Z.div_unique _ _ _ (m * 60000000)); subst x; lia.
  - assert (x / 60000000 = h * 60 + m) as ->.
    { symmetry. apply (Z.div_unique _ _ _ 0); subst x; lia. }
    symmetry. apply (Z.mod_unique _ _ h); lia.
Qed.

(** X2. A time in words that [_parse_datetime] accepts lies on the date
    that [_parse_date] reads from the same text, at a whole minute; without
    a time in the text it is 09:00; [pm] adds twelve hours below 12 and
    leaves 12 as it is, [12 am] is midnight; and an hour above 23 raises
    [ValueError] instead of wrapping around. *)
Theorem parse_datetime_lands (today : date) (dt_str : string) :
  (∀ t, _parse_datetime E today dt_str = Returns t →
     dt_date t = _parse_date E today dt_str
     ∧ 0 ≤ dt_hour t ≤ 23 ∧ 0 ≤ dt_minute t ≤ 59
     ∧ t = combine (_parse_date E today dt_str) (time_of_hm (dt_hour t) (dt_minute t))
     ∧ (re_search_time E dt_str = None → dt_hour t = 9 ∧ dt_minute t = 0)
     ∧ (∀ h m p, re_search_time E dt_str = Some (h, m, Some p) →
          lower p = "pm" → dt_hour t = if h <? 12 then h + 12 else h)
     ∧ (∀ m p, re_search_time E dt_str = Some (12, m, Some p) →
          lower p = "am" → dt_hour t = 0))
  ∧ (∀ h m, re_search_time E dt_str = Some (h, m, None) → 23 < h →
       _parse_datetime E today dt_str = Raises "hour must be in 0..23").
Proof.
  split.
  - intros t. unfold _parse_datetime.
    destruct (re_search_time E dt_str) as [[[h m] p]|].
    + set (pm := match p with
                 | Some s => negb (String.eqb s "") && String.eqb (lower s) "pm"
                 | None => false end).
      set (am := match p with
                 | Some s => negb (String.eqb s "") && String.eqb (lower s) "am"
                 | None => false end).
      set (h' := if pm && (h <? 12) then h + 12 else if am && (h =? 12) then 0 else h).
      set (m' := default 0 m).
      destruct ((0 <=? h') && (h' <=? 23)) eqn:Hh; [|done].
      destruct ((0 <=? m') && (m' <=? 59)) eqn:Hm; [|done].
      simpl. intros Ht. inversion Ht; subst t; clear Ht.
      assert (0 ≤ h' ≤ 23) as Hh' by lia. assert (0 ≤ m' ≤ 59) as Hm' by lia.
      destruct (time_of_hm_parts (_parse_date E today dt_str) h' m' Hh' Hm')
        as (Hd & Hhour & Hmin).
      rewrite Hd, Hhour, Hmin. repeat split; try lia; try done.
      * intros h0 m0 p0 Heq Hp. inversion Heq; subst h0 m0 p; clear Heq.
        assert (pm = true) as Hpm.
        { subst pm. rewrite Hp. destruct p0; [discriminate Hp|done]. }
        subst h'. rewrite Hpm. simpl. destruct (h <? 12) eqn:Hlt; [done|].
        assert (am = false) as ->; [|done].
        subst am. rewrite Hp. by rewrite andb_false_r.
      * intros m0 p0 Heq Hp. inversion Heq; subst h m0 p; clear Heq.
        assert (pm = false) as Hpm.
        { subst pm. rewrite Hp. by rewrite andb_false_r. }
        assert (am = true) as Ham.
        { subst am. rewrite Hp. destruct p0; [discriminate Hp|done]. }
        subst h'. by rewrite Hpm, Ham.
    + intros Ht. inversion Ht; subst t; clear Ht.
      destruct (time_of_hm_parts (_parse_date E today dt_str) 9 0 ltac:(lia) ltac:(lia))
        as (Hd & Hhour & Hmin).
      rewrite Hd, Hhour, Hmin. repeat split; try lia; try done.
  - intros h m Hs Hh. unfold _parse_datetime. rewrite Hs. simpl.
    assert ((0 <=? h) && (h <=? 23) = false) as -> by lia. done.
Qed.

Lemma digit_val_range c x : digit_val c = Some x → 0 ≤ x ≤ 9.
Proof.
  unfold digit_val.
  destruct ((48 <=? nat_of_ascii c)%nat && (nat_of_ascii c <=? 57)%nat) eqn:H; [|done].
  intros Hx. injection Hx as <-. apply andb_true_iff in H as [Hlo Hhi].
  apply Nat.leb_le in Hlo, Hhi. lia.
Qed.

Lemma parse_1_2_digits_range s x r : parse_1_2_digits s = Some (x, r) → 0 ≤ x.
Proof.
  unfold parse_1_2_digits. destruct s as [|a s]; [done|].
  destruct (digit_val a) as [da|] eqn:Ha; [|done].
  apply digit_val_range in Ha.
  destruct s as [|b s]; [intros H; inversion H; lia|].
  destruct (digit_val b) as [db|] eqn:Hb.
  - apply digit_val_range in Hb. intros H; inversion H; lia.
  - intros H; inversion H; lia.
Qed.

Lemma clock_round_trip_all :
  forallb (λ h, forallb (clock_round_trip_check h) (seq 0 60)) (seq 0 24) = true.
Proof. vm_compute. reflexivity. Qed.

(** X3. Times of day keep their value through their texts: the [HH:MM] of
    an hour and a minute is parsed back to them, the slot text of an
    instant is its 12-hour reading with [AM] or [PM], always eight
    characters, on whatever day; and whatever [strptime] accepts as [%H:%M]
    is a whole minute inside one day. *)
Theorem clock_text_round_trip :
  (∀ h m d, 0 ≤ h ≤ 23 → 0 ≤ m ≤ 59 →
     strptime_H_M (hm_text h m) = Some (time_of_hm h m)
     ∧ strftime_I_M_p (combine d (time_of_hm h m)) = clock_text h m
     ∧ String.length (clock_text h m) = 8%nat)
  ∧ (∀ s t, strptime_H_M s = Some t →
       ∃ h m, 0 ≤ h ≤ 23 ∧ 0 ≤ m ≤ 59 ∧ t = time_of_hm h m
              ∧ 0 ≤ t < us_per_day).
Proof.
  split.
  - intros h m d Hh Hm.
    pose proof clock_round_trip_all as Hall.
    rewrite forallb_forall in Hall.
    specialize (Hall (Z.to_nat h)). rewrite in_seq in Hall.
    specialize (Hall ltac:(lia)). rewrite forallb_forall in Hall.
    specialize (Hall (Z.to_nat m)). rewrite in_seq in Hall.
    specialize (Hall ltac:(lia)). unfold clock_round_trip_check in Hall.
    rewrite !Z2Nat.id in Hall by lia.
    apply andb_true_iff in Hall as [Hall Hlen].
    apply andb_true_iff in Hall as [Hparse Hfmt].
    apply String.eqb_eq in Hfmt. apply Nat.eqb_eq in Hlen.
    rewrite strftime_combine. repeat split; try done.
    destruct (strptime_H_M (hm_text h m)) as [t|]; [|done].
    f_equal. lia.
  - intros s t. unfold strptime_H_M.
    destruct (parse_1_2_digits s) as [[h [|c r]]|] eqn:Hh; try done.
    destruct (Ascii.eqb c ":"); [|done].
    destruct (parse_1_2_digits r) as [[m [|c' r']]|] eqn:Hm; try done.
    destruct ((h <=? 23) && (m <=? 59)) eqn:Hb; [|done].
    intros Ht. inversion Ht; subst t; clear Ht.
    apply parse_1_2_digits_range in Hh, Hm.
    exists h, m. unfold time_of_hm, us_per_day, us_per_hour, us_per_minute. lia.
Qed.

End Dates.

(** ** The booking tools at their edges *)

Section BookingEdges.

Context (E : Env).

Definition multiple_rows : string :=
  "Multiple rows were found when one or none was required".

(** X4. [_check_availability] only reads: whatever it is given, the
    database is as before. A name that matches no doctor gives
    [success: false] with no slot; a doctor without pattern for the weekday
    of the date gives [success: true] with no slot and, unlike a day with
    windows, no [doctor_id]. *)
Theorem check_availability_soft_paths (fuel : nat) (doctor_name_arg date_arg : string)
    (w : World) :
  snd (_check_availability E fuel doctor_name_arg date_arg w) = w
  ∧ (doctors_matching E doctor_name_arg w = [] →
       ∃ result,
         fst (_check_availability E fuel doctor_name_arg date_arg w) = Returns result
         ∧ result !! "success" = Some (JBool false)
         ∧ result !! "available_slots" = Some (JList [])
         ∧ result !! "doctor_id" = None)
  ∧ (∀ doctor,
       doctors_matching E doctor_name_arg w = [doctor] →
       default [] (doctor_available_slots doctor
                     !! day_name (_parse_date E (dt_date (w_now w)) date_arg)) = [] →
       ∃ result,
         fst (_check_availability E fuel doctor_name_arg date_arg w) = Returns result
         ∧ result !! "success" = Some (JBool true)
         ∧ result !! "available_slots" = Some (JList [])
         ∧ result !! "doctor_name" = Some (JStr (doctor_name doctor))
         ∧ result !! "doctor_id" = None).
Proof.
  unfold _check_availability, bindT, get_world, lift, ret.
  split; [|split].
  - destruct (scalar_one_or_none (doctors_matching E doctor_name_arg w))
      as [[doctor|]|e|]; try done.
    destruct (default [] _) as [|slot rest]; [done|].
    by destruct (scan_day E fuel _ _ _ _ _).
  - intros ->. cbn [scalar_one_or_none]. eexists. split; [reflexivity|].
    repeat split; by simplify_map_eq.
  - intros doctor -> Hnone. cbn [scalar_one_or_none]. rewrite Hnone.
    eexists. split; [reflexivity|]. repeat split; by simplify_map_eq.
Qed.

(** X5. A name that matches two doctors or more resolves to none of them:
    the availability check and the booking both raise, nothing is written,
    and through [execute_tool] the model gets the error of the query. *)
Theorem ambiguous_doctor_name (fuel : nat) (doctor_name_arg : string) (w : World)
    (d1 d2 : Doctor) (others : list Doctor) :
  doctors_matching E doctor_name_arg w = d1 :: d2 :: others →
  (∀ date_arg,
     _check_availability E fuel doctor_name_arg date_arg w = (Raises multiple_rows, w))
  ∧ (∀ patient_email appointment_datetime symptoms,
       _schedule_appointment E doctor_name_arg patient_email appointment_datetime symptoms w
       = (Raises multiple_rows, w))
  ∧ (∀ date_arg,
       execute_tool E fuel "check_doctor_availability"
         (<["doctor_name" := JStr doctor_name_arg]> (<["date" := JStr date_arg]> ∅)) w
       = (Returns (error_payload multiple_rows), w)).
Proof.
  intros Hd.
  assert (∀ date_arg,
            _check_availability E fuel doctor_name_arg date_arg w = (Raises multiple_rows, w))
    as Hcheck.
  { intros date_arg. unfold _check_availability, bindT, get_world, lift. by rewrite Hd. }
  split; [exact Hcheck|]. split.
  - intros. unfold _schedule_appointment, bindT, get_world, lift. by rewrite Hd.
  - intros date_arg.
    unfold execute_tool, execute_tool_in. cbn [tool_map lookup_tool String.eqb Ascii.eqb
      Bool.eqb]. cbv iota beta.
    unfold try_exceptT, call_check_availability, bindT.
    assert (bind_kwargs E "_check_availability" ["doctor_name"; "date"] []
              (<["doctor_name" := JStr doctor_name_arg]> (<["date" := JStr date_arg]> ∅)) w
            = (Returns tt, w)) as -> by (vm_compute; reflexivity).
    rewrite lookup_insert_eq, lookup_insert_ne by done. rewrite lookup_insert_eq.
    by rewrite Hcheck.
Qed.

(** X6. The soft failures of [_schedule_appointment] come before the time
    is parsed and write nothing: no doctor of that name, no user with the
    e-mail address in the role of a patient, no patient profile for the
    user. *)
Theorem schedule_soft_failures (doctor_name_arg patient_email appointment_datetime
    symptoms : string) (w : World) :
  (doctors_matching E doctor_name_arg w = [] →
     _schedule_appointment E doctor_name_arg patient_email appointment_datetime symptoms w
     = (Returns (soft_failure ("No doctor found matching '" +:+ doctor_name_arg +:+ "'")),
        w))
  ∧ (∀ doctor,
       doctors_matching E doctor_name_arg w = [doctor] →
       Forall (λ u, user_email u ≠ patient_email ∨ user_role u ≠ PATIENT) (w_users w) →
       _schedule_appointment E doctor_name_arg patient_email appointment_datetime symptoms w
       = (Returns (soft_failure ("No patient found with email '" +:+ patient_email +:+
                                 "'. Please register first.")), w))
  ∧ (∀ doctor user,
       doctors_matching E doctor_name_arg w = [doctor] →
       patient_users patient_email w = [user] →
       patients_of_user (user_id user) w = [] →
       _schedule_appointment E doctor_name_arg patient_email appointment_datetime symptoms w
       = (Returns (soft_failure "Patient profile not found. Please complete your profile."),
          w)).
Proof.
  unfold _schedule_appointment, bindT, get_world, lift, ret.
  split; [|split].
  - by intros ->.
  - intros doctor -> Hnone. cbn [scalar_one_or_none].
    assert (patient_users patient_email w = []) as ->; [|done].
    unfold patient_users. induction Hnone as [|u us Hu _ IH]; [done|]. simpl.
    rewrite IH.
    destruct (String.eqb_spec (user_email u) patient_email) as [Heq|Hne]; [|done].
    destruct Hu as [Hu|Hu]; [done|]. by destruct (user_role u).
  - intros doctor user -> Hu Hp. cbn [scalar_one_or_none]. rewrite Hu.
    cbn [scalar_one_or_none]. by rewrite Hp.
Qed.

Lemma last_map_snoc {A B} (f : A → B) (l : list A) (a : A) :
  last (List.map f (l ++ [a])) = Some (f a).
Proof. rewrite List.map_app. simpl. by rewrite last_snoc. Qed.

(** The outcome of a booking of a free slot, by what the calendar and the
    mail did. *)
Lemma schedule_outcome (doctor_name_arg patient_email appointment_datetime
    symptoms : string) (w : World) (doctor : Doctor) (user : User) (patient : Patient)
    (appt_time : datetime) :
  doctors_matching E doctor_name_arg w = [doctor] →
  patient_users patient_email w = [user] →
  patients_of_user (user_id user) w = [patient] →
  parse_iso_or_natural E (dt_date (w_now w)) appointment_datetime = Returns appt_time →
  existing_at doctor appt_time w = [] →
  let calendar :=
    calendar_create_event E
      ("Appointment: " +:+ patient_name patient +:+ " with Dr. " +:+ doctor_name doctor)
      appt_time (doctor_consultation_duration doctor)
      (if is_nonempty symptoms then "Symptoms: " +:+ symptoms else "Regular checkup")
      [patient_email] in
  let mail :=
    email_send_appointment_confirmation E patient_email (patient_name patient)
      (doctor_name doctor) appt_time symptoms in
  completes calendar →
  completes mail →
  let r := _schedule_appointment E doctor_name_arg patient_email appointment_datetime
             symptoms w in
  let event := match calendar with Returns ev => ev | _ => None end in
  let mailed := match mail with Returns _ => true | _ => false end in
  ∃ result details booked,
    fst r = Returns result
    ∧ result !! "success" = Some (JBool true)
    ∧ result !! "details" = Some (JDict details)
    ∧ details !! "calendar_event" = Some (JBool (bool_decide (event ≠ None)))
    ∧ details !! "email_sent" = Some (JBool mailed)
    ∧ last (w_appointments (snd r)) = Some booked
    ∧ booking booked = (doctor_id doctor, appt_time, SCHEDULED)
    ∧ appt_google_calendar_event_id booked = event
    ∧ appt_confirmation_sent booked = mailed.
Proof.
  intros Hd Hu Hp Ht Hx calendar mail Hcal Hmail r event mailed.
  subst r event mailed.
  unfold _schedule_appointment, bindT, get_world, lift, ret, try_exceptT, commit, fresh_id.
  rewrite Hd. cbn [scalar_one_or_none]. rewrite Hu. cbn [scalar_one_or_none].
  rewrite Hp. cbn [scalar_one_or_none]. rewrite Ht, Hx.
  cbn [scalar_one_or_none fresh_uuid fst snd].
  fold calendar. fold mail. unfold completes in Hcal, Hmail.
  destruct calendar as [ev|e1|]; [| |done];
    (destruct mail as [b|e2|]; [| |done]);
    cbn [fst snd];
    (eexists _, _, _; split; [reflexivity|]);
    (split; [by simplify_map_eq|]);
    (split; [by simplify_map_eq|]);
    (split; [by simplify_map_eq|]);
    (split; [by simplify_map_eq|]);
    unfold update_appointment, set_appointments; cbn [w_appointments];
    rewrite ?List.map_map;
    (split; [first [apply last_map_snoc | apply last_snoc]|]);
    cbn beta; cbn [appt_id]; rewrite ?N.eqb_refl; cbn [appt_id]; rewrite ?N.eqb_refl;
    done.
Qed.

(** X7. A booking of a free slot is committed before the calendar and the
    mail are tried, and the answer tells what became of them: [success] is
    true in every case, [calendar_event] says whether the calendar gave an
    event id, and [email_sent] is true as soon as the mail call came back,
    whatever it answered, and false only when it raised; the stored
    appointment carries the same two facts. *)
Theorem schedule_reports_side_effects (doctor_name_arg patient_email appointment_datetime
    symptoms : string) (w : World) (doctor : Doctor) (user : User) (patient : Patient)
    (appt_time : datetime) :
  doctors_matching E doctor_name_arg w = [doctor] →
  patient_users patient_email w = [user] →
  patients_of_user (user_id user) w = [patient] →
  parse_iso_or_natural E (dt_date (w_now w)) appointment_datetime = Returns appt_time →
  existing_at doctor appt_time w = [] →
  let calendar :=
    calendar_create_event E
      ("Appointment: " +:+ patient_name patient +:+ " with Dr. " +:+ doctor_name doctor)
      appt_time (doctor_consultation_duration doctor)
      (if is_nonempty symptoms then "Symptoms: " +:+ symptoms else "Regular checkup")
      [patient_email] in
  let mail :=
    email_send_appointment_confirmation E patient_email (patient_name patient)
      (doctor_name doctor) appt_time symptoms in
  completes calendar →
  completes mail →
  let r := _schedule_appointment E doctor_name_arg patient_email appointment_datetime
             symptoms w in
  let event := match calendar with Returns ev => ev | _ => None end in
  let mailed := match mail with Returns _ => true | _ => false end in
  ∃ result details booked,
    fst r = Returns result
    ∧ result !! "success" = Some (JBool true)
    ∧ result !! "details" = Some (JDict details)
    ∧ details !! "calendar_event" = Some (JBool (bool_decide (event ≠ None)))
    ∧ details !! "email_sent" = Some (JBool mailed)
    ∧ last (w_appointments (snd r)) = Some booked
    ∧ booking booked = (doctor_id doctor, appt_time, SCHEDULED)
    ∧ appt_google_calendar_event_id booked = event
    ∧ appt_confirmation_sent booked = mailed.
Proof. apply schedule_outcome. Qed.

Lemma appointments_by_id_id u w a : In a (appointments_by_id u w) → appt_id a = u.
Proof.
  unfold appointments_by_id. intros H. apply List.filter_In in H as [_ H].
  by apply N.eqb_eq in H.
Qed.

Lemma Forall2_map_self {A} (R : A → A → Prop) (f : A → A) (l : list A) :
  (∀ x, R x (f x)) → Forall2 R l (List.map f l).
Proof. intros H. induction l; simpl; constructor; auto. Qed.

(** X8. Cancelling an appointment that exists sets its status to
    [cancelled] and its notes to the reason, and touches nothing else: the
    other appointments, and the time of the cancelled one, stay; the status
    it had does not matter, and a failure of the calendar is swallowed. The
    parameter [notify_patient] has no effect at all: no notification is
    sent. *)
Theorem cancel_appointment_effect (appointment_id reason : string) (w : World) :
  (∀ notify_patient,
     _cancel_appointment E appointment_id reason notify_patient w
     = _cancel_appointment E appointment_id reason true w)
  ∧ (∀ appt_uuid appointment notify_patient,
       uuid_parse E appointment_id = Some appt_uuid →
       appointments_by_id appt_uuid w = [appointment] →
       (∀ ev, completes (calendar_delete_event E ev)) →
       let r := _cancel_appointment E appointment_id reason notify_patient w in
       fst r = Returns (<["success" := JBool true]>
                          (<["message" := JStr "Appointment cancelled successfully"]> ∅))
       ∧ Forall2 (λ old new,
                    if N.eqb (appt_id old) appt_uuid
                    then appt_status new = CANCELLED
                         ∧ appt_notes new
                           = Some (if is_nonempty reason then "Cancelled: " +:+ reason
                                   else "Cancelled")
                         ∧ appt_scheduled_time new = appt_scheduled_time old
                         ∧ appt_doctor_id new = appt_doctor_id old
                         ∧ appt_patient_id new = appt_patient_id old
                    else new = old)
           (w_appointments w) (w_appointments (snd r))).
Proof.
  split; [done|].
  intros appt_uuid appointment notify_patient Hid Ha Hcal r. subst r.
  assert (appt_id appointment = appt_uuid) as Hsame.
  { apply appointments_by_id_id with (w := w). rewrite Ha. by left. }
  unfold _cancel_appointment, parse_uuid, bindT, get_world, lift, ret, commit, try_exceptT.
  rewrite Hid. cbn [fst snd]. rewrite Ha. cbn [scalar_one_or_none]. rewrite Hsame.
  assert (Forall2 (λ old new,
                    if N.eqb (appt_id old) appt_uuid
                    then appt_status new = CANCELLED
                         ∧ appt_notes new
                           = Some (if is_nonempty reason then "Cancelled: " +:+ reason
                                   else "Cancelled")
                         ∧ appt_scheduled_time new = appt_scheduled_time old
                         ∧ appt_doctor_id new = appt_doctor_id old
                         ∧ appt_patient_id new = appt_patient_id old
                    else new = old)
           (w_appointments w)
           (w_appointments
              (update_appointment appt_uuid
                 (set_status_notes CANCELLED
                    (if is_nonempty reason then "Cancelled: " +:+ reason else "Cancelled"))
                 w))) as Hframe.
  { unfold update_appointment, set_appointments. cbn [w_appointments].
    apply Forall2_map_self. intros x. by destruct (N.eqb (appt_id x) appt_uuid). }
  destruct (has_calendar_event appointment) as [ev|]; cbn [fst snd]; [|done].
  specialize (Hcal ev). unfold completes in Hcal.
  by destruct (calendar_delete_event E ev) as [b|e|].
Qed.

(** X9. Rescheduling looks at no other appointment: when the new instant
    is already taken, the call still succeeds (here without notification)
    and the two appointments then stand at the same instant. *)
Theorem reschedule_never_checks_conflicts (appointment_id new_datetime : string)
    (w : World) (appt_uuid : UUID) (appointment other : Appointment)
    (new_time : datetime) :
  uuid_parse E appointment_id = Some appt_uuid →
  appointments_by_id appt_uuid w = [appointment] →
  parse_iso_or_natural E (dt_date (w_now w)) new_datetime = Returns new_time →
  (∀ ev, completes (calendar_update_event E ev new_time)) →
  In other (w_appointments w) →
  appt_id other ≠ appt_uuid →
  appt_scheduled_time other = new_time →
  let r := _reschedule_appointment E appointment_id new_datetime false w in
  succeeded (fst r) = true
  ∧ In other (w_appointments (snd r))
  ∧ In (set_time_status new_time RESCHEDULED appointment) (w_appointments (snd r))
  ∧ appt_doctor_id (set_time_status new_time RESCHEDULED appointment)
    = appt_doctor_id appointment
  ∧ appt_scheduled_time (set_time_status new_time RESCHEDULED appointment)
    = appt_scheduled_time other.
Proof.
  intros Hid Ha Ht Hcal Hin Hne Htime r.
  destruct (reschedule_swallows_calendar E appointment_id new_datetime w appt_uuid
              appointment new_time Hid Ha Ht Hcal) as [Hok Hw].
  subst r. rewrite Hok, Hw. split; [done|].
  assert (In appointment (w_appointments w)) as Hin_a.
  { assert (In appointment (appointments_by_id appt_uuid w)) as H by (rewrite Ha; by left).
    unfold appointments_by_id in H. by apply List.filter_In in H as [H _]. }
  assert (appt_id appointment = appt_uuid) as Hsame.
  { apply appointments_by_id_id with (w := w). rewrite Ha. by left. }
  unfold update_appointment, set_appointments. cbn [w_appointments].
  repeat split; try done.
  - apply List.in_map_iff. exists other. split; [|done].
    rewrite Hsame. apply N.eqb_neq in Hne. by rewrite Hne.
  - apply List.in_map_iff. exists appointment. split; [|done].
    by rewrite N.eqb_refl.
Qed.

(** X10. An appointment id that is no UUID makes rescheduling and
    cancelling raise, and an id that names no appointment gives the soft
    failure [Appointment not found]; in both cases before the new time is
    read and without any write. *)
Theorem missing_appointment_writes_nothing (appointment_id : string) (w : World) :
  (uuid_parse E appointment_id = None →
     ∀ text notify_patient,
       _reschedule_appointment E appointment_id text notify_patient w
       = (Raises "badly formed hexadecimal UUID string", w)
       ∧ _cancel_appointment E appointment_id text notify_patient w
         = (Raises "badly formed hexadecimal UUID string", w))
  ∧ (∀ appt_uuid,
       uuid_parse E appointment_id = Some appt_uuid →
       appointments_by_id appt_uuid w = [] →
       ∀ text notify_patient,
         _reschedule_appointment E appointment_id text notify_patient w
         = (Returns (soft_failure "Appointment not found"), w)
         ∧ _cancel_appointment E appointment_id text notify_patient w
           = (Returns (soft_failure "Appointment not found"), w)).
Proof.
  unfold _reschedule_appointment, _cancel_appointment, parse_uuid, bindT, get_world,
    lift, ret, raise.
  split.
  - intros ->. done.
  - intros appt_uuid -> ->. done.
Qed.

(** X11. Arguments that do not fit the parameters of a handler, a required
    one missing or an unknown one given, never reach its body: the executor
    answers with the [TypeError] of the call as an error payload and the
    database is untouched. *)
Theorem ill_fitting_arguments (fuel : nat) (tool_name : string) (arguments : Dict)
    (w : World) (method : string) (required optional : list string) :
  tool_signature tool_name = Some (method, required, optional) →
  keys_subset arguments (required ++ optional) && keys_present arguments required = false →
  execute_tool E fuel tool_name arguments w
  = (Returns (error_payload (type_error_message E method arguments)), w).
Proof. apply execute_tool_ill_fitting. Qed.

End BookingEdges.
(** ** Sessions and the arguments of a booking *)

Section Sessions.

Context (E : Env).

(** Whatever the length of the stored history, what the model is sent
    is the system instruction, then the last turns of the history, ten at
    most and all of them when there are ten or fewer, each reduced to role
    and content, then the new message. *)
Lemma build_messages_any_history (now : datetime) (conversation : ConversationHistory)
    (user_message user_role : string) (user_context : Dict) :
  let stored := conv_messages conversation in
  let sent := _build_messages E now conversation user_message user_role user_context in
  ∃ older kept,
    stored = (older ++ kept)%list
    ∧ length kept = Nat.min (length stored) 10
    ∧ sent = (Msg "system" (_get_system_prompt E now user_role user_context)
              :: List.map strip_turn kept ++ [Msg "user" user_message])%list
    ∧ length sent = (Nat.min (length stored) 10 + 2)%nat
    ∧ ((length stored ≤ 10)%nat → older = [] ∧ kept = stored).
Proof.
  intros stored sent.
  exists (firstn (length stored - 10) stored), (skipn (length stored - 10) stored).
  split; [by rewrite firstn_skipn|].
  split; [rewrite length_skipn; lia|].
  split; [reflexivity|].
  split.
  - subst sent. rewrite build_messages_shape. cbn [length].
    rewrite length_app, length_map. unfold last_n. rewrite length_skipn.
    cbn [length]. fold stored. lia.
  - intros Hle. replace (length stored - 10)%nat with 0%nat by lia. done.
Qed.

(** X12. A call of [process_message] that returns never returns an empty
    text (an empty or missing answer of the model is replaced by the
    apology), keeps the session id it was given, and has appended to the
    prompt history a record of exactly what it returned. *)
Theorem process_message_records_reply (fuel : nat) (user_message user_id_arg : string)
    (session_id : option string) (user_role : string) (w : World) (reply : Reply)
    (w' : World) :
  process_message E fuel user_message user_id_arg session_id user_role w
  = (Returns reply, w') →
  is_nonempty (reply_message reply) = true
  ∧ (∀ sid, session_id = Some sid → is_nonempty sid = true → reply_session_id reply = sid)
  ∧ ∃ record,
      last (w_prompts w') = Some record
      ∧ ph_prompt record = user_message
      ∧ ph_response record = reply_message reply
      ∧ ph_tools_used record = reply_tools_used reply
      ∧ ph_session_id record = reply_session_id reply
      ∧ Some (ph_user_id record) = uuid_parse E user_id_arg
      ∧ ph_processing_time_ms record = reply_processing_time_ms reply
      ∧ ph_success record = true.
Proof.
  unfold process_message. intros H.
  apply bindT_returns in H as (sid & w0 & Hsid & H).
  apply bindT_returns in H as ([conversation is_new] & w1 & Hconv & H).
  apply bindT_returns in H as (uid & w2 & Huid & H).
  apply bindT_returns in H as (w3 & w4 & Hw & H).
  apply bindT_returns in H as (context & w5 & Hctx & H).
  apply bindT_returns in H as (st & w_pre & Hloop & H).
  apply bindT_returns in H as ([] & w6 & Hcommit & H).
  unfold commit in Hcommit. injection Hcommit as <-.
  unfold ret in H. injection H as <- <-. cbn [reply_message reply_session_id
    reply_tools_used reply_processing_time_ms].
  split.
  { destruct (resp_content (ls_response st)) as [c|]; [|done].
    by destruct (is_nonempty c) eqn:Hc. }
  split.
  { intros sid' -> Hne. rewrite Hne in Hsid. by injection Hsid as <- _. }
  eexists. split; [unfold add_prompt; cbn [w_prompts]; apply last_snoc|].
  cbn. repeat split; try done.
  unfold parse_user_id in Huid. destruct (uuid_parse E user_id_arg); [|done].
  by injection Huid as <- _.
Qed.

(** X13. A user id that is no UUID makes [process_message] and
    [clear_conversation] raise the [ValueError] of [uuid.UUID]; no
    conversation, prompt record or appointment is written. *)
Theorem process_message_bad_user_id (fuel : nat) (user_message user_id_arg : string)
    (session_id : option string) (user_role : string) (w : World) :
  uuid_parse E user_id_arg = None →
  let r := process_message E fuel user_message user_id_arg session_id user_role w in
  fst r = Raises "badly formed hexadecimal UUID string"
  ∧ w_conversations (snd r) = w_conversations w
  ∧ w_prompts (snd r) = w_prompts w
  ∧ w_appointments (snd r) = w_appointments w
  ∧ (∀ sid, clear_conversation E user_id_arg sid w
            = (Raises "badly formed hexadecimal UUID string", w)).
Proof.
  intros Hid r. subst r.
  unfold process_message, _get_or_create_conversation, clear_conversation,
    parse_user_id, bindT, fresh_id, ret, raise.
  rewrite Hid.
  destruct session_id as [sid|]; [destruct (is_nonempty sid)|]; cbn; done.
Qed.

Lemma agent_loop_plain n fuel uid user_role st w :
  pending_tool_calls (ls_response st) = [] →
  agent_loop E n fuel uid user_role st w = (Returns st, w).
Proof. intros H. destruct n; simpl; by rewrite H. Qed.

(** X14. A message that the model answers in plain text, in a role other
    than [doctor]: the reply is the answer of the model (or the apology),
    after one call of the model and no tool; the first message of a
    session adds a conversation row with the two turns, a later message
    appends the two turns to the row of the session and changes no other
    row; one prompt record is added, and no appointment is touched. *)
Theorem process_message_plain_answer (fuel : nat) (user_message user_id_arg sid
    user_role : string) (w : World) (uid : UUID) :
  uuid_parse E user_id_arg = Some uid →
  is_nonempty sid = true →
  String.eqb user_role "doctor" = false →
  (length (active_conversations uid sid w) ≤ 1)%nat →
  let fresh :=
    {| conv_id := w_next_uuid w; conv_user_id := uid; conv_session_id := sid;
       conv_messages := []; conv_context := ∅; conv_is_active := true |} in
  let loaded := List.hd fresh (active_conversations uid sid w) in
  let request :=
    _build_messages E (w_now w) loaded user_message user_role
      (_get_user_context E w user_id_arg user_role) in
  pending_tool_calls (chat_complete E request) = [] →
  let answer :=
    match resp_content (chat_complete E request) with
    | Some c => if is_nonempty c then c else apology
    | None => apology
    end in
  let stored :=
    set_messages_context
      (conv_messages loaded
       ++ [user_turn E (w_now w) user_message; assistant_turn E (w_now w) answer []])%list
      (conv_context loaded) loaded in
  ∃ reply w',
    process_message E fuel user_message user_id_arg (Some sid) user_role w
    = (Returns reply, w')
    ∧ reply_message reply = answer
    ∧ reply_session_id reply = sid
    ∧ reply_tools_used reply = []
    ∧ reply_rounds reply = 1%nat
    ∧ reply_context reply = conv_context loaded
    ∧ w_conversations w'
      = match active_conversations uid sid w with
        | [] => (w_conversations w ++ [stored])%list
        | _ :: _ =>
            List.map (λ r, if N.eqb (conv_id r) (conv_id loaded) then stored else r)
              (w_conversations w)
        end
    ∧ length (w_prompts w') = S (length (w_prompts w))
    ∧ w_appointments w' = w_appointments w.
Proof.
  intros Hid Hsid Hrole Hlen fresh loaded request Hplain answer stored.
  assert (_get_or_create_conversation E user_id_arg sid w
          = (Returns (loaded, match active_conversations uid sid w with
                              | [] => true | _ => false end),
             match active_conversations uid sid w with
             | [] => snd (fresh_uuid w) | _ => w end)) as Hconv.
  { subst loaded. unfold _get_or_create_conversation.
    rewrite (bindT_eq _ _ _ _ _ (parse_user_id_some E _ _ w Hid)).
    unfold bindT, get_world, lift.
    destruct (active_conversations uid sid w) as [|c [|c' rest]];
      [done|done|simpl in Hlen; lia]. }
  unfold process_message.
  rewrite (bindT_eq _ _ w sid w) by (by rewrite Hsid).
  rewrite (bindT_eq _ _ _ _ _ Hconv). cbv beta iota.
  rewrite (bindT_eq _ _ _ _ _ (parse_user_id_some E _ _ _ Hid)).
  set (w1 := match active_conversations uid sid w with
             | [] => snd (fresh_uuid w) | _ => w end).
  assert (w_now w1 = w_now w ∧ w_appointments w1 = w_appointments w
          ∧ w_prompts w1 = w_prompts w ∧ w_conversations w1 = w_conversations w
          ∧ _get_user_context E w1 user_id_arg user_role
            = _get_user_context E w user_id_arg user_role)
    as (Hnow & Happts & Hprompts & Hconvs & Hctx).
  { subst w1. by destruct (active_conversations uid sid w). }
  rewrite (bindT_eq _ _ w1 w1 w1) by done. cbv beta.
  rewrite Hrole, Hnow, Hctx.
  rewrite (bindT_eq _ _ w1 (conv_context loaded) w1) by done.
  fold request.
  erewrite bindT_eq by (apply agent_loop_plain; exact Hplain).
  unfold bindT, commit, ret.
  cbn [ls_response ls_tools_used ls_rounds ls_context ls_stored_context].
  fold answer.
  eexists _, _. split; [reflexivity|].
  cbn [reply_message reply_session_id reply_tools_used reply_rounds reply_context].
  repeat split; try done.
  - unfold save_conversation, add_prompt, set_conversations. cbn [w_conversations].
    rewrite Hconvs. subst stored. unfold user_turn, assistant_turn.
    rewrite <- app_assoc.
    by destruct (active_conversations uid sid w).
  - unfold add_prompt. cbn [w_prompts].
    assert (∀ c b, w_prompts (save_conversation c b w1) = w_prompts w1) as ->
      by (intros c []; done).
    rewrite length_app, Hprompts. cbn [length]. lia.
  - unfold add_prompt. cbn [w_appointments].
    assert (∀ c b, w_appointments (save_conversation c b w1) = w_appointments w1) as ->
      by (intros c []; done).
    done.
Qed.

Lemma active_of_conversations uid sid w :
  active_conversations uid sid w
  = List.filter (λ c, Bool.eqb (conv_is_active c) true) (conversations_of uid sid w).
Proof.
  unfold active_conversations, conversations_of.
  induction (w_conversations w) as [|r l IH]; [done|]. simpl.
  destruct (N.eqb (conv_user_id r) uid && String.eqb (conv_session_id r) sid);
    simpl; by rewrite IH.
Qed.

(** X15. Clearing a session deletes nothing: the row of the session keeps
    its turns and its context and only stops being active, and the other
    tables are not touched. The next message with the same session id
    finds no active row and starts from a new conversation with no turn
    and an empty context. *)
Theorem cleared_session_starts_afresh (user_id_arg sid : string) (w : World) (uid : UUID)
    (c : ConversationHistory) :
  uuid_parse E user_id_arg = Some uid →
  conversations_of uid sid w = [c] →
  ∃ w1 fresh,
    clear_conversation E user_id_arg sid w = (Returns true, w1)
    ∧ List.map conv_messages (w_conversations w1) = List.map conv_messages (w_conversations w)
    ∧ List.map conv_context (w_conversations w1) = List.map conv_context (w_conversations w)
    ∧ List.map conv_id (w_conversations w1) = List.map conv_id (w_conversations w)
    ∧ w_prompts w1 = w_prompts w
    ∧ w_appointments w1 = w_appointments w
    ∧ active_conversations uid sid w1 = []
    ∧ _get_or_create_conversation E user_id_arg sid w1
      = (Returns (fresh, true), snd (fresh_uuid w1))
    ∧ conv_id fresh = w_next_uuid w
    ∧ conv_messages fresh = []
    ∧ conv_context fresh = ∅
    ∧ conv_is_active fresh = true.
Proof.
  intros Hid Hc.
  pose proof (clear_conversation_rows E user_id_arg sid w uid Hid) as H1.
  rewrite Hc in H1.
  set (w1 := set_conversations
               (List.map (λ r, if N.eqb (conv_id r) (conv_id c) then deactivate r else r)) w)
    in *.
  assert (active_conversations uid sid w1 = []) as Hactive.
  { rewrite active_of_conversations. subst w1.
    rewrite conversations_of_deactivated, Hc. simpl. by rewrite N.eqb_refl. }
  eexists w1, _. split; [exact H1|].
  assert (∀ {B} (f : ConversationHistory → B),
            (∀ r, f (deactivate r) = f r) →
            List.map f (w_conversations w1) = List.map f (w_conversations w)) as Hkeep.
  { intros B f Hf. subst w1. unfold set_conversations. cbn [w_conversations].
    rewrite List.map_map. apply List.map_ext. intros r.
    destruct (N.eqb (conv_id r) (conv_id c)); [apply Hf|done]. }
  split; [by apply Hkeep|]. split; [by apply Hkeep|]. split; [by apply Hkeep|].
  split; [done|]. split; [done|]. split; [exact Hactive|].
  unfold _get_or_create_conversation.
  rewrite (bindT_eq _ _ _ _ _ (parse_user_id_some E _ _ w1 Hid)).
  unfold bindT, get_world, lift. rewrite Hactive.
  cbn [scalar_one_or_none]. unfold fresh_id, ret. done.
Qed.

(** X16. The arguments with which a booking is executed. For a patient,
    a missing [patient_email] becomes the address of the user who writes,
    but an address that the model gave is used as it is, whoever it
    belongs to; a missing [doctor_name] becomes the doctor of the last
    availability check, if any; nothing else is changed, and in another
    role no address is supplied. *)
Theorem booking_arguments_filled_in (w : World) (uid : UUID) (context arguments : Dict)
    (user : User) :
  session_get user_id (w_users w) uid = Some user →
  let executed :=
    executed_arguments w uid "patient" context "schedule_appointment" arguments in
  (arguments !! "patient_email" = None →
     executed !! "patient_email" = Some (JStr (user_email user)))
  ∧ (∀ v, arguments !! "patient_email" = Some v → executed !! "patient_email" = Some v)
  ∧ (arguments !! "doctor_name" = None →
       executed !! "doctor_name" = context !! "last_doctor_name")
  ∧ (∀ v, arguments !! "doctor_name" = Some v → executed !! "doctor_name" = Some v)
  ∧ (∀ k, k ≠ "patient_email" → k ≠ "doctor_name" → executed !! k = arguments !! k)
  ∧ (∀ role k, role ≠ "patient" → k ≠ "doctor_name" →
       executed_arguments w uid role context "schedule_appointment" arguments !! k
       = arguments !! k).
Proof.
  intros Huser executed.
  assert (∀ role (a : Dict),
            inject_doctor_id role "schedule_appointment" context a = a) as Hdoc.
  { intros role a. unfold inject_doctor_id.
    by destruct (String.eqb role "doctor" && negb (has_key a "doctor_id")). }
  assert (∀ k (a : Dict), k ≠ "doctor_name" →
            inject_doctor_name "schedule_appointment" context a !! k = a !! k) as Hname.
  { intros k a Hk. unfold inject_doctor_name. simpl.
    destruct (context !! "last_doctor_name"); [|done].
    destruct (has_key a "doctor_name"); simpl; [done|].
    by rewrite lookup_insert_ne. }
  assert (∀ k, k ≠ "doctor_name" →
            executed !! k
            = inject_patient_email w uid "patient" "schedule_appointment" arguments !! k)
    as Hexec.
  { intros k Hk. subst executed. unfold executed_arguments. rewrite Hdoc. simpl.
    by apply Hname. }
  split; [|split; [|split; [|split; [|split]]]].
  - intros Hnone. rewrite Hexec by done. unfold inject_patient_email. simpl.
    rewrite (has_key_false _ _ Hnone), Huser. simpl. by rewrite lookup_insert_eq.
  - intros v Hv. subst executed. by apply executed_arguments_keeps.
  - intros Hnone. subst executed. unfold executed_arguments. rewrite Hdoc. simpl.
    unfold inject_doctor_name. simpl.
    assert (inject_patient_email w uid "patient" "schedule_appointment" arguments
              !! "doctor_name" = None) as Hnone'.
    { unfold inject_patient_email. simpl.
      destruct (has_key arguments "patient_email"); simpl; [done|].
      rewrite Huser. by rewrite lookup_insert_ne. }
    destruct (context !! "last_doctor_name") as [v|]; [|done].
    rewrite (has_key_false _ _ Hnone'). simpl. by rewrite lookup_insert_eq.
  - intros v Hv. subst executed. by apply executed_arguments_keeps.
  - intros k Hk1 Hk2. rewrite Hexec by done. unfold inject_patient_email. simpl.
    destruct (has_key arguments "patient_email"); simpl; [done|].
    rewrite Huser. by rewrite lookup_insert_ne.
  - intros role k Hrole Hk. unfold executed_arguments. rewrite Hdoc. simpl.
    rewrite Hname by done. unfold inject_patient_email.
    apply String.eqb_neq in Hrole. by rewrite Hrole.
Qed.

(** X17. What an availability check leaves for the booking that follows
    it. When its result has a true [success] and a [doctor_id], a booking
    without [doctor_name] is then executed with the name of the doctor of
    that result; when it has not (no such doctor, or a day without
    consulting hours), the arguments of the booking are what they would
    have been before the check. *)
Theorem availability_then_booking (fuel : nat) (uid : UUID) (user_role : string)
    (context : Dict) (check_call : ToolCall) (w : World) (context1 : Dict)
    (message : Message) (w1 : World) :
  tc_name check_call = "check_doctor_availability" →
  handle_tool_call E fuel uid user_role context check_call w
  = (Returns (context1, message), w1) →
  ∃ result,
    execute_tool E fuel "check_doctor_availability"
      (executed_arguments w uid user_role context "check_doctor_availability"
         (parse_arguments E (tc_arguments check_call))) w
    = (Returns result, w1)
    ∧ (get_truthy result "success" && get_truthy result "doctor_id" = true →
         ∀ arguments w2,
           arguments !! "doctor_name" = None →
           executed_arguments w2 uid user_role context1 "schedule_appointment" arguments
             !! "doctor_name"
           = Some (dict_get result "doctor_name"))
    ∧ (get_truthy result "success" && get_truthy result "doctor_id" = false →
         ∀ arguments w2,
           executed_arguments w2 uid user_role context1 "schedule_appointment" arguments
           = executed_arguments w2 uid user_role context "schedule_appointment"
               arguments).
Proof.
  intros Hname. rewrite handle_tool_call_unfold, Hname.
  destruct (execute_tool E fuel _ _ w) as [[result|e|] w'] eqn:Hexec; [|done|done].
  intros H. injection H as <- _ <-. exists result. split; [done|].
  cbn [String.eqb Ascii.eqb Bool.eqb]. cbv iota. split.
  - intros Hok arguments w2 Hnone.
    destruct (capture_availability_lookup result context Hok) as (_ & Hlast & _).
    unfold executed_arguments. simpl.
    assert (inject_patient_email w2 uid user_role "schedule_appointment"
              (inject_doctor_id user_role "schedule_appointment"
                 (capture_availability result context) arguments) !! "doctor_name" = None)
      as Hnone'.
    { unfold inject_patient_email, inject_doctor_id. simpl.
      repeat case_match; try done; by rewrite lookup_insert_ne. }
    unfold inject_doctor_name. simpl. rewrite Hlast.
    rewrite (has_key_false _ _ Hnone'). simpl. by rewrite lookup_insert_eq.
  - intros Hno arguments w2. unfold capture_availability. by rewrite Hno.
Qed.

End Sessions.

(** ** Statistics and details for the doctor *)

Section Statistics.

Context (E : Env).

Lemma parse_uuid_some s u w : uuid_parse E s = Some u → parse_uuid E s w = (Returns u, w).
Proof. unfold parse_uuid. by intros ->. Qed.

Lemma parse_uuid_none s w :
  uuid_parse E s = None →
  parse_uuid E s w = (Raises "badly formed hexadecimal UUID string", w).
Proof. unfold parse_uuid. by intros ->. Qed.

(** The count of a day query, when the doctor exists. *)
Lemma stats_day_count doctor_id_arg query_type symptom w doctor_uuid doctor :
  uuid_parse E doctor_id_arg = Some doctor_uuid →
  doctors_by_id doctor_uuid w = [doctor] →
  In query_type ["yesterday"; "today"; "tomorrow"] →
  stats_count (fst (_get_patient_stats E doctor_id_arg query_type symptom w))
  = Some (count_appointments (day_filter query_type (w_now w) doctor_uuid) w).
Proof.
  intros Hid Hd Hq. unfold _get_patient_stats.
  rewrite (bindT_eq _ _ _ _ _ (parse_uuid_some _ _ w Hid)).
  unfold bindT, get_world, lift. rewrite Hd. cbn [scalar_one_or_none].
  simpl in Hq. destruct Hq as [<-|[<-|[<-|[]]]]; done.
Qed.

Lemma count_after_update (p : Appointment → bool) (f : Appointment → Appointment)
    (u : UUID) (w : World) (a0 : Appointment) :
  (∀ a, p (f a) = false) →
  appointments_by_id u w = [a0] →
  count_appointments p (update_appointment u f w)
  = count_appointments p w - (if p a0 then 1 else 0).
Proof.
  intros Hp Hone.
  unfold count_appointments, update_appointment, set_appointments. cbn [w_appointments].
  assert (length (List.filter p
                    (List.map (λ a, if N.eqb (appt_id a) u then f a else a)
                       (w_appointments w)))
          + length (List.filter p
                      (List.filter (λ a, N.eqb (appt_id a) u) (w_appointments w)))
          = length (List.filter p (w_appointments w)))%nat as Hsum.
  { induction (w_appointments w) as [|a l IH]; [done|]. simpl.
    destruct (N.eqb (appt_id a) u); simpl.
    - rewrite Hp. cbv iota. destruct (p a); simpl; lia.
    - destruct (p a); simpl; lia. }
  assert (length (List.filter p (appointments_by_id u w)) = if p a0 then 1%nat else 0%nat)
    as Hlen.
  { rewrite Hone. simpl. by destruct (p a0). }
  unfold appointments_by_id in Hlen.
  destruct (p a0); lia.
Qed.

(** X18. A rescheduled appointment is counted on no day. After a
    successful rescheduling, the counts for yesterday, today and tomorrow
    are what they were, less one for the day the appointment was counted
    on before: it is not added to the day it moved to, whichever day that
    is, because the three queries only count the statuses [scheduled] and
    [completed]. *)
Theorem rescheduled_leaves_the_day_counts (appointment_id new_datetime doctor_id_arg
    query_type : string) (w : World) (appt_uuid doctor_uuid : UUID)
    (appointment : Appointment) (doctor : Doctor) (new_time : datetime) :
  uuid_parse E appointment_id = Some appt_uuid →
  appointments_by_id appt_uuid w = [appointment] →
  parse_iso_or_natural E (dt_date (w_now w)) new_datetime = Returns new_time →
  (∀ ev, completes (calendar_update_event E ev new_time)) →
  uuid_parse E doctor_id_arg = Some doctor_uuid →
  doctors_by_id doctor_uuid w = [doctor] →
  In query_type ["yesterday"; "today"; "tomorrow"] →
  let w1 := snd (_reschedule_appointment E appointment_id new_datetime false w) in
  let counted := day_filter query_type (w_now w) doctor_uuid in
  stats_count (fst (_get_patient_stats E doctor_id_arg query_type None w))
  = Some (count_appointments counted w)
  ∧ stats_count (fst (_get_patient_stats E doctor_id_arg query_type None w1))
    = Some (count_appointments counted w - (if counted appointment then 1 else 0)).
Proof.
  intros Hid Ha Ht Hcal Hdid Hd Hq w1 counted.
  destruct (reschedule_swallows_calendar E appointment_id new_datetime w appt_uuid
              appointment new_time Hid Ha Ht Hcal) as [_ Hw].
  assert (appt_id appointment = appt_uuid) as Hsame.
  { apply appointments_by_id_id with (w := w). rewrite Ha. by left. }
  rewrite Hsame in Hw. subst w1. rewrite Hw.
  split; [by apply (stats_day_count _ _ _ _ doctor_uuid doctor)|].
  rewrite (stats_day_count _ _ _ _ doctor_uuid doctor); [|done|done|done].
  change (w_now (update_appointment appt_uuid (set_time_status new_time RESCHEDULED) w))
    with (w_now w).
  fold counted. f_equal. apply count_after_update; [|done].
  intros a. subst counted. unfold day_filter.
  simpl in Hq. destruct Hq as [<-|[<-|[<-|[]]]]; cbn [String.eqb Ascii.eqb Bool.eqb];
    cbv iota; unfold yesterday_filter, today_filter, tomorrow_filter, set_time_status;
    cbn [appt_status status_eqb]; by rewrite ?andb_false_r.
Qed.

(** X19. [_get_patient_stats] only reads. An id that is no UUID raises;
    an id of no doctor and a query type that is none of the five, or
    [by_symptom] without a symptom, give an [error] payload. *)
Theorem patient_stats_edges (doctor_id_arg query_type : string) (symptom : option string)
    (w : World) :
  snd (_get_patient_stats E doctor_id_arg query_type symptom w) = w
  ∧ (uuid_parse E doctor_id_arg = None →
       fst (_get_patient_stats E doctor_id_arg query_type symptom w)
       = Raises "badly formed hexadecimal UUID string")
  ∧ (∀ doctor_uuid,
       uuid_parse E doctor_id_arg = Some doctor_uuid →
       doctors_by_id doctor_uuid w = [] →
       fst (_get_patient_stats E doctor_id_arg query_type symptom w)
       = Returns (error_payload "Doctor not found"))
  ∧ (∀ doctor_uuid doctor,
       uuid_parse E doctor_id_arg = Some doctor_uuid →
       doctors_by_id doctor_uuid w = [doctor] →
       ¬ In query_type ["yesterday"; "today"; "tomorrow"; "this_week"] →
       query_type ≠ "by_symptom" ∨ given symptom = None →
       fst (_get_patient_stats E doctor_id_arg query_type symptom w)
       = Returns (error_payload "Invalid query type")).
Proof.
  unfold _get_patient_stats.
  destruct (uuid_parse E doctor_id_arg) as [u|] eqn:Hid.
  - rewrite (bindT_eq _ _ _ _ _ (parse_uuid_some _ _ w Hid)).
    unfold bindT, get_world, lift, ret.
    split.
    { destruct (scalar_one_or_none (doctors_by_id u w)) as [[d|]|e|]; try done.
      repeat case_match; done. }
    split; [done|]. split.
    { intros ? [= <-] ->. done. }
    intros ? doctor [= <-] -> Hq Hs. cbn [scalar_one_or_none].
    destruct (String.eqb_spec query_type "yesterday") as [->|_];
      [destruct Hq; simpl; tauto|].
    destruct (String.eqb_spec query_type "today") as [->|_];
      [destruct Hq; simpl; tauto|].
    destruct (String.eqb_spec query_type "tomorrow") as [->|_];
      [destruct Hq; simpl; tauto|].
    destruct (String.eqb_spec query_type "this_week") as [->|_];
      [destruct Hq; simpl; tauto|].
    destruct symptom as [s|]; [|done].
    destruct Hs as [Hs|Hs].
    + apply String.eqb_neq in Hs. by rewrite Hs.
    + unfold given in Hs. destruct (is_nonempty s); [done|].
      by rewrite andb_false_r.
  - unfold bindT. rewrite (parse_uuid_none _ w Hid). done.
Qed.

Lemma weekday_range d : 0 ≤ weekday d ≤ 6.
Proof. unfold weekday. pose proof (Z.mod_pos_bound (d + 6) 7). lia. Qed.

(** X20. The week of [this_week] starts on the Monday of the current week
    at the present time of day, not at midnight, and ends six days later
    at the same time. So on a Monday an appointment of the doctor earlier
    that day is counted by [today] and not by [this_week]. *)
Theorem this_week_window (now : datetime) (doctor_uuid : UUID) (a : Appointment) :
  let monday := dt_date now - weekday (dt_date now) in
  let time_of_day := now mod us_per_day in
  weekday monday = 0
  ∧ (this_week_filter now doctor_uuid a = true
     ↔ appt_doctor_id a = doctor_uuid
       ∧ combine monday time_of_day ≤ appt_scheduled_time a
         ≤ combine (monday + 6) time_of_day)
  ∧ (weekday (dt_date now) = 0 →
     appt_doctor_id a = doctor_uuid →
     dt_date (appt_scheduled_time a) = dt_date now →
     appt_scheduled_time a < now →
     appt_status a = SCHEDULED →
     today_filter now doctor_uuid a = true ∧ this_week_filter now doctor_uuid a = false).
Proof.
  intros monday time_of_day.
  assert (now = combine (dt_date now) time_of_day) as Hnow.
  { unfold combine, dt_date. subst time_of_day. unfold us_per_day.
    pose proof (Z.div_mod now 86400000000). lia. }
  assert (now - timedelta_days (weekday (dt_date now)) = combine monday time_of_day)
    as Hstart.
  { rewrite Hnow at 1. subst monday. unfold combine, timedelta_days. lia. }
  assert (combine monday time_of_day + timedelta_days 6
          = combine (monday + 6) time_of_day) as Hend.
  { unfold combine, timedelta_days. lia. }
  split.
  { subst monday. unfold weekday.
    replace (dt_date now - (dt_date now + 6) mod 7 + 6)
      with ((dt_date now + 6) - (dt_date now + 6) mod 7) by lia.
    pose proof (Z.div_mod (dt_date now + 6) 7).
    replace (dt_date now + 6 - (dt_date now + 6) mod 7)
      with (((dt_date now + 6) / 7) * 7) by lia.
    apply Z.mod_mul. lia. }
  split.
  { unfold this_week_filter, time_between. rewrite Hstart, Hend.
    rewrite !andb_true_iff, N.eqb_eq, !Z.leb_le. tauto. }
  intros Hmon Hdoc Hday Hlt Hst.
  assert (0 ≤ time_of_day < us_per_day) as Hrange.
  { subst time_of_day. apply Z.mod_pos_bound. unfold us_per_day. lia. }
  split.
  - unfold today_filter, time_between. rewrite Hst. cbn [status_eqb orb].
    rewrite !andb_true_iff, N.eqb_eq, !Z.leb_le.
    assert (appt_scheduled_time a
            = combine (dt_date now) (appt_scheduled_time a mod us_per_day)) as Ha.
    { rewrite <- Hday. unfold combine, dt_date, us_per_day.
      pose proof (Z.div_mod (appt_scheduled_time a) 86400000000). lia. }
    pose proof (Z.mod_pos_bound (appt_scheduled_time a) us_per_day) as Hb.
    unfold combine, time_min, time_max, us_per_day in *. lia.
  - unfold this_week_filter, time_between. rewrite Hstart.
    subst monday. rewrite Hmon, Z.sub_0_r, <- Hnow.
    apply andb_false_iff. right. apply andb_false_iff. left. apply Z.leb_gt. lia.
Qed.

(** X21. [_get_appointment_details] only reads, and its parameter
    [patient_email] has no effect: the answer is the same without it.
    With no appointment id, doctor id and date range (an empty string
    counts as none), every appointment of the database is listed, for
    whoever asks. A date range that is none of the four known ones
    raises. *)
Theorem appointment_details_filters (appointment_id patient_email doctor_id_arg
    date_range : option string) (w : World) :
  snd (_get_appointment_details E appointment_id patient_email doctor_id_arg date_range w)
  = w
  ∧ _get_appointment_details E appointment_id patient_email doctor_id_arg date_range w
    = _get_appointment_details E appointment_id None doctor_id_arg date_range w
  ∧ (given appointment_id = None → given doctor_id_arg = None → given date_range = None →
       fst (_get_appointment_details E appointment_id patient_email doctor_id_arg
              date_range w)
       = Returns (<["success" := JBool true]>
                    (<["appointments" :=
                         JList (List.map (appointment_entry E w) (w_appointments w))]>
                    (<["count" := JInt (Z.of_nat (length (w_appointments w)))]> ∅))))
  ∧ (∀ r, given date_range = Some r →
          ¬ In r ["today"; "tomorrow"; "this_week"; "next_week"] →
          ∃ e, fst (_get_appointment_details E appointment_id patient_email
                      doctor_id_arg date_range w) = Raises e).
Proof.
  assert (∀ key x, (∃ p, id_filter E key x w = (Returns p, w))
                   ∨ (∃ e, id_filter E key x w = (Raises e, w))) as Hid.
  { intros key x. unfold id_filter. destruct (given x) as [s|]; [|left; by eexists].
    unfold bindT, parse_uuid. destruct (uuid_parse E s); [left|right]; by eexists. }
  assert (∀ x, (∃ p, range_filter (w_now w) x w = (Returns p, w))
               ∨ (∃ e, range_filter (w_now w) x w = (Raises e, w))) as Hrange.
  { intros x. unfold range_filter. destruct (given x) as [s|]; [|left; by eexists].
    unfold bindT, lift, date_range_bounds.
    repeat case_match; simplify_eq; first [left; by eexists | right; by eexists]. }
  unfold _get_appointment_details.
  split.
  { unfold bindT at 1. unfold get_world at 1.
    destruct (Hid appt_id appointment_id) as [[p1 H1]|[e H1]];
      [rewrite (bindT_eq _ _ _ _ _ H1)|unfold bindT; by rewrite H1].
    destruct (Hid appt_doctor_id doctor_id_arg) as [[p2 H2]|[e H2]];
      [rewrite (bindT_eq _ _ _ _ _ H2)|unfold bindT; by rewrite H2].
    destruct (Hrange date_range) as [[p3 H3]|[e H3]];
      [rewrite (bindT_eq _ _ _ _ _ H3)|unfold bindT; by rewrite H3].
    done. }
  split; [done|]. split.
  - intros H1 H2 H3. unfold id_filter, range_filter. rewrite H1, H2, H3.
    unfold bindT, get_world, ret.
    assert (List.filter (λ _ : Appointment, true && true && true) (w_appointments w)
            = w_appointments w) as ->.
    { induction (w_appointments w) as [|a l IH]; [done|]. simpl in *. by rewrite IH. }
    by rewrite length_map.
  - intros r Hr Hnot.
    unfold bindT at 1. unfold get_world at 1.
    destruct (Hid appt_id appointment_id) as [[p1 H1]|[e H1]];
      [rewrite (bindT_eq _ _ _ _ _ H1)|unfold bindT; rewrite H1; by eexists].
    destruct (Hid appt_doctor_id doctor_id_arg) as [[p2 H2]|[e H2]];
      [rewrite (bindT_eq _ _ _ _ _ H2)|unfold bindT; rewrite H2; by eexists].
    unfold bindT, range_filter. rewrite Hr. unfold bindT, lift, date_range_bounds.
    destruct (String.eqb_spec r "today") as [->|_]; [destruct Hnot; simpl; tauto|].
    destruct (String.eqb_spec r "tomorrow") as [->|_]; [destruct Hnot; simpl; tauto|].
    destruct (String.eqb_spec r "this_week") as [->|_]; [destruct Hnot; simpl; tauto|].
    destruct (String.eqb_spec r "next_week") as [->|_]; [destruct Hnot; simpl; tauto|].
    by eexists.
Qed.

End Statistics.
(** ** Notifications and reports *)

Section Notifications.

Implicit Types (store : gmap string (list Notification)).

Lemma ltb_asym (a b : string) : String.ltb a b = true → String.ltb b a = false.
Proof.
  unfold String.ltb. rewrite (String.compare_antisym a b).
  by destruct (String.compare b a).
Qed.

Lemma insert_by_created_at_perm n l : insert_by_created_at n l ≡ₚ n :: l.
Proof.
  induction l as [|m rest IH]; [done|]. simpl.
  destruct (String.ltb (ntf_created_at n) (ntf_created_at m)); [|done].
  rewrite IH. apply Permutation_swap.
Qed.

Lemma sort_by_created_at_perm l : sort_by_created_at l ≡ₚ l.
Proof.
  induction l as [|n l IH]; [done|]. unfold sort_by_created_at in *. simpl.
  by rewrite insert_by_created_at_perm, IH.
Qed.

Lemma insert_by_created_at_sorted n l :
  Sorted not_earlier l → Sorted not_earlier (insert_by_created_at n l).
Proof.
  induction 1 as [|m rest Hs IH Hhd]; simpl; [by repeat constructor|].
  destruct (String.ltb (ntf_created_at n) (ntf_created_at m)) eqn:Hlt.
  - constructor; [exact IH|].
    destruct Hhd as [|x rest' Hmx]; simpl.
    + constructor. by apply ltb_asym.
    + destruct (String.ltb (ntf_created_at n) (ntf_created_at x)); constructor;
        [exact Hmx|by apply ltb_asym].
  - constructor; [by constructor|by constructor].
Qed.

Lemma sort_by_created_at_sorted l : Sorted not_earlier (sort_by_created_at l).
Proof.
  induction l as [|n l IH]; [constructor|].
  unfold sort_by_created_at in *. simpl. by apply insert_by_created_at_sorted.
Qed.

(** X22. A notification that is created is stored at the end of the list
    of its user and is then listed for that user, among all and among the
    unread ones; the lists of the other users are not touched. *)
Theorem notification_is_listed (notification_id created_at user content kind : string)
    store :
  let r := create_in_app_notification notification_id created_at user content kind store in
  let n := new_notification notification_id created_at user content kind in
  (∃ result, fst r = Returns result
             ∧ result !! "success" = Some (JBool true)
             ∧ result !! "notification_id" = Some (JStr notification_id))
  ∧ snd r !! user = Some (default [] (store !! user) ++ [n])%list
  ∧ (∀ unread_only, In n (fst (get_user_notifications user unread_only (snd r))))
  ∧ (∀ other, other ≠ user → snd r !! other = store !! other).
Proof.
  intros r n. subst r. unfold create_in_app_notification. cbn [fst snd].
  split; [eexists; split; [reflexivity|]; split; by simplify_map_eq|].
  split; [by rewrite lookup_insert_eq|].
  split; [|intros other Hne; by rewrite lookup_insert_ne].
  intros unread_only. unfold get_user_notifications. rewrite lookup_insert_eq.
  fold n. destruct unread_only; cbn [fst].
  - apply (Permutation_in _ (symmetry (sort_by_created_at_perm _))).
    apply List.filter_In. split; [|done]. apply List.in_or_app. right. by left.
  - apply (Permutation_in _ (symmetry (sort_by_created_at_perm _))).
    apply List.in_or_app. right. by left.
Qed.

(** X23. The notifications of a user are listed latest first: no
    notification of the list is earlier than the one that follows it, and
    the list holds exactly the notifications of the user, or exactly the
    unread ones. Listing all of them reorders the stored list, listing the
    unread ones leaves the store as it is; no notification is lost. *)
Theorem notifications_latest_first (user : string) (unread_only : bool) store :
  let r := get_user_notifications user unread_only store in
  let stored := default [] (store !! user) in
  Sorted not_earlier (fst r)
  ∧ fst r ≡ₚ (if unread_only then List.filter (λ n, negb (ntf_read n)) stored else stored)
  ∧ (∀ u, default [] (snd r !! u) ≡ₚ default [] (store !! u))
  ∧ (unread_only = true → snd r = store)
  ∧ (unread_only = false → default [] (snd r !! user) = fst r).
Proof.
  intros r stored. subst r stored. unfold get_user_notifications.
  destruct (store !! user) as [notifications|] eqn:Hu; cbn [default from_option id].
  - destruct unread_only; cbn [fst snd].
    + split; [apply sort_by_created_at_sorted|].
      split; [apply sort_by_created_at_perm|]. done.
    + split; [apply sort_by_created_at_sorted|].
      split; [apply sort_by_created_at_perm|].
      split; [|split; [done|intros _; by rewrite lookup_insert_eq]].
      intros u. destruct (decide (u = user)) as [->|Hne].
      * rewrite lookup_insert_eq, Hu. apply sort_by_created_at_perm.
      * by rewrite lookup_insert_ne.
  - cbn [fst snd]. rewrite Hu. split; [constructor|].
    split; [by destruct unread_only|]. done.
Qed.

Lemma mark_first_spec read_at notification_id l :
  match mark_first read_at notification_id l with
  | Some l' =>
      ∃ before n after,
        l = (before ++ n :: after)%list
        ∧ Forall (λ m, ntf_id m ≠ notification_id) before
        ∧ ntf_id n = notification_id
        ∧ l' = (before ++ set_read read_at n :: after)%list
  | None => Forall (λ m, ntf_id m ≠ notification_id) l
  end.
Proof.
  induction l as [|m rest IH]; simpl; [constructor|].
  destruct (String.eqb_spec (ntf_id m) notification_id) as [Heq|Hne].
  - by exists [], m, rest.
  - destruct (mark_first read_at notification_id rest) as [rest'|].
    + destruct IH as (before & n & after & -> & Hb & Hn & ->).
      exists (m :: before), n, after. repeat split; try done. by constructor.
    + by constructor.
Qed.

(** X24. Marking a notification as read answers [False] and changes
    nothing when the user has no notification with the id; otherwise it
    answers [True] and marks the first notification with the id in the
    list of the user, with the time of the call, and nothing else
    changes. *)
Theorem mark_read_marks_the_first (read_at user notification_id : string) store :
  let r := mark_notification_read read_at user notification_id store in
  let stored := default [] (store !! user) in
  (fst r = false →
     snd r = store ∧ Forall (λ m, ntf_id m ≠ notification_id) stored)
  ∧ (fst r = true →
       ∃ before n after,
         stored = (before ++ n :: after)%list
         ∧ Forall (λ m, ntf_id m ≠ notification_id) before
         ∧ ntf_id n = notification_id
         ∧ snd r = <[user := (before ++ set_read read_at n :: after)%list]> store
         ∧ ntf_read (set_read read_at n) = true
         ∧ ntf_read_at (set_read read_at n) = Some read_at
         ∧ ntf_content (set_read read_at n) = ntf_content n)
  ∧ (∀ other, other ≠ user → snd r !! other = store !! other).
Proof.
  intros r stored. subst r stored. unfold mark_notification_read.
  destruct (store !! user) as [notifications|] eqn:Hu; cbn [default from_option id].
  - pose proof (mark_first_spec read_at notification_id notifications) as Hspec.
    destruct (mark_first read_at notification_id notifications) as [l'|]; cbn [fst snd].
    + split; [done|]. split.
      * intros _. destruct Hspec as (before & n & after & -> & Hb & Hn & ->).
        by exists before, n, after.
      * intros other Hne. by rewrite lookup_insert_ne.
    + done.
  - cbn [fst snd]. split; [by split|]. done.
Qed.

(** X25. [_send_report] does not read what the channel answered. Over
    Slack the report counts as sent whenever the call came back, even when
    Slack refused the message; over WhatsApp always; in-app it is stored
    as a notification of type [report] for the doctor. Only a channel that
    is none of the three gives a failure, and nothing is stored then. *)
Theorem send_report_outcomes (io : SlackIO) (notification_id created_at doctor_id_arg
    report_content channel : string) store :
  let r := _send_report io notification_id created_at doctor_id_arg report_content
             channel store in
  let sent : Dict :=
    <["success" := JBool true]>
      (<["channel" := JStr channel]>
      (<["message" := JStr ("Report sent successfully via " +:+ channel +:+ "!")]> ∅)) in
  (channel = "slack" →
     completes (webhook_post io (slack_webhook_url io) report_content) →
     completes (chat_postMessage io "#doctor-reports" report_content) →
     r = (Returns sent, store))
  ∧ (channel = "slack" →
     ∀ status text,
       is_nonempty (slack_webhook_url io) = true →
       webhook_post io (slack_webhook_url io) report_content = Returns (status, text) →
       status ≠ 200 →
       send_slack_message io report_content "#doctor-reports"
       = Returns (delivery false ("Slack error: " +:+ text))
       ∧ r = (Returns sent, store))
  ∧ (channel = "whatsapp" → r = (Returns sent, store))
  ∧ (channel = "in_app" →
       fst r = Returns sent
       ∧ snd r = <[doctor_id_arg :=
                    (default [] (store !! doctor_id_arg)
                     ++ [new_notification notification_id created_at doctor_id_arg
                           report_content "report"])%list]> store)
  ∧ (¬ In channel ["slack"; "whatsapp"; "in_app"] →
       r = (Returns (delivery false ("Unknown channel: " +:+ channel)), store)).
Proof.
  intros r sent. subst r sent. unfold _send_report.
  split; [|split; [|split; [|split]]].
  - intros -> Hpost Hchat. cbn [String.eqb Ascii.eqb Bool.eqb]. cbv iota.
    unfold send_slack_message, completes in *.
    destruct (is_nonempty (slack_webhook_url io)).
    + destruct (webhook_post io (slack_webhook_url io) report_content) as [[status text]|e|];
        [|cbn; by destruct (slack_api_error io e)|done].
      cbn. by destruct (status =? 200).
    + destruct (slack_has_client io); [|done].
      destruct (chat_postMessage io "#doctor-reports" report_content) as [[]|e|];
        [done|cbn; by destruct (slack_api_error io e)|done].
  - intros -> status text Hurl Hpost Hstatus. cbn [String.eqb Ascii.eqb Bool.eqb]. cbv iota.
    unfold send_slack_message. rewrite Hurl, Hpost. cbn.
    apply Z.eqb_neq in Hstatus. by rewrite Hstatus.
  - by intros ->.
  - by intros ->.
  - intros Hnot.
    destruct (String.eqb_spec channel "slack") as [->|_]; [destruct Hnot; simpl; tauto|].
    destruct (String.eqb_spec channel "whatsapp") as [->|_]; [destruct Hnot; simpl; tauto|].
    destruct (String.eqb_spec channel "in_app") as [->|_]; [destruct Hnot; simpl; tauto|].
    done.
Qed.

End Notifications.

(** ** The calendar and the mail *)

Section CalendarAndMail.

Context (E : Env).



(** X27. With the calendar and the mail of the repository behind the
    tools, a booking of a free slot always reports [email_sent: true] and
    stores [confirmation_sent], also when SendGrid refused the message or
    failed, because [send_email] answers [False] instead of raising and
    the answer is not read; and without calendar credentials the
    appointment gets a [demo_] event id. *)
Theorem booking_with_the_services (api : GoogleAPI) (mail : SendGrid)
    (html : string → string → string → string → string)
    (doctor_name_arg patient_email appointment_datetime symptoms : string) (w : World)
    (doctor : Doctor) (user : User) (patient : Patient) (appt_time : datetime) :
  let E' := with_services E api mail html in
  doctors_matching E' doctor_name_arg w = [doctor] →
  patient_users patient_email w = [user] →
  patients_of_user (user_id user) w = [patient] →
  parse_iso_or_natural E' (dt_date (w_now w)) appointment_datetime = Returns appt_time →
  existing_at doctor appt_time w = [] →
  completes (get_service api) →
  (∀ summary t1 t2 description attendees,
     completes (events_insert api summary t1 t2 description attendees)) →
  (∀ to_email subject body, completes (sendgrid_send mail to_email subject body)) →
  let r := _schedule_appointment E' doctor_name_arg patient_email appointment_datetime
             symptoms w in
  ∃ result details booked,
    fst r = Returns result
    ∧ result !! "success" = Some (JBool true)
    ∧ result !! "details" = Some (JDict details)
    ∧ details !! "email_sent" = Some (JBool true)
    ∧ last (w_appointments (snd r)) = Some booked
    ∧ booking booked = (doctor_id doctor, appt_time, SCHEDULED)
    ∧ appt_confirmation_sent booked = true
    ∧ (get_service api ≠ Returns true →
         details !! "calendar_event" = Some (JBool true)
         ∧ appt_google_calendar_event_id booked = Some (demo_event_id E appt_time)).
Proof.
  intros E' Hd Hu Hp Ht Hx Hservice Hinsert Hsend r.
  set (calendar :=
         create_event E api
           ("Appointment: " +:+ patient_name patient +:+ " with Dr. " +:+ doctor_name doctor)
           appt_time (doctor_consultation_duration doctor)
           (if is_nonempty symptoms then "Symptoms: " +:+ symptoms else "Regular checkup")
           [patient_email]).
  set (sending :=
         send_appointment_confirmation E mail html patient_email (patient_name patient)
           (doctor_name doctor) appt_time symptoms).
  assert (∃ ev, calendar = Returns ev
                ∧ (get_service api ≠ Returns true → ev = Some (demo_event_id E appt_time)))
    as (ev & Hev & Hdemo).
  { subst calendar. unfold create_event, try_outcome, completes in *.
    destruct (get_service api) as [[]|e|]; cbn; [|by eexists|by eexists|done].
    specialize (Hinsert
      ("Appointment: " +:+ patient_name patient +:+ " with Dr. " +:+ doctor_name doctor)
      appt_time (appt_time + timedelta_minutes (doctor_consultation_duration doctor))
      (if is_nonempty symptoms then "Symptoms: " +:+ symptoms else "Regular checkup")
      [patient_email]).
    destruct (events_insert api _ _ _ _ _) as [x|e|]; [|by eexists|done].
    by exists x. }
  assert (∃ b, sending = Returns b) as (b & Hb).
  { subst sending. unfold send_appointment_confirmation, send_email, try_outcome.
    destruct (sendgrid_has_client mail); cbn; [|by eexists].
    match goal with |- context [sendgrid_send mail ?a ?b ?c] =>
      specialize (Hsend a b c); unfold completes in Hsend;
      destruct (sendgrid_send mail a b c) as [z|e|] end; [|by eexists|done].
    by eexists. }
  destruct (schedule_outcome E' doctor_name_arg patient_email appointment_datetime
              symptoms w doctor user patient appt_time Hd Hu Hp Ht Hx)
    as (result & details & booked & Hr & Hok & Hdet & Hcal & Hmail & Hlast & Hbook
        & Hevent & Hsent).
  { change (completes calendar). rewrite Hev. done. }
  { change (completes sending). rewrite Hb. done. }
  change (calendar_create_event E' _ _ _ _ _) with calendar in Hcal, Hevent.
  change (email_send_appointment_confirmation E' _ _ _ _ _) with sending in Hmail, Hsent.
  rewrite Hev in Hcal, Hevent. rewrite Hb in Hmail, Hsent.
  exists result, details, booked. repeat split; try done.
  - rewrite Hcal. rewrite (Hdemo H). done.
  - rewrite Hevent. by apply Hdemo.
Qed.

End CalendarAndMail.

(** ** Dates that fall back to today, and slots that are taken *)

Section Offers.

Context (E : Env).

Lemma next_weekday_none today text ds : ∀ i,
  (∀ day, In day ds → contains day text = false) →
  next_weekday today text i ds = None.
Proof.
  induction ds as [|day rest IH]; intros i Hnot; simpl; [done|].
  rewrite (Hnot day) by (by left). apply IH. intros d Hd. apply Hnot. by right.
Qed.

Lemma parse_datetime_date today dt_str t :
  _parse_datetime E today dt_str = Returns t → dt_date t = _parse_date E today dt_str.
Proof.
  unfold _parse_datetime.
  destruct (re_search_time E dt_str) as [[[h m] p]|].
  - cbv zeta.
    match goal with |- context [negb ((0 <=? ?x) && (?x <=? 23))] => set (h' := x) end.
    set (m' := default 0 m).
    destruct ((0 <=? h') && (h' <=? 23)) eqn:Hh; [|done].
    destruct ((0 <=? m') && (m' <=? 59)) eqn:Hm; [|done].
    simpl. intros [= <-].
    by destruct (time_of_hm_parts (_parse_date E today dt_str) h' m' ltac:(lia) ltac:(lia)).
  - intros [= <-].
    by destruct (time_of_hm_parts (_parse_date E today dt_str) 9 0 ltac:(lia) ltac:(lia)).
Qed.

(** X28. A date that is not exactly one of the words [today], [now],
    [tomorrow], [yesterday], that names no weekday after [next], and that
    none of the five formats parses, is read as today, without an error.
    So a text with a day word and something more, such as a time of day,
    is given the date of today, and [_parse_datetime] puts its time on
    today. *)
Theorem parse_date_falls_back_to_today (today : date) (date_str : string) :
  let text := strip (lower date_str) in
  ¬ In text ["today"; "now"; "tomorrow"; "yesterday"] →
  contains "next" text = false ∨ (∀ day, In day days → contains day text = false) →
  (∀ fmt, In fmt date_formats → strptime_date E text fmt = None) →
  _parse_date E today date_str = today
  ∧ (∀ t, _parse_datetime E today date_str = Returns t → dt_date t = today)
  ∧ (∀ t, parse_iso_or_natural E today date_str = Returns t →
          fromisoformat E (replace_Z date_str) = None → dt_date t = today).
Proof.
  intros text Hword Hnext Hfmt.
  assert (parse_date_formats E today text = today) as Hformats.
  { unfold parse_date_formats. cbn [try_formats].
    assert (∀ fmt, In fmt date_formats → strptime_date E text fmt = None) as H by done.
    unfold date_formats in H. simpl in H.
    rewrite !H by auto 10. done. }
  assert (_parse_date E today date_str = today) as Hdate.
  { unfold _parse_date. fold text.
    destruct (String.eqb_spec text "today") as [Heq|_]; [destruct Hword; rewrite Heq; simpl; tauto|].
    destruct (String.eqb_spec text "now") as [Heq|_]; [destruct Hword; rewrite Heq; simpl; tauto|].
    destruct (String.eqb_spec text "tomorrow") as [Heq|_]; [destruct Hword; rewrite Heq; simpl; tauto|].
    destruct (String.eqb_spec text "yesterday") as [Heq|_]; [destruct Hword; rewrite Heq; simpl; tauto|].
    cbn [orb]. destruct Hnext as [Hnext|Hdays].
    - by rewrite Hnext.
    - rewrite (next_weekday_none _ _ _ _ Hdays). by destruct (contains "next" text). }
  split; [exact Hdate|].
  assert (∀ t, _parse_datetime E today date_str = Returns t → dt_date t = today) as Hdt.
  { intros t Ht.
    by rewrite (parse_datetime_date today date_str t Ht). }
  split; [exact Hdt|].
  intros t Ht Hiso. unfold parse_iso_or_natural in Ht. rewrite Hiso in Ht. by apply Hdt.
Qed.

(** X29. The slots that [_check_availability] offers are the texts of
    the starts of the windows of the day, window after window and in the
    order of time within a window, at which the doctor has no appointment
    that is [scheduled] or [rescheduled]: an instant is offered exactly
    when it is such a start and is not booked, and no appointment of the
    doctor that is still due stands at an offered instant. *)
Theorem booked_instants_are_not_offered (fuel : nat) (doctor_name_arg date_arg : string)
    (w : World) (doctor : Doctor) (windows : list (datetime * datetime)) :
  let target_date := _parse_date E (dt_date (w_now w)) date_arg in
  let duration := doctor_consultation_duration doctor in
  let booked_times := List.map appt_scheduled_time (booked_on doctor target_date w) in
  doctors_matching E doctor_name_arg w = [doctor] →
  0 < duration →
  day_windows target_date
    (default [] (doctor_available_slots doctor !! day_name target_date)) = Some windows →
  Forall (λ win, (window_count duration win.1 win.2 < fuel)%nat) windows →
  ∃ result offered,
    _check_availability E fuel doctor_name_arg date_arg w = (Returns result, w)
    ∧ result !! "available_slots"
      = Some (JList (List.map JStr (List.map strftime_I_M_p offered)))
    ∧ offered = free_starts duration booked_times windows
    ∧ (∀ t, In t offered
            ↔ (∃ win k, In win windows
                        ∧ 0 ≤ k
                        ∧ t = win.1 + k * timedelta_minutes duration
                        ∧ t + timedelta_minutes duration ≤ win.2)
              ∧ ¬ In t booked_times)
    ∧ (∀ a, In a (w_appointments w) →
            appt_doctor_id a = doctor_id doctor →
            dt_date (appt_scheduled_time a) = target_date →
            is_booked_status (appt_status a) = true →
            ¬ In (appt_scheduled_time a) offered).
Proof.
  intros target_date duration booked_times Hd Hpos Hwin Hfuel.
  destruct (check_availability_offered E fuel doctor_name_arg date_arg w doctor windows
              Hd Hpos Hwin Hfuel) as (result & Hr & Hslots).
  exists result, (free_starts duration booked_times windows).
  split; [exact Hr|]. split; [exact Hslots|]. split; [reflexivity|].
  split.
  { intros t. rewrite free_starts_spec. split.
    - intros [(win & Hin & Ht) Hfree]. split; [|done].
      apply (window_starts_spec duration win.1 win.2 t Hpos) in Ht as (k & Hk & Heq & Hfit).
      by exists win, k.
    - intros [(win & k & Hin & Hk & Heq & Hfit) Hfree]. split; [|done].
      exists win. split; [done|].
      apply (window_starts_spec duration win.1 win.2 t Hpos). by exists k. }
  intros a Hin Hdoc Hday Hst Hoffered.
  apply free_starts_spec in Hoffered as [_ Hfree]. apply Hfree.
  by apply booked_on_time.
Qed.




End Offers.

Import More.

(** * The added statements on the clinic *)

Lemma parse_date_next_weekday_witness :
  contains "next" (strip (lower "Next Friday")) = true
  ∧ weekday (_parse_date env monday "Next Friday") = 4
  ∧ monday < _parse_date env monday "Next Friday" ≤ monday + 7.
Proof.
  split; [vm_compute; reflexivity|].
  apply (parse_date_next_weekday env monday "Next Friday" 4).
  - vm_compute. reflexivity.
  - lia.
  - vm_compute. reflexivity.
  - intros j Hj. do 4 (destruct j as [|j]; [vm_compute; reflexivity|]). lia.
Defined.

Lemma ambiguous_doctor_name_witness :
  doctors_matching env "Smith" two_smiths = [dr_smith; dr_john]
  ∧ _schedule_appointment env "Smith" "pat@example.com" "2024-01-01T10:00:00" "cough"
      two_smiths
    = (Raises "Multiple rows were found when one or none was required", two_smiths)
  ∧ execute_tool env 10 "check_doctor_availability"
      (<["doctor_name" := JStr "Smith"]> (<["date" := JStr "today"]> ∅)) two_smiths
    = (Returns (error_payload "Multiple rows were found when one or none was required"),
       two_smiths).
Proof.
  assert (doctors_matching env "Smith" two_smiths = [dr_smith; dr_john]) as Hd
    by (vm_compute; reflexivity).
  split; [exact Hd|].
  destruct (ambiguous_doctor_name env 10 "Smith" two_smiths dr_smith dr_john [] Hd)
    as (_ & Hschedule & Hexec).
  split; [apply Hschedule|apply Hexec].
Defined.

Lemma schedule_reports_side_effects_witness :
  doctors_matching env "Smith" clinic = [dr_smith]
  ∧ existing_at dr_smith ten clinic = []
  ∧ ∃ result details booked,
      fst (_schedule_appointment env "Smith" "pat@example.com" "2024-01-01T10:00:00"
             "cough" clinic) = Returns result
      ∧ result !! "details" = Some (JDict details)
      ∧ details !! "calendar_event" = Some (JBool true)
      ∧ details !! "email_sent" = Some (JBool true)
      ∧ booking booked = (7%N, ten, SCHEDULED).
Proof.
  assert (doctors_matching env "Smith" clinic = [dr_smith]) as Hd
    by (vm_compute; reflexivity).
  assert (existing_at dr_smith ten clinic = []) as Hx by (vm_compute; reflexivity).
  split; [exact Hd|]. split; [exact Hx|].
  destruct (schedule_reports_side_effects env "Smith" "pat@example.com"
              "2024-01-01T10:00:00" "cough" clinic dr_smith pat_user pat ten Hd)
    as (result & details & booked & Hr & _ & Hdet & Hcal & Hmail & _ & Hbook & _);
    try (vm_compute; reflexivity); try discriminate.
  exists result, details, booked. repeat split; try done.
Defined.

Lemma reschedule_never_checks_conflicts_witness :
  let w := with_appointments [appointment_50 nine SCHEDULED; appointment_51 ten SCHEDULED] in
  let r := _reschedule_appointment env "50" "2024-01-01T10:00:00" false w in
  appointments_by_id 50%N w = [appointment_50 nine SCHEDULED]
  ∧ succeeded (fst r) = true
  ∧ In (appointment_51 ten SCHEDULED) (w_appointments (snd r))
  ∧ In (appointment_50 ten RESCHEDULED) (w_appointments (snd r)).
Proof.
  intros w r.
  assert (appointments_by_id 50%N w = [appointment_50 nine SCHEDULED]) as Ha
    by (vm_compute; reflexivity).
  split; [exact Ha|].
  destruct (reschedule_never_checks_conflicts env "50" "2024-01-01T10:00:00" w 50%N
              (appointment_50 nine SCHEDULED) (appointment_51 ten SCHEDULED) ten)
    as (Hok & Hother & Hmoved & _); try (vm_compute; reflexivity); try done.
  right. by left.
Defined.

Lemma ill_fitting_arguments_witness :
  tool_signature "cancel_appointment"
  = Some ("_cancel_appointment", ["appointment_id"], ["reason"; "notify_patient"])
  ∧ execute_tool env 10 "cancel_appointment" (<["reason" := JStr "ill"]> ∅) clinic
    = (Returns (error_payload "_cancel_appointment() got unexpected or missing arguments"),
       clinic).
Proof.
  split; [reflexivity|].
  apply (ill_fitting_arguments env 10 "cancel_appointment" (<["reason" := JStr "ill"]> ∅)
           clinic "_cancel_appointment" ["appointment_id"] ["reason"; "notify_patient"]).
  - reflexivity.
  - vm_compute. reflexivity.
Defined.

Lemma process_message_records_reply_witness :
  let r := process_message env 5 "hello" "2" (Some "s1") "patient" clinic in
  fst r = Returns (value no_reply r)
  ∧ reply_message (value no_reply r) = "How can I help you today?"
  ∧ reply_session_id (value no_reply r) = "s1"
  ∧ ∃ record,
      last (w_prompts (snd r)) = Some record
      ∧ ph_prompt record = "hello"
      ∧ ph_response record = "How can I help you today?".
Proof.
  intros r.
  assert (r = (Returns (value no_reply r), snd r)) as Hr by (vm_compute; reflexivity).
  split; [by rewrite Hr at 1|].
  destruct (process_message_records_reply env 5 "hello" "2" (Some "s1") "patient" clinic
              (value no_reply r) (snd r) Hr)
    as (_ & Hsid & record & Hlast & Hprompt & Hresponse & _).
  split; [vm_compute; reflexivity|].
  split; [by apply Hsid|].
  exists record. split; [exact Hlast|]. split; [exact Hprompt|].
  rewrite Hresponse. vm_compute. reflexivity.
Defined.

Lemma process_message_bad_user_id_witness :
  uuid_parse env "not-a-uuid" = None
  ∧ fst (process_message env 5 "hello" "not-a-uuid" None "patient" clinic)
    = Raises "badly formed hexadecimal UUID string"
  ∧ w_conversations (snd (process_message env 5 "hello" "not-a-uuid" None "patient" clinic))
    = [].
Proof.
  assert (uuid_parse env "not-a-uuid" = None) as Hid by (vm_compute; reflexivity).
  split; [exact Hid|].
  destruct (process_message_bad_user_id env 5 "hello" "not-a-uuid" None "patient" clinic Hid)
    as (Hraise & Hconv & _).
  split; [exact Hraise|exact Hconv].
Defined.

Lemma process_message_plain_answer_witness :
  active_conversations 2%N "s1" clinic = []
  ∧ ∃ reply w',
      process_message env 5 "hello" "2" (Some "s1") "patient" clinic = (Returns reply, w')
      ∧ reply_message reply = "How can I help you today?"
      ∧ reply_rounds reply = 1%nat
      ∧ List.map conv_session_id (w_conversations w') = ["s1"]
      ∧ List.map (λ c, length (conv_messages c)) (w_conversations w') = [2%nat].
Proof.
  split; [vm_compute; reflexivity|].
  destruct (process_message_plain_answer env 5 "hello" "2" "s1" "patient" clinic 2%N)
    as (reply & w' & Hr & Hmsg & _ & _ & Hrounds & _ & Hconv & _);
    try (vm_compute; reflexivity).
  { vm_compute. lia. }
  exists reply, w'. split; [exact Hr|]. split; [rewrite Hmsg; vm_compute; reflexivity|].
  split; [exact Hrounds|]. rewrite Hconv. split; vm_compute; reflexivity.
Defined.

Lemma cleared_session_starts_afresh_witness :
  let w := with_conversation long_conversation in
  conversations_of 2%N "s1" w = [long_conversation]
  ∧ ∃ w1 fresh,
      clear_conversation env "2" "s1" w = (Returns true, w1)
      ∧ List.map (λ c, length (conv_messages c)) (w_conversations w1) = [15%nat]
      ∧ _get_or_create_conversation env "2" "s1" w1 = (Returns (fresh, true), snd (fresh_uuid w1))
      ∧ conv_messages fresh = [].
Proof.
  intros w.
  assert (conversations_of 2%N "s1" w = [long_conversation]) as Hc
    by (vm_compute; reflexivity).
  split; [exact Hc|].
  destruct (cleared_session_starts_afresh env "2" "s1" w 2%N long_conversation)
    as (w1 & fresh & Hclear & Hkeep & _ & _ & _ & _ & _ & Hnew & _ & Hempty & _);
    [vm_compute; reflexivity|exact Hc|].
  exists w1, fresh. split; [exact Hclear|]. split; [|by split].
  rewrite <- (List.map_map conv_messages (@length Turn)), Hkeep.
  vm_compute. reflexivity.
Defined.

Lemma booking_arguments_filled_in_witness :
  session_get user_id (w_users clinic) 2%N = Some pat_user
  ∧ executed_arguments clinic 2%N "patient" ∅ "schedule_appointment" ∅ !! "patient_email"
    = Some (JStr "pat@example.com")
  ∧ executed_arguments clinic 2%N "patient" ∅ "schedule_appointment"
      (<["patient_email" := JStr "someone@else.example"]> ∅) !! "patient_email"
    = Some (JStr "someone@else.example").
Proof.
  assert (session_get user_id (w_users clinic) 2%N = Some pat_user) as Hu
    by (vm_compute; reflexivity).
  split; [exact Hu|]. split.
  - destruct (booking_arguments_filled_in clinic 2%N ∅ ∅ pat_user Hu) as (Hmissing & _).
    by apply Hmissing.
  - destruct (booking_arguments_filled_in clinic 2%N ∅
                (<["patient_email" := JStr "someone@else.example"]> ∅) pat_user Hu)
      as (_ & Hgiven & _).
    apply Hgiven. vm_compute. reflexivity.
Defined.

Lemma availability_then_booking_witness :
  let r := handle_tool_call env 10 2%N "patient" ∅
             (call "check_doctor_availability" payload_check_smith_today) clinic in
  let context1 := (value (∅, Msg "" "") r).1 in
  fst r = Returns (value (∅, Msg "" "") r)
  ∧ executed_arguments clinic 2%N "patient" context1 "schedule_appointment" ∅
      !! "doctor_name"
    = Some (JStr "Sarah Smith").
Proof.
  intros r context1.
  assert (r = (Returns (context1, (value (∅, Msg "" "") r).2), snd r)) as Hr
    by (vm_compute; reflexivity).
  split; [vm_compute; reflexivity|].
  destruct (availability_then_booking env 10 2%N "patient" ∅
              (call "check_doctor_availability" payload_check_smith_today) clinic
              context1 (value (∅, Msg "" "") r).2 (snd r) eq_refl Hr)
    as (result & Hexec & Hcaptured & _).
  apply (f_equal (value ∅)) in Hexec. unfold value at 2 in Hexec.
  cbn [fst] in Hexec. subst result.
  rewrite (Hcaptured ltac:(vm_compute; reflexivity) ∅ clinic (lookup_empty _)).
  vm_compute. reflexivity.
Defined.

Lemma rescheduled_leaves_the_day_counts_witness :
  let w := with_appointments [appointment_50 nine SCHEDULED] in
  let w1 := snd (_reschedule_appointment env "50" "2024-01-02T10:00:00" false w) in
  List.map booking (w_appointments w1) = [(7%N, ten + us_per_day, RESCHEDULED)]
  ∧ stats_count (fst (_get_patient_stats env "7" "today" None w)) = Some 1
  ∧ stats_count (fst (_get_patient_stats env "7" "today" None w1)) = Some 0
  ∧ stats_count (fst (_get_patient_stats env "7" "tomorrow" None w1)) = Some 0.
Proof.
  intros w w1.
  split; [vm_compute; reflexivity|].
  destruct (rescheduled_leaves_the_day_counts env "50" "2024-01-02T10:00:00" "7" "today"
              w 50%N 7%N (appointment_50 nine SCHEDULED) dr_smith (ten + us_per_day))
    as (Hbefore & Hafter); try (vm_compute; reflexivity).
  { intros ev. discriminate. }
  { right. by left. }
  split; [rewrite Hbefore; vm_compute; reflexivity|].
  split; [fold w1 in Hafter; rewrite Hafter; vm_compute; reflexivity|].
  vm_compute. reflexivity.
Defined.

Lemma booking_with_the_services_witness :
  let E' := with_services env no_calendar refusing_mail plain_page in
  send_appointment_confirmation env refusing_mail plain_page "pat@example.com" "Pat Jones"
    "Sarah Smith" ten "cough" = Returns false
  ∧ ∃ result details booked,
      fst (_schedule_appointment E' "Smith" "pat@example.com" "2024-01-01T10:00:00"
             "cough" clinic) = Returns result
      ∧ result !! "success" = Some (JBool true)
      ∧ result !! "details" = Some (JDict details)
      ∧ details !! "email_sent" = Some (JBool true)
      ∧ last (w_appointments
                (snd (_schedule_appointment E' "Smith" "pat@example.com"
                        "2024-01-01T10:00:00" "cough" clinic))) = Some booked
      ∧ appt_confirmation_sent booked = true.
Proof.
  intros E'. split; [vm_compute; reflexivity|].
  destruct (booking_with_the_services env no_calendar refusing_mail plain_page
              "Smith" "pat@example.com" "2024-01-01T10:00:00" "cough" clinic
              dr_smith pat_user pat ten)
    as (result & details & booked & Hr & Hok & Hdet & Hmail & Hlast & _ & Hsent & _);
    try (vm_compute; reflexivity); try (intros; discriminate).
  by exists result, details, booked.
Defined.

Lemma parse_date_falls_back_to_today_witness :
  contains "next" (strip (lower "Tomorrow at 3pm")) = false
  ∧ _parse_date env monday "Tomorrow at 3pm" = monday
  ∧ _parse_datetime with_times monday "tomorrow at 3pm"
    = Returns (combine monday (time_of_hm 15 0)).
Proof.
  split; [vm_compute; reflexivity|]. split.
  - apply (parse_date_falls_back_to_today env monday "Tomorrow at 3pm").
    + vm_compute. intros H. repeat (destruct H as [H|H]; [discriminate H|]). exact H.
    + left. vm_compute. reflexivity.
    + intros fmt _. reflexivity.
  - vm_compute. reflexivity.
Defined.

Lemma booked_instants_are_not_offered_witness :
  let w := with_appointments [appointment_50 ten SCHEDULED] in
  day_windows monday [morning] = Some [morning_window]
  ∧ ∃ result offered,
      _check_availability env 10 "Smith" "today" w = (Returns result, w)
      ∧ result !! "available_slots"
        = Some (JList (List.map JStr (List.map strftime_I_M_p offered)))
      ∧ ¬ In ten offered
      ∧ In nine offered.
Proof.
  intros w. split; [vm_compute; reflexivity|].
  assert (doctors_matching env "Smith" w = [dr_smith]) as Hd by (vm_compute; reflexivity).
  assert (0 < doctor_consultation_duration dr_smith) as Hpos by (vm_compute; reflexivity).
  assert (day_windows (_parse_date env (dt_date (w_now w)) "today")
            (default [] (doctor_available_slots dr_smith
                           !! day_name (_parse_date env (dt_date (w_now w)) "today")))
          = Some [morning_window]) as Hwin by (vm_compute; reflexivity).
  assert (Forall (λ win, (window_count (doctor_consultation_duration dr_smith)
                            win.1 win.2 < 10)%nat) [morning_window]) as Hfuel.
  { constructor; [|constructor]. vm_compute. lia. }
  destruct (booked_instants_are_not_offered env 10 "Smith" "today" w dr_smith
              [morning_window] Hd Hpos Hwin Hfuel)
    as (result & offered & Hr & Hslots & _ & Hspec & Hbooked).
  exists result, offered. split; [exact Hr|]. split; [exact Hslots|]. split.
  - apply (Hbooked (appointment_50 ten SCHEDULED)); [by left|reflexivity..].
  - apply Hspec. split.
    + exists morning_window, 0. split; [by left|]. vm_compute. repeat split; discriminate.
    + vm_compute. intros [H|[]]. discriminate H.
Defined.


Lemma parse_datetime_lands_witness :
  _parse_datetime with_times monday "12:30 AM" = Returns (combine monday (time_of_hm 0 30))
  ∧ dt_hour (combine monday (time_of_hm 0 30)) = 0
  ∧ _parse_datetime with_times monday "at 25" = Raises "hour must be in 0..23".
Proof.
  assert (_parse_datetime with_times monday "12:30 AM"
          = Returns (combine monday (time_of_hm 0 30))) as Hmidnight
    by (vm_compute; reflexivity).
  destruct (parse_datetime_lands with_times monday "12:30 AM") as [Hlands _].
  destruct (Hlands _ Hmidnight) as (_ & _ & _ & _ & _ & _ & Ham).
  destruct (parse_datetime_lands with_times monday "at 25") as [_ Hraise].
  split; [exact Hmidnight|]. split.
  - apply (Ham (Some 30) "AM"); reflexivity.
  - apply (Hraise 25 None); [reflexivity|lia].
Defined.

Lemma clock_text_round_trip_witness :
  strptime_H_M "09:30" = Some (time_of_hm 9 30)
  ∧ strftime_I_M_p (combine monday (time_of_hm 13 5)) = "01:05 PM".
Proof.
  destruct clock_text_round_trip as [Hforth _].
  destruct (Hforth 9 30 monday) as (Hparse & _); [lia|lia|].
  destruct (Hforth 13 5 monday) as (_ & Hprint & _); [lia|lia|].
  split; [exact Hparse|exact Hprint].
Defined.

Lemma check_availability_soft_paths_witness :
  (∃ result,
     fst (_check_availability env 10 "Nobody" "today" clinic) = Returns result
     ∧ result !! "success" = Some (JBool false))
  ∧ (∃ result,
       fst (_check_availability env 10 "Smith" "tomorrow" clinic) = Returns result
       ∧ result !! "success" = Some (JBool true)
       ∧ result !! "available_slots" = Some (JList [])
       ∧ result !! "doctor_id" = None).
Proof.
  destruct (check_availability_soft_paths env 10 "Nobody" "today" clinic)
    as (_ & Hnone & _).
  destruct (check_availability_soft_paths env 10 "Smith" "tomorrow" clinic)
    as (_ & _ & Hclosed).
  split.
  - destruct Hnone as (result & Hr & Hfalse & _); [vm_compute; reflexivity|].
    by exists result.
  - destruct (Hclosed dr_smith) as (result & Hr & Hok & Hslots & _ & Hid);
      [vm_compute; reflexivity..|].
    by exists result.
Defined.

Lemma cancel_appointment_effect_witness :
  let w := with_appointments [appointment_50 nine COMPLETED; appointment_51 ten SCHEDULED] in
  let r := _cancel_appointment env "50" "ill" false w in
  succeeded (fst r) = true
  ∧ Forall2 (λ old new,
               if N.eqb (appt_id old) 50%N
               then appt_status new = CANCELLED ∧ appt_notes new = Some "Cancelled: ill"
               else new = old)
      (w_appointments w) (w_appointments (snd r)).
Proof.
  intros w r.
  destruct (cancel_appointment_effect env "50" "ill" w) as [_ Heffect].
  destruct (Heffect 50%N (appointment_50 nine COMPLETED) false) as [Hok Hframe];
    [vm_compute; reflexivity..|intros ev; discriminate|].
  fold r in Hok, Hframe. split; [by rewrite Hok|].
  eapply Forall2_impl; [exact Hframe|].
  intros old new H. cbv beta in H. destruct (N.eqb (appt_id old) 50%N); [|done].
  destruct H as (Hst & Hnotes & _). by split.
Defined.

Lemma this_week_window_witness :
  let a := appointment_50 (combine monday (time_of_hm 8 0)) SCHEDULED in
  weekday (dt_date now) = 0
  ∧ today_filter now 7%N a = true
  ∧ this_week_filter now 7%N a = false.
Proof.
  intros a.
  destruct (this_week_window now 7%N a) as (_ & _ & Hearlier).
  split; [vm_compute; reflexivity|].
  apply Hearlier; vm_compute; reflexivity.
Defined.

Lemma send_report_outcomes_witness :
  let io := {| slack_webhook_url := "https://hooks.example/T1";
               slack_has_client := false;
               webhook_post := λ _ _, Returns (500, "server_error");
               chat_postMessage := λ _ _, Returns tt;
               slack_api_error := λ _, None |} in
  send_slack_message io "3 visits today" "#doctor-reports"
  = Returns (delivery false "Slack error: server_error")
  ∧ (∃ result, fst (_send_report io "n1" "2024-01-01T08:15:00" "7" "3 visits today"
                      "slack" ∅) = Returns result
               ∧ result !! "success" = Some (JBool true))
  ∧ _send_report io "n1" "2024-01-01T08:15:00" "7" "3 visits today" "email" ∅
    = (Returns (delivery false "Unknown channel: email"), ∅).
Proof.
  intros io.
  destruct (send_report_outcomes io "n1" "2024-01-01T08:15:00" "7" "3 visits today"
              "slack" ∅) as (_ & Hrefused & _).
  destruct (Hrefused eq_refl 500 "server_error") as [Hslack Hreport];
    [reflexivity|reflexivity|lia|].
  destruct (send_report_outcomes io "n1" "2024-01-01T08:15:00" "7" "3 visits today"
              "email" ∅) as (_ & _ & _ & _ & Hunknown).
  split; [exact Hslack|]. split.
  - eexists. split; [by rewrite Hreport|]. by simplify_map_eq.
  - apply Hunknown. simpl. intros [H|[H|[H|[]]]]; discriminate H.
Defined.
